(** * Region files: a shallow embedding of [nbt/region.py]

    The development models the [RegionFile] class: the byte-level backing
    file with its cursor, the two dictionaries [header] and [chunk_headers],
    the parsers that rebuild them, and the read / write / unlink operations.
    Python exceptions are values of [exn]; every method is a computation in a
    state-and-exception monad over the object, so that a raised exception
    keeps the mutations made before it, as in Python. *)

From Stdlib Require Import ZArith List Lia String DecimalString.
From Stdlib.Strings Require Import Byte.
From stdpp Require Import gmap list.
Import ListNotations.
Open Scope Z_scope.

(** ** Bytes and [struct] packing *)

Definition Z_of_byte (b : byte) : Z := Z.of_N (Byte.to_N b).

Definition byte_of_Z (n : Z) : byte :=
  match Byte.of_N (Z.to_N (n mod 256)) with
  | Some b => b
  | None => x00
  end.

(** [unpack(">I", bs)]: four bytes, big endian; any other length is a
    [struct.error]. *)
Definition unpack_I (bs : list byte) : option Z :=
  match bs with
  | [a; b; c; d] =>
      Some (((Z_of_byte a * 256 + Z_of_byte b) * 256 + Z_of_byte c) * 256 + Z_of_byte d)
  | _ => None
  end.

(** [unpack(">B", bs)]. *)
Definition unpack_B (bs : list byte) : option Z :=
  match bs with
  | [a] => Some (Z_of_byte a)
  | _ => None
  end.

(** [unpack(">IB", bs)]: five bytes. *)
Definition unpack_IB (bs : list byte) : option (Z * Z) :=
  match bs with
  | [a; b; c; d; e] =>
      match unpack_I [a; b; c; d], unpack_B [e] with
      | Some i, Some l => Some (i, l)
      | _, _ => None
      end
  | _ => None
  end.

(** [pack(">I", n)] raises [struct.error] outside [0, 2^32). *)
Definition pack_I (n : Z) : option (list byte) :=
  if (0 <=? n) && (n <? 4294967296)
  then Some [byte_of_Z (n / 16777216); byte_of_Z (n / 65536);
             byte_of_Z (n / 256); byte_of_Z n]
  else None.

(** [pack(">B", n)] raises [struct.error] outside [0, 255]. *)
Definition pack_B (n : Z) : option (list byte) :=
  if (0 <=? n) && (n <=? 255) then Some [byte_of_Z n] else None.

Definition pack_IB (i b : Z) : option (list byte) :=
  match pack_I i, pack_B b with
  | Some x, Some y => Some (x ++ y)
  | _, _ => None
  end.

(** ** The backing file object: contents and cursor *)

Record File := mkFile { data : list byte; pos : Z }.

Definition flen (f : File) : Z := Z.of_nat (length (data f)).

(** [f.read(n)]: at most [n] bytes from the cursor (all the rest when [n] is
    negative); the cursor advances by what was read. *)
Definition file_read_raw (n : Z) (f : File) : list byte * File :=
  let rest := drop (Z.to_nat (pos f)) (data f) in
  let bs := if n <? 0 then rest else take (Z.to_nat n) rest in
  (bs, mkFile (data f) (pos f + Z.of_nat (length bs))).

(** [f.write(bs)]: overwrite from the cursor, extending the file; a cursor
    beyond the end leaves a hole of zero bytes. *)
Definition write_at (p : Z) (bs : list byte) (d : list byte) : list byte :=
  match bs with
  | [] => d
  | _ =>
      let n := Z.to_nat p in
      take n d ++ replicate (n - length d) x00 ++ bs ++ drop (n + length bs) d
  end.

Definition file_write_raw (bs : list byte) (f : File) : File :=
  mkFile (write_at (pos f) bs (data f)) (pos f + Z.of_nat (length bs)).

(** ** Exceptions *)

Inductive exn :=
| NoRegionHeader (msg : string)
| RegionHeaderError (msg : string)
| ChunkHeaderError (msg : string)
| ChunkDataError (msg : string)
| InconceivedChunk (msg : string)
| ValueError (msg : string)
| IndexError
| KeyError
| TypeError
| StructError
| OSError.

(** The subclasses of [RegionFileFormatError]; [InconceivedChunk] derives
    from [LookupError] and is not one of them. *)
Definition is_RegionFileFormatError (e : exn) : bool :=
  match e with
  | NoRegionHeader _ | RegionHeaderError _ | ChunkHeaderError _ | ChunkDataError _ => true
  | _ => false
  end.

Definition is_LookupError (e : exn) : bool :=
  match e with
  | InconceivedChunk _ | IndexError | KeyError => true
  | _ => false
  end.

Inductive result (A : Type) :=
| Ok (a : A)
| Raise (e : exn).
Arguments Ok {A} a.
Arguments Raise {A} e.

(** ** Status constants *)

Definition STATUS_CHUNK_OVERLAPPING : Z := -5.
Definition STATUS_CHUNK_MISMATCHED_LENGTHS : Z := -4.
Definition STATUS_CHUNK_ZERO_LENGTH : Z := -3.
Definition STATUS_CHUNK_IN_HEADER : Z := -2.
Definition STATUS_CHUNK_OUT_OF_FILE : Z := -1.
Definition STATUS_CHUNK_OK : Z := 0.
Definition STATUS_CHUNK_NOT_CREATED : Z := 1.

Definition SECTORLEN : Z := 4096.

(** ** The [RegionFile] object *)

(** [(offset, sectionlength, timestamp, status)]. *)
Abbreviation HeaderEntry := (Z * Z * Z * Z)%type.
(** [(length, compression, chunk_status)]. *)
Abbreviation ChunkHeader := (option Z * option Z * Z)%type.

Record RegionFile := mkRegion {
  file : File;
  size : Z;
  header : gmap (Z * Z) HeaderEntry;
  chunk_headers : gmap (Z * Z) ChunkHeader
}.

(** State and exceptions: a raised exception keeps the state reached. *)
Definition M (A : Type) : Type := RegionFile -> result A * RegionFile.

Definition ret {A} (a : A) : M A := fun s => (Ok a, s).
Definition raise {A} (e : exn) : M A := fun s => (Raise e, s).
Definition bind {A B} (m : M A) (k : A -> M B) : M B :=
  fun s => match m s with
           | (Ok a, s') => k a s'
           | (Raise e, s') => (Raise e, s')
           end.

Declare Scope region_scope.
Delimit Scope region_scope with region.
Notation "x <- c1 ;; c2" := (bind c1 (fun x => c2))
  (at level 100, c1 at next level, right associativity) : region_scope.
Notation "' pat <- c1 ;; c2" := (bind c1 (fun x => match x with pat => c2 end))
  (at level 100, pat pattern, c1 at next level, right associativity) : region_scope.
Notation "c1 ;; c2" := (bind c1 (fun _ => c2))
  (at level 100, right associativity) : region_scope.
Open Scope region_scope.

(** [for a in l: body(a)]. *)
Fixpoint for_ {A} (l : list A) (body : A -> M unit) : M unit :=
  match l with
  | [] => ret tt
  | a :: l' => body a ;; for_ l' body
  end.

(** [range(n)] and [range(0, n*step, step)]. *)
Definition range (n : nat) : list Z := map Z.of_nat (seq 0 n).
Definition range_step (n : nat) (step : Z) : list Z := map (fun i => i * step) (range n).

Definition get_state : M RegionFile := fun s => (Ok s, s).
Definition set_file (f : File) : M unit :=
  fun s => (Ok tt, mkRegion f (size s) (header s) (chunk_headers s)).
Definition set_size (n : Z) : M unit :=
  fun s => (Ok tt, mkRegion (file s) n (header s) (chunk_headers s)).
Definition set_header (k : Z * Z) (v : HeaderEntry) : M unit :=
  fun s => (Ok tt, mkRegion (file s) (size s) (<[k := v]> (header s)) (chunk_headers s)).
Definition set_chunk_header (k : Z * Z) (v : ChunkHeader) : M unit :=
  fun s => (Ok tt, mkRegion (file s) (size s) (header s) (<[k := v]> (chunk_headers s))).

(** [self.header[k]] and [self.chunk_headers[k]] raise [KeyError] on a
    missing key. *)
Definition get_header (k : Z * Z) : M HeaderEntry :=
  fun s => match header s !! k with
           | Some v => (Ok v, s)
           | None => (Raise KeyError, s)
           end.
Definition get_chunk_header (k : Z * Z) : M ChunkHeader :=
  fun s => match chunk_headers s !! k with
           | Some v => (Ok v, s)
           | None => (Raise KeyError, s)
           end.

Definition lift_opt {A} (e : exn) (o : option A) : M A :=
  match o with
  | Some a => ret a
  | None => raise e
  end.

(** [self.file.seek(p)]: a negative position is refused by the file. *)
Definition file_seek (p : Z) : M unit :=
  if p <? 0 then raise OSError
  else fun s => (Ok tt, mkRegion (mkFile (data (file s)) p) (size s) (header s) (chunk_headers s)).

(** [self.file.seek(0, SEEK_END)], which returns the new position. *)
Definition file_seek_end : M Z :=
  fun s => let n := flen (file s) in
           (Ok n, mkRegion (mkFile (data (file s)) n) (size s) (header s) (chunk_headers s)).

Definition file_tell : M Z := fun s => (Ok (pos (file s)), s).

Definition file_read (n : Z) : M (list byte) :=
  fun s => let '(bs, f) := file_read_raw n (file s) in
           (Ok bs, mkRegion f (size s) (header s) (chunk_headers s)).

Definition file_write (bs : list byte) : M unit :=
  fun s => (Ok tt, mkRegion (file_write_raw bs (file s)) (size s) (header s) (chunk_headers s)).

(** ** Sector arithmetic *)

Definition _bytes_to_sector (bsize : Z) (sectorlen : Z) : Z :=
  let sectors := bsize / sectorlen in
  let remainder := bsize mod sectorlen in
  if remainder =? 0 then sectors else sectors + 1.

(** ** Parsing the two tables *)

Definition get_size : M Z := file_seek_end.

(** The 32 x 32 coordinates in the order of the two nested loops. *)
Definition coords : list (Z * Z) :=
  flat_map (fun x => map (fun z => (x, z)) (range 32)) (range 32).

Definition init_header : M unit :=
  for_ coords (fun '(x, z) => set_header (x, z) (0, 0, 0, STATUS_CHUNK_NOT_CREATED)).

(** The body of the loop of [parse_header] for one [index]. *)
Definition parse_header_entry (index : Z) : M unit :=
  file_seek index ;;
  bs <- file_read 4 ;;
  '(offset, length) <- lift_opt StructError (unpack_IB (x00 :: bs)) ;;
  file_seek (index + 4096) ;;
  ts <- file_read 4 ;;
  timestamp <- lift_opt StructError (unpack_I ts) ;;
  let x := (index / 4) mod 32 in
  let z := (index / 4) / 32 in
  s <- get_state ;;
  let status :=
    if (offset =? 0) && (length =? 0) then STATUS_CHUNK_NOT_CREATED
    else if length =? 0 then STATUS_CHUNK_MISMATCHED_LENGTHS
    else if (offset <? 2) && negb (offset =? 0) then STATUS_CHUNK_IN_HEADER
    else if (offset + length) * 4096 >? size s then STATUS_CHUNK_OUT_OF_FILE
    else STATUS_CHUNK_OK in
  set_header (x, z) (offset, length, timestamp, status).

Definition parse_header : M unit :=
  sz <- get_size ;;
  set_size sz ;;
  if sz =? 0 then init_header
  else if sz <? 8192 then
    init_header ;;
    raise (NoRegionHeader "The region file is too small in size to have a header.")
  else for_ (range_step 1024 4) parse_header_entry.

(** Reading the five bytes in front of a chunk. *)
Definition read_chunk_header (offset : Z) : M (Z * Z) :=
  file_seek (offset * 4096) ;;
  lb <- file_read 4 ;;
  length <- lift_opt StructError (unpack_I lb) ;;
  cb <- file_read 1 ;;
  compression <- lift_opt StructError (unpack_B cb) ;;
  ret (length, compression).

(** The body of the inner loop of [parse_chunk_headers]. *)
Definition parse_chunk_header_entry (xz : Z * Z) : M unit :=
  '(offset, region_header_length, timestamp, status) <- get_header xz ;;
  if status =? STATUS_CHUNK_NOT_CREATED then
    set_chunk_header xz (None, None, STATUS_CHUNK_NOT_CREATED)
  else if status =? STATUS_CHUNK_OK then
    '(length, compression) <- read_chunk_header offset ;;
    let chunk_status :=
      if length =? 0 then STATUS_CHUNK_ZERO_LENGTH
      else if length + 4 >? region_header_length * 4096 then STATUS_CHUNK_MISMATCHED_LENGTHS
      else STATUS_CHUNK_OK in
    set_chunk_header xz (Some length, Some compression, chunk_status)
  else if status =? STATUS_CHUNK_OUT_OF_FILE then
    s <- get_state ;;
    if offset * 4096 + 5 <? size s then
      '(length, compression) <- read_chunk_header offset ;;
      set_chunk_header xz (Some length, Some compression, STATUS_CHUNK_OUT_OF_FILE)
    else
      set_chunk_header xz (None, None, STATUS_CHUNK_OUT_OF_FILE)
  else
    set_chunk_header xz (None, None, status).

Definition parse_chunk_headers : M unit :=
  for_ coords parse_chunk_header_entry.

(** [RegionFile(fileobj=f)]: the constructor returns the object only when
    neither parser raises; otherwise the exception reaches the caller and no
    object is bound. *)
Definition init_state (f : File) : RegionFile := mkRegion f 0 ∅ ∅.

Definition RegionFile_init (f : File) : result RegionFile :=
  match (parse_header ;; parse_chunk_headers) (init_state f) with
  | (Ok _, s) => Ok s
  | (Raise e, _) => Raise e
  end.

(** ** The collaborators: tag-tree codec, zlib, gzip

    [NBTFile] and the compression libraries are outside this module; they
    are an interface here.  A failing call is [inl msg], where [msg] is the
    text [str(e)] of the exception it raises. *)

Class Codec := {
  NBT : Type;
  write_file : NBT -> list byte;
  NBTFile : list byte -> string + NBT;
  zlib_compress : list byte -> list byte;
  zlib_decompress : list byte -> string + list byte;
  gzip_decompress : list byte -> string + list byte
}.

(** ** Enumerating, reading *)

(** A loop with an accumulator. *)
Fixpoint fold_ {A B} (l : list A) (body : B -> A -> M B) (b : B) : M B :=
  match l with
  | [] => ret b
  | a :: l' => b' <- body b a ;; fold_ l' body b'
  end.

(** [try: m except RegionFileFormatError: h]. *)
Definition catch_format {A} (m : M A) (h : M A) : M A :=
  fun s => match m s with
           | (Raise e, s') => if is_RegionFileFormatError e then h s' else (Raise e, s')
           | r => r
           end.

(** One dictionary [{'x': x, 'z': z, 'length': length}] of the listing. *)
Record ChunkCoord := mkCoord { cc_x : Z; cc_z : Z; cc_length : ChunkHeader }.

Definition get_chunk_coords : M (list ChunkCoord) :=
  fold_ coords (fun chunks '(x, z) =>
    length <- get_chunk_header (x, z) ;;
    '(offset, _, _, _) <- get_header (x, z) ;;
    if offset >? 0 then ret (chunks ++ [mkCoord x z length]) else ret chunks) [].

Definition get_chunks : M (list ChunkCoord) := get_chunk_coords.

Definition get_timestamp (x z : Z) : M Z :=
  '(_, _, timestamp, _) <- get_header (x, z) ;;
  ret timestamp.

Definition chunk_count : M Z :=
  l <- get_chunk_coords ;;
  ret (Z.of_nat (length l)).

(** ['%d' % n]. *)
Definition fmt_d (n : Z) : string := NilZero.string_of_int (Z.to_int n).

Section WithCodec.
Context {C : Codec}.

(** The [try ... except Exception ... finally] block of [get_chunk]: an
    exception whose text is empty is swallowed and the method returns
    [None]. *)
Definition garbled (err : string) : M (option NBT) :=
  if String.eqb err "" then ret None else raise (ChunkDataError err).

Definition decode_chunk (compression : Z) (chunk : list byte) : M (option NBT) :=
  let decompressed :=
    if compression =? 1 then gzip_decompress chunk
    else if compression =? 2 then zlib_decompress chunk
    else inr chunk in
  match decompressed with
  | inl err => garbled err
  | inr d =>
      match NBTFile d with
      | inl err => garbled err
      | inr n => ret (Some n)
      end
  end.

Definition get_chunk (x z : Z) : M (option NBT) :=
  '(offset, length, timestamp, region_header_status) <- get_header (x, z) ;;
  if region_header_status =? STATUS_CHUNK_NOT_CREATED then
    raise (InconceivedChunk "Chunk is not created")
  else if region_header_status =? STATUS_CHUNK_IN_HEADER then
    raise (RegionHeaderError
             ("Chunk " ++ fmt_d x ++ "," ++ fmt_d z ++ " is in the region header"))
  else if region_header_status =? STATUS_CHUNK_MISMATCHED_LENGTHS then
    raise (RegionHeaderError
             ("Chunk " ++ fmt_d x ++ "," ++ fmt_d z ++ " is has zero length"))
  else if region_header_status =? STATUS_CHUNK_OUT_OF_FILE then
    raise (RegionHeaderError
             ("Chunk " ++ fmt_d x ++ "," ++ fmt_d z
                ++ " is partially/completely outside the file"))
  else if region_header_status =? STATUS_CHUNK_OK then
    '(length, compression, chunk_header_status) <- get_chunk_header (x, z) ;;
    (if chunk_header_status =? STATUS_CHUNK_ZERO_LENGTH then
       raise (ChunkHeaderError
                ("The length of chunk " ++ fmt_d x ++ "," ++ fmt_d z ++ " is 0 sectors"))
     else ret tt) ;;
    match length with
    | None => raise (ChunkHeaderError "Chunk length is 0 bytes")
    | Some length =>
        if length <=? 1 then raise (ChunkHeaderError "Chunk length is 0 bytes")
        else
          file_seek (offset * 4096 + 5) ;;
          chunk <- file_read (length - 1) ;;
          match compression with
          | None => raise TypeError
          | Some compression =>
              if compression >? 2 then
                raise (ChunkDataError
                         ("Unknown chunk compression/format (" ++ fmt_d compression ++ ")"))
              else decode_chunk compression chunk
          end
    end
  else raise (RegionHeaderError "Chunk has unknown status").

Definition get_nbt (x z : Z) : M (option NBT) := get_chunk x z.

(** [iter_chunks], drained: the values yielded, in order.  A format error of
    one chunk is skipped; any other exception ends the iteration. *)
Definition iter_chunks : M (list (option NBT)) :=
  ccs <- get_chunk_coords ;;
  fold_ ccs (fun acc cc =>
    catch_format (r <- get_chunk (cc_x cc) (cc_z cc) ;; ret (acc ++ [r])) (ret acc)) [].

(** ** Writing *)

Definition entry_offset (e : HeaderEntry) : Z := e.1.1.1.
Definition entry_length (e : HeaderEntry) : Z := e.1.1.2.
Definition entry_timestamp (e : HeaderEntry) : Z := e.1.2.
Definition entry_status (e : HeaderEntry) : Z := e.2.

(** Python's order on tuples of integers. *)
Definition entry_leb (a b : HeaderEntry) : bool :=
  let '(a1, a2, a3, a4) := a in
  let '(b1, b2, b3, b4) := b in
  if a1 <? b1 then true else if b1 <? a1 then false
  else if a2 <? b2 then true else if b2 <? a2 then false
  else if a3 <? b3 then true else if b3 <? a3 then false
  else a4 <=? b4.

Fixpoint insert_sorted (e : HeaderEntry) (l : list HeaderEntry) : list HeaderEntry :=
  match l with
  | [] => [e]
  | h :: t => if entry_leb e h then e :: l else h :: insert_sorted e t
  end.

(** [sorted(l)]: the order is total and two tuples that compare equal are
    the same tuple, so every sorting algorithm returns this list. *)
Definition sorted (l : list HeaderEntry) : list HeaderEntry :=
  fold_right insert_sorted [] l.

(** [self.header.values()]. *)
Definition header_values (s : RegionFile) : list HeaderEntry :=
  map snd (map_to_list (header s)).

(** [sorted([i for i in self.header.values() if i[0] != 0])]. *)
Definition occupied (s : RegionFile) : list HeaderEntry :=
  sorted (filter (fun i => negb (entry_offset i =? 0)) (header_values s)).

(** The loop over consecutive pairs: [Some sector] when it breaks with
    [found], [None] when it runs to its end. *)
Fixpoint search_gap (l : list HeaderEntry) (nsectors : Z) : option Z :=
  match l with
  | current_chunk :: ((next_chunk :: _) as rest) =>
      let free_space :=
        entry_offset next_chunk - (entry_offset current_chunk + entry_length current_chunk) in
      if free_space >=? nsectors then
        let sector := entry_offset current_chunk + entry_length current_chunk in
        if sector <=? 1 then search_gap rest nsectors else Some sector
      else search_gap rest nsectors
  | _ => None
  end.

(** Appending at the end of the file. *)
Definition append_sector : M (Z * bool) :=
  file_seek_end ;;
  p <- file_tell ;;
  let file_length := p - 1 in
  let total_sectors := _bytes_to_sector file_length 4096 in
  ret (total_sectors + 1, true).

(** The placement decided by [write_chunk]: the sector and [pad_end]. *)
Definition locate (x z nsectors : Z) : M (Z * bool) :=
  '(offset, length, timestamp, status) <- get_header (x, z) ;;
  if (status =? STATUS_CHUNK_NOT_CREATED) || (status =? STATUS_CHUNK_OK) then
    if nsectors <=? length then ret (offset, false)
    else
      s <- get_state ;;
      let l := occupied s in
      l <- match l with
           | [] => raise IndexError
           | first :: _ =>
               ret (if negb (entry_offset first =? 2) then (2, 0, 0, 0) :: l else l)
           end ;;
      match search_gap l nsectors with
      | Some sector => ret (sector, false)
      | None => append_sector
      end
  else append_sector.

(** [write_chunk(x, z, nbt_file)]; [now] is [int(time.time())]. *)
Definition write_chunk (x z : Z) (nbt_file : NBT) (now : Z) : M unit :=
  let compressed := zlib_compress (write_file nbt_file) in
  let nsectors := _bytes_to_sector (Z.of_nat (length compressed) + 5) 4096 in
  '(sector, pad_end) <- locate x z nsectors ;;
  file_seek (sector * 4096) ;;
  lb <- lift_opt StructError (pack_I (Z.of_nat (length compressed) + 1)) ;;
  file_write lb ;;
  cb <- lift_opt StructError (pack_B 2) ;;
  file_write cb ;;
  file_write compressed ;;
  (if pad_end : bool then
     file_seek ((sector + nsectors) * 4096 - 1) ;;
     file_write [x00]
   else ret tt) ;;
  file_seek (4 * (x + z * 32)) ;;
  hb <- lift_opt StructError (pack_IB sector nsectors) ;;
  file_write (tail hb) ;;
  file_seek (4096 + 4 * (x + z * 32)) ;;
  tb <- lift_opt StructError (pack_I now) ;;
  file_write tb ;;
  parse_header ;;
  parse_chunk_headers.

End WithCodec.

(** [unlink_chunk(x, z)]. *)
Definition unlink_chunk (x z : Z) : M unit :=
  file_seek (4 * (x + z * 32)) ;;
  hb <- lift_opt StructError (pack_IB 0 0) ;;
  file_write (tail hb) ;;
  file_seek (4096 + 4 * (x + z * 32)) ;;
  tb <- lift_opt StructError (pack_I 0) ;;
  file_write tb ;;
  parse_header ;;
  parse_chunk_headers.

(** ** A small instance of the collaborators, for running the model

    Tag trees are byte strings written verbatim; the compressed form of
    [d] is [d] behind a one-byte marker ([x78] for zlib, [x1f] for gzip). *)

Definition unframe (marker : byte) (bs : list byte) : string + list byte :=
  match bs with
  | m :: d => if Byte.eqb m marker then inr d else inl "incorrect header check"%string
  | [] => inl "incomplete or truncated stream"%string
  end.

#[local] Instance marker_codec : Codec := {|
  NBT := list byte;
  write_file := fun n => n;
  NBTFile := fun bs => inr bs;
  zlib_compress := fun d => x78 :: d;
  zlib_decompress := unframe x78;
  gzip_decompress := unframe x1f
|}.

(** A second instance, strict where the tag-tree parser is: a byte string
    whose first byte is not the id of a Compound tag (10) is refused, with
    the message of the parser. *)
#[local] Instance compound_codec : Codec := {|
  NBT := list byte;
  write_file := fun n => n;
  NBTFile := fun bs =>
    match bs with
    | b :: _ =>
        if Byte.eqb b x0a then inr bs
        else inl "First record is not a Compound Tag"%string
    | [] => inl "First record is not a Compound Tag"%string
    end;
  zlib_compress := fun d => x78 :: d;
  zlib_decompress := unframe x78;
  gzip_decompress := unframe x1f
|}.

(** ** What the parsers compute, as functions of the file contents

    These definitions describe the two tables directly from the bytes; the
    lemmas below show that [parse_header] and [parse_chunk_headers] build
    exactly them. *)

(** [n] bytes of [d] from position [p]. *)
Definition slice (d : list byte) (p n : Z) : list byte :=
  take (Z.to_nat n) (drop (Z.to_nat p) d).

(** Big-endian value of a byte string. *)
Definition be (bs : list byte) : Z :=
  fold_left (fun a b => a * 256 + Z_of_byte b) bs 0.

Definition header_status (offset length sz : Z) : Z :=
  if (offset =? 0) && (length =? 0) then STATUS_CHUNK_NOT_CREATED
  else if length =? 0 then STATUS_CHUNK_MISMATCHED_LENGTHS
  else if (offset <? 2) && negb (offset =? 0) then STATUS_CHUNK_IN_HEADER
  else if (offset + length) * 4096 >? sz then STATUS_CHUNK_OUT_OF_FILE
  else STATUS_CHUNK_OK.

(** The three raw fields of slot [i] of the header table. *)
Definition raw_offset (d : list byte) (i : Z) : Z := be (slice d (4 * i) 3).
Definition raw_length (d : list byte) (i : Z) : Z := be (slice d (4 * i + 3) 1).
Definition raw_timestamp (d : list byte) (i : Z) : Z := be (slice d (4096 + 4 * i) 4).

Definition parsed_entry (d : list byte) (i : Z) : HeaderEntry :=
  (raw_offset d i, raw_length d i, raw_timestamp d i,
   header_status (raw_offset d i) (raw_length d i) (Z.of_nat (length d))).

(** The length and compression fields in front of the chunk at sector
    [offset]. *)
Definition chunk_length_at (d : list byte) (offset : Z) : Z := be (slice d (offset * 4096) 4).
Definition chunk_compression_at (d : list byte) (offset : Z) : Z :=
  be (slice d (offset * 4096 + 4) 1).

Definition chunk_header_of (d : list byte) (e : HeaderEntry) : ChunkHeader :=
  let '(offset, region_header_length, _, status) := e in
  if status =? STATUS_CHUNK_NOT_CREATED then (None, None, STATUS_CHUNK_NOT_CREATED)
  else if status =? STATUS_CHUNK_OK then
    let length := chunk_length_at d offset in
    (Some length, Some (chunk_compression_at d offset),
     if length =? 0 then STATUS_CHUNK_ZERO_LENGTH
     else if length + 4 >? region_header_length * 4096 then STATUS_CHUNK_MISMATCHED_LENGTHS
     else STATUS_CHUNK_OK)
  else if status =? STATUS_CHUNK_OUT_OF_FILE then
    if offset * 4096 + 5 <? Z.of_nat (length d) then
      (Some (chunk_length_at d offset), Some (chunk_compression_at d offset),
       STATUS_CHUNK_OUT_OF_FILE)
    else (None, None, STATUS_CHUNK_OUT_OF_FILE)
  else (None, None, status).

(** The dictionary with one value [g k] for each of the 1024 coordinates. *)
Definition table_of {V} (g : Z * Z -> V) : gmap (Z * Z) V :=
  fold_left (fun m k => <[k := g k]> m) coords ∅.

Definition header_of (d : list byte) : gmap (Z * Z) HeaderEntry :=
  table_of (fun '(x, z) => parsed_entry d (x + 32 * z)).

Definition chunk_headers_of (d : list byte) : gmap (Z * Z) ChunkHeader :=
  table_of (fun '(x, z) => chunk_header_of d (parsed_entry d (x + 32 * z))).

(** The object after a full parse of contents [d], with the cursor at [p]. *)
Definition opened_at (d : list byte) (p : Z) : RegionFile :=
  mkRegion (mkFile d p) (Z.of_nat (length d)) (header_of d) (chunk_headers_of d).

(** The table of a header that [init_header] has filled. *)
Definition blank_header : gmap (Z * Z) HeaderEntry :=
  table_of (fun _ => (0, 0, 0, STATUS_CHUNK_NOT_CREATED)).

(** The ordered rule of the format description: the first check that
    matches decides. *)
Fixpoint first_match (checks : list (bool * Z)) (otherwise : Z) : Z :=
  match checks with
  | [] => otherwise
  | (c, st) :: rest => if c then st else first_match rest otherwise
  end.

Definition coarse_status_rule (offset length fileSize : Z) : Z :=
  first_match
    [ ((offset =? 0) && (length =? 0), STATUS_CHUNK_NOT_CREATED);
      ((length =? 0), STATUS_CHUNK_MISMATCHED_LENGTHS);
      (negb (offset =? 0) && (offset <? 2), STATUS_CHUNK_IN_HEADER);
      ((offset + length) * 4096 >? fileSize, STATUS_CHUNK_OUT_OF_FILE) ]
    STATUS_CHUNK_OK.

(** The outcome of the tag-tree parse once decompression has answered. *)
Definition parse_decompressed {C : Codec} (r : string + list byte) : M (option NBT) :=
  match r with
  | inl err => garbled err
  | inr d =>
      match NBTFile d with
      | inl err => garbled err
      | inr n => ret (Some n)
      end
  end.

(** * Lemmas *)

(** ** Bytes *)

Lemma Z_of_byte_range (b : byte) : 0 <= Z_of_byte b < 256.
Proof.
  unfold Z_of_byte. pose proof (Byte.to_N_bounded b). lia.
Qed.

Lemma Z_of_byte_of_Z (n : Z) : Z_of_byte (byte_of_Z n) = n mod 256.
Proof.
  unfold Z_of_byte, byte_of_Z.
  assert (Hr : 0 <= n mod 256 < 256) by (apply Z.mod_pos_bound; lia).
  destruct (Byte.of_N (Z.to_N (n mod 256))) as [b|] eqn:E.
  - apply Byte.to_of_N in E. rewrite E. lia.
  - apply Byte.of_N_None_iff in E. lia.
Qed.

Lemma be_nil : be [] = 0.
Proof. reflexivity. Qed.

Lemma be_snoc (bs : list byte) (b : byte) : be (bs ++ [b]) = be bs * 256 + Z_of_byte b.
Proof. unfold be. rewrite fold_left_app. reflexivity. Qed.

Lemma be_1 a : be [a] = Z_of_byte a.
Proof. reflexivity. Qed.

Lemma be_3 a b c : be [a; b; c] = (Z_of_byte a * 256 + Z_of_byte b) * 256 + Z_of_byte c.
Proof. reflexivity. Qed.

Lemma be_4 a b c d :
  be [a; b; c; d] = ((Z_of_byte a * 256 + Z_of_byte b) * 256 + Z_of_byte c) * 256 + Z_of_byte d.
Proof. reflexivity. Qed.

Lemma be_range_1 (bs : list byte) : length bs = 1%nat -> 0 <= be bs < 256.
Proof.
  destruct bs as [|a [|]]; try discriminate. intros _. rewrite be_1. apply Z_of_byte_range.
Qed.

Lemma be_range_3 (bs : list byte) : length bs = 3%nat -> 0 <= be bs < 16777216.
Proof.
  destruct bs as [|a [|b [|c [|]]]]; try discriminate. intros _. rewrite be_3.
  pose proof (Z_of_byte_range a). pose proof (Z_of_byte_range b).
  pose proof (Z_of_byte_range c). lia.
Qed.

Lemma unpack_I_be (bs : list byte) : length bs = 4%nat -> unpack_I bs = Some (be bs).
Proof.
  destruct bs as [|a [|b [|c [|d [|]]]]]; try discriminate. reflexivity.
Qed.

Lemma unpack_B_be (bs : list byte) : length bs = 1%nat -> unpack_B bs = Some (be bs).
Proof.
  destruct bs as [|a [|]]; try discriminate. reflexivity.
Qed.

Lemma unpack_IB_be (bs : list byte) :
  length bs = 4%nat -> unpack_IB (x00 :: bs) = Some (be (take 3 bs), be (drop 3 bs)).
Proof.
  destruct bs as [|a [|b [|c [|d [|]]]]]; try discriminate. intros _.
  cbn [unpack_IB unpack_I unpack_B take drop firstn skipn]. rewrite be_3, be_1.
  change (Z_of_byte x00) with 0. reflexivity.
Qed.

Lemma div_65536 (n : Z) : n / 65536 = n / 256 / 256.
Proof. change 65536 with (256 * 256). rewrite Z.div_div by lia. reflexivity. Qed.

Lemma div_16777216 (n : Z) : n / 16777216 = n / 256 / 256 / 256.
Proof. change 16777216 with (256 * 256 * 256). rewrite !Z.div_div by lia. reflexivity. Qed.

Lemma pack_I_spec (n : Z) :
  0 <= n < 4294967296 ->
  exists bs, pack_I n = Some bs /\ length bs = 4%nat /\ be bs = n.
Proof.
  intros Hn. unfold pack_I.
  replace ((0 <=? n) && (n <? 4294967296)) with true by (symmetry; apply andb_true_iff; lia).
  eexists; split; [reflexivity|]. split; [reflexivity|].
  rewrite be_4, !Z_of_byte_of_Z.
  pose proof (Z.div_mod n 256 ltac:(lia)).
  pose proof (Z.div_mod (n / 256) 256 ltac:(lia)).
  pose proof (Z.div_mod (n / 65536) 256 ltac:(lia)).
  rewrite div_65536 in *. rewrite div_16777216.
  assert (0 <= n / 256 / 256 / 256 < 256).
  { split; [repeat apply Z.div_pos; lia|].
    repeat (apply Z.div_lt_upper_bound; [lia|]). lia. }
  rewrite (Z.mod_small (n / 256 / 256 / 256)) by lia. lia.
Qed.

Lemma pack_I_None (n : Z) : pack_I n = None <-> ~ (0 <= n < 4294967296).
Proof.
  unfold pack_I. destruct ((0 <=? n) && (n <? 4294967296)) eqn:E.
  - apply andb_true_iff in E. split; [discriminate | lia].
  - apply andb_false_iff in E. split; [lia | reflexivity].
Qed.

Lemma pack_B_None (n : Z) : 255 < n -> pack_B n = None.
Proof.
  intros H. unfold pack_B.
  replace ((0 <=? n) && (n <=? 255)) with false; [reflexivity|].
  symmetry. apply andb_false_iff. lia.
Qed.

(** The four bytes that [write_chunk] and [unlink_chunk] store in a slot of
    the offset table. *)
Lemma pack_IB_tail (sector nsectors : Z) :
  0 <= sector < 16777216 -> 0 <= nsectors <= 255 ->
  exists hb, pack_IB sector nsectors = Some hb /\ length (tail hb) = 4%nat /\
             be (take 3 (tail hb)) = sector /\ be (drop 3 (tail hb)) = nsectors.
Proof.
  intros Hs Hn. unfold pack_IB, pack_I, pack_B.
  replace ((0 <=? sector) && (sector <? 4294967296)) with true
    by (symmetry; apply andb_true_iff; lia).
  replace ((0 <=? nsectors) && (nsectors <=? 255)) with true
    by (symmetry; apply andb_true_iff; lia).
  eexists; split; [reflexivity|]. cbn [app tail length take drop firstn skipn].
  split; [reflexivity|]. rewrite be_3, be_1, !Z_of_byte_of_Z.
  pose proof (Z.div_mod sector 256 ltac:(lia)).
  pose proof (Z.div_mod (sector / 256) 256 ltac:(lia)).
  rewrite div_65536 in *.
  assert (0 <= sector / 256 / 256 < 256).
  { split; [repeat apply Z.div_pos; lia|].
    repeat (apply Z.div_lt_upper_bound; [lia|]). lia. }
  rewrite (Z.mod_small (sector / 256 / 256)) by lia.
  rewrite (Z.mod_small nsectors) by lia. lia.
Qed.

(** ** Slices and writes of the file contents *)

Lemma lookup_slice (d : list byte) (p n : Z) (i : nat) :
  slice d p n !! i = if decide (i < Z.to_nat n)%nat then d !! (Z.to_nat p + i)%nat else None.
Proof.
  unfold slice. rewrite lookup_take. destruct (decide (i < Z.to_nat n)%nat); [|reflexivity].
  apply lookup_drop.
Qed.

Lemma length_slice (d : list byte) (p n : Z) :
  0 <= p -> 0 <= n -> p + n <= Z.of_nat (length d) -> length (slice d p n) = Z.to_nat n.
Proof.
  intros Hp Hn Hl. unfold slice. rewrite length_take, length_drop. lia.
Qed.

Lemma length_slice_le (d : list byte) (p n : Z) : (length (slice d p n) <= Z.to_nat n)%nat.
Proof. unfold slice. rewrite length_take. lia. Qed.

Lemma take_slice (d : list byte) (p n : Z) (k : nat) :
  (k <= Z.to_nat n)%nat -> take k (slice d p n) = slice d p (Z.of_nat k).
Proof.
  intros Hk. unfold slice. rewrite take_take. f_equal. lia.
Qed.

Lemma drop_slice (d : list byte) (p n : Z) (k : nat) :
  0 <= p -> (k <= Z.to_nat n)%nat ->
  drop k (slice d p n) = slice d (p + Z.of_nat k) (n - Z.of_nat k).
Proof.
  intros Hp Hk. apply list_eq. intros i.
  rewrite lookup_drop, !lookup_slice.
  repeat destruct (decide _); try lia; try reflexivity. f_equal. lia.
Qed.

Lemma lookup_write_at (p : Z) (bs d : list byte) (i : nat) :
  bs <> [] ->
  write_at p bs d !! i =
    if decide (i < Z.to_nat p)%nat
    then (if decide (i < length d)%nat then d !! i else Some x00)
    else if decide (i < Z.to_nat p + length bs)%nat then bs !! (i - Z.to_nat p)%nat
         else d !! i.
Proof.
  intros Hbs. unfold write_at. destruct bs as [|b0 bs']; [congruence|].
  set (bs := b0 :: bs'). set (n := Z.to_nat p).
  assert (Hpre : length (take n d ++ replicate (n - length d) x00) = n).
  { rewrite length_app, length_take, length_replicate. lia. }
  rewrite (assoc_L (++)).
  destruct (decide (i < n)%nat) as [Hi|Hi].
  - rewrite lookup_app_l by lia.
    destruct (decide (i < length d)%nat) as [Hd|Hd].
    + rewrite lookup_app_l by (rewrite length_take; lia). apply lookup_take_lt. lia.
    + rewrite lookup_app_r by (rewrite length_take; lia).
      apply lookup_replicate_2. rewrite length_take. lia.
  - rewrite lookup_app_r by lia. rewrite Hpre.
    destruct (decide (i < n + length bs)%nat) as [Hb|Hb].
    + apply lookup_app_l. lia.
    + rewrite lookup_app_r by lia. rewrite lookup_drop. f_equal. lia.
Qed.

Lemma length_write_at (p : Z) (bs d : list byte) :
  bs <> [] ->
  length (write_at p bs d) = (length d `max` (Z.to_nat p + length bs))%nat.
Proof.
  intros Hbs. unfold write_at. destruct bs as [|b0 bs']; [congruence|].
  rewrite !length_app, length_take, length_replicate, length_drop. lia.
Qed.

(** Reading back, inside the bytes just written. *)
Lemma slice_write_at_inside (p q n : Z) (bs d : list byte) :
  0 <= p -> p <= q -> 0 <= n -> q + n <= p + Z.of_nat (length bs) ->
  slice (write_at p bs d) q n = slice bs (q - p) n.
Proof.
  intros Hp Hq Hn Hl. destruct (decide (bs = [])) as [->|Hbs].
  { cbn [length] in Hl. assert (n = 0) as -> by lia. reflexivity. }
  apply list_eq. intros i. rewrite !lookup_slice.
  destruct (decide (i < Z.to_nat n)%nat); [|reflexivity].
  rewrite lookup_write_at by assumption.
  repeat destruct (decide _); try lia. f_equal. lia.
Qed.

(** Reading back, away from the bytes just written. *)
Lemma slice_write_at_outside (p q n : Z) (bs d : list byte) :
  0 <= p -> 0 <= q -> 0 <= n ->
  (q + n <= p /\ q + n <= Z.of_nat (length d)) \/ p + Z.of_nat (length bs) <= q ->
  slice (write_at p bs d) q n = slice d q n.
Proof.
  intros Hp Hq Hn Hl. destruct (decide (bs = [])) as [->|Hbs]; [reflexivity|].
  apply list_eq. intros i. rewrite !lookup_slice.
  destruct (decide (i < Z.to_nat n)%nat); [|reflexivity].
  rewrite lookup_write_at by assumption.
  repeat destruct (decide _); try lia; reflexivity.
Qed.

Lemma slice_all (bs : list byte) : slice bs 0 (Z.of_nat (length bs)) = bs.
Proof.
  unfold slice. rewrite Nat2Z.id. cbn [Z.to_nat drop]. apply firstn_all.
Qed.

Lemma slice_app_l (a b : list byte) (n : Z) :
  n = Z.of_nat (length a) -> slice (a ++ b) 0 n = a.
Proof.
  intros ->. unfold slice. rewrite Nat2Z.id. cbn [Z.to_nat drop]. apply take_app_length.
Qed.

Lemma slice_app_r (a b : list byte) (p n : Z) :
  p = Z.of_nat (length a) -> slice (a ++ b) p n = slice b 0 n.
Proof.
  intros ->. unfold slice. rewrite Nat2Z.id. cbn [Z.to_nat drop].
  rewrite drop_app_length. reflexivity.
Qed.

(** ** Running the primitives *)

Definition with_pos (s : RegionFile) (p : Z) : RegionFile :=
  mkRegion (mkFile (data (file s)) p) (size s) (header s) (chunk_headers s).

Lemma file_seek_ok (p : Z) (s : RegionFile) :
  0 <= p -> file_seek p s = (Ok tt, with_pos s p).
Proof.
  intros Hp. unfold file_seek. destruct (p <? 0) eqn:E; [lia|reflexivity].
Qed.

Lemma file_read_ok (n : Z) (s : RegionFile) :
  0 <= n ->
  file_read n s =
    (Ok (slice (data (file s)) (pos (file s)) n),
     with_pos s (pos (file s) + Z.of_nat (length (slice (data (file s)) (pos (file s)) n)))).
Proof.
  intros Hn. unfold file_read, file_read_raw. destruct (n <? 0) eqn:E; [lia|reflexivity].
Qed.

Lemma bind_ok {A B} (m : M A) (k : A -> M B) (s s' : RegionFile) (a : A) :
  m s = (Ok a, s') -> bind m k s = k a s'.
Proof. intros H. unfold bind. rewrite H. reflexivity. Qed.

Lemma bind_raise {A B} (m : M A) (k : A -> M B) (s s' : RegionFile) (e : exn) :
  m s = (Raise e, s') -> bind m k s = (Raise e, s').
Proof. intros H. unfold bind. rewrite H. reflexivity. Qed.

(** ** Operations that leave the bytes of the file alone *)

Definition keeps_data {A} (m : M A) : Prop :=
  forall s, data (file (snd (m s))) = data (file s).

Lemma keeps_ret {A} (a : A) : keeps_data (ret a).
Proof. intros s. reflexivity. Qed.

Lemma keeps_raise {A} (e : exn) : keeps_data (@raise A e).
Proof. intros s. reflexivity. Qed.

Lemma keeps_bind {A B} (m : M A) (k : A -> M B) :
  keeps_data m -> (forall a, keeps_data (k a)) -> keeps_data (bind m k).
Proof.
  intros Hm Hk s. unfold bind. specialize (Hm s).
  destruct (m s) as [[a|e] s1]; cbn [snd] in *.
  - rewrite Hk. exact Hm.
  - exact Hm.
Qed.

Lemma keeps_for {A} (l : list A) (body : A -> M unit) :
  (forall a, keeps_data (body a)) -> keeps_data (for_ l body).
Proof.
  intros Hb. induction l as [|a l IH]; cbn [for_].
  - apply keeps_ret.
  - apply keeps_bind; [apply Hb | intros _; exact IH].
Qed.

Lemma keeps_fold {A B} (l : list A) (body : B -> A -> M B) (b : B) :
  (forall b a, keeps_data (body b a)) -> keeps_data (fold_ l body b).
Proof.
  intros Hb. revert b. induction l as [|a l IH]; intros b; cbn [fold_].
  - apply keeps_ret.
  - apply keeps_bind; [apply Hb | intros b'; apply IH].
Qed.

Lemma keeps_catch_format {A} (m h : M A) :
  keeps_data m -> keeps_data h -> keeps_data (catch_format m h).
Proof.
  intros Hm Hh s. unfold catch_format. specialize (Hm s).
  destruct (m s) as [[a|e] s1]; cbn [snd] in *; [exact Hm|].
  destruct (is_RegionFileFormatError e); cbn [snd]; [rewrite Hh|]; exact Hm.
Qed.

Lemma keeps_file_seek (p : Z) : keeps_data (file_seek p).
Proof. intros s. unfold file_seek. destruct (p <? 0); reflexivity. Qed.

Lemma keeps_file_seek_end : keeps_data file_seek_end.
Proof. intros s. reflexivity. Qed.

Lemma keeps_file_tell : keeps_data file_tell.
Proof. intros s. reflexivity. Qed.

Lemma keeps_file_read (n : Z) : keeps_data (file_read n).
Proof. intros s. unfold file_read, file_read_raw. reflexivity. Qed.

Lemma keeps_get_state : keeps_data get_state.
Proof. intros s. reflexivity. Qed.

Lemma keeps_get_header (k : Z * Z) : keeps_data (get_header k).
Proof. intros s. unfold get_header. destruct (header s !! k); reflexivity. Qed.

Lemma keeps_get_chunk_header (k : Z * Z) : keeps_data (get_chunk_header k).
Proof. intros s. unfold get_chunk_header. destruct (chunk_headers s !! k); reflexivity. Qed.

Lemma keeps_set_size (n : Z) : keeps_data (set_size n).
Proof. intros s. reflexivity. Qed.

Lemma keeps_set_header (k : Z * Z) (v : HeaderEntry) : keeps_data (set_header k v).
Proof. intros s. reflexivity. Qed.

Lemma keeps_set_chunk_header (k : Z * Z) (v : ChunkHeader) : keeps_data (set_chunk_header k v).
Proof. intros s. reflexivity. Qed.

Lemma keeps_lift_opt {A} (e : exn) (o : option A) : keeps_data (lift_opt e o).
Proof. destruct o; [apply keeps_ret | apply keeps_raise]. Qed.

Create HintDb keeps discriminated.
#[local] Hint Resolve keeps_ret keeps_raise keeps_file_seek keeps_file_seek_end
  keeps_file_tell keeps_file_read keeps_get_state keeps_get_header keeps_get_chunk_header
  keeps_set_size keeps_set_header keeps_set_chunk_header keeps_lift_opt : keeps.

(** Walks through a monadic term: binds, loops, branches. *)
Ltac keeps_tac :=
  repeat match goal with
    | |- keeps_data (bind _ _) => apply keeps_bind; [| intros ?]
    | |- keeps_data (for_ _ _) => apply keeps_for; intros ?
    | |- keeps_data (fold_ _ _ _) => apply keeps_fold; intros ? ?
    | |- keeps_data (catch_format _ _) => apply keeps_catch_format
    | |- keeps_data (if ?b then _ else _) => destruct b
    | |- keeps_data (match ?x with _ => _ end) => destruct x
    | |- keeps_data _ => solve [auto with keeps]
    end.

Lemma keeps_get_chunk_coords : keeps_data get_chunk_coords.
Proof. unfold get_chunk_coords. keeps_tac. Qed.

Lemma keeps_get_timestamp (x z : Z) : keeps_data (get_timestamp x z).
Proof. unfold get_timestamp. keeps_tac. Qed.

Lemma keeps_chunk_count : keeps_data chunk_count.
Proof. unfold chunk_count. pose proof keeps_get_chunk_coords. keeps_tac. Qed.

Lemma keeps_parse_header : keeps_data parse_header.
Proof. unfold parse_header, get_size, init_header, parse_header_entry. keeps_tac. Qed.

Lemma keeps_read_chunk_header (offset : Z) : keeps_data (read_chunk_header offset).
Proof. unfold read_chunk_header. keeps_tac. Qed.

Lemma keeps_parse_chunk_headers : keeps_data parse_chunk_headers.
Proof.
  unfold parse_chunk_headers, parse_chunk_header_entry.
  pose proof keeps_read_chunk_header. keeps_tac.
Qed.

Section KeepsWithCodec.
Context {C : Codec}.

Lemma keeps_garbled (err : string) : keeps_data (garbled err).
Proof. unfold garbled. keeps_tac. Qed.

Lemma keeps_decode_chunk (c : Z) (chunk : list byte) : keeps_data (decode_chunk c chunk).
Proof. unfold decode_chunk. pose proof keeps_garbled. keeps_tac. Qed.

Lemma keeps_get_chunk (x z : Z) : keeps_data (get_chunk x z).
Proof. unfold get_chunk. pose proof keeps_decode_chunk. keeps_tac. Qed.

Lemma keeps_iter_chunks : keeps_data iter_chunks.
Proof.
  unfold iter_chunks. pose proof keeps_get_chunk_coords. pose proof keeps_get_chunk.
  keeps_tac.
Qed.

End KeepsWithCodec.

(** ** The grid of coordinates and the tables over it *)

Lemma elem_of_range (n : nat) (i : Z) : i ∈ range n <-> 0 <= i < Z.of_nat n.
Proof.
  unfold range. rewrite list_elem_of_fmap. split.
  - intros (k & -> & Hk). apply list_elem_of_In, in_seq in Hk. lia.
  - intros Hi. exists (Z.to_nat i). split; [lia|].
    apply list_elem_of_In, in_seq. lia.
Qed.

Lemma elem_of_coords (x z : Z) : (x, z) ∈ coords <-> (0 <= x < 32 /\ 0 <= z < 32).
Proof.
  unfold coords. rewrite list_elem_of_In, in_flat_map. split.
  - intros (x' & Hx & Hz). apply in_map_iff in Hz as (z' & Heq & Hz).
    inversion Heq; subst. apply list_elem_of_In, elem_of_range in Hx.
    apply list_elem_of_In, elem_of_range in Hz. lia.
  - intros (Hx & Hz). exists x. split.
    + apply list_elem_of_In, elem_of_range. lia.
    + apply in_map_iff. exists z. split; [reflexivity|].
      apply list_elem_of_In, elem_of_range. lia.
Qed.

Definition slot_key (i : Z) : Z * Z := (i mod 32, i / 32).

Lemma slot_key_coords (i : Z) : 0 <= i < 1024 -> slot_key i ∈ coords.
Proof.
  intros Hi. unfold slot_key. apply elem_of_coords.
  pose proof (Z.mod_pos_bound i 32 ltac:(lia)).
  pose proof (Z.div_mod i 32 ltac:(lia)). lia.
Qed.

Lemma slot_key_index (x z : Z) : 0 <= x < 32 -> 0 <= z < 32 -> slot_key (x + 32 * z) = (x, z).
Proof.
  intros Hx Hz. unfold slot_key. replace (x + 32 * z) with (x + z * 32) by lia. f_equal.
  - rewrite Z.mod_add by lia. apply Z.mod_small. lia.
  - rewrite Z.div_add by lia. rewrite Z.div_small; lia.
Qed.

Lemma lookup_fold_insert {V} (g : Z * Z -> V) (l : list (Z * Z)) (m0 : gmap (Z * Z) V)
    (k : Z * Z) :
  fold_left (fun m k => <[k := g k]> m) l m0 !! k =
    if decide (k ∈ l) then Some (g k) else m0 !! k.
Proof.
  revert m0. induction l as [|a l IH]; intros m0; cbn [fold_left].
  - destruct (decide (k ∈ [])) as [H|_]; [inversion H|reflexivity].
  - rewrite IH. destruct (decide (k ∈ l)) as [Hl|Hl].
    + rewrite decide_True by (right; exact Hl). reflexivity.
    + rewrite lookup_insert. destruct (decide (a = k)) as [->|Hne].
      * rewrite decide_True by left. reflexivity.
      * rewrite decide_False; [reflexivity|].
        intros Hin. apply elem_of_cons in Hin as [->|Hin]; congruence.
Qed.

Lemma lookup_table_of {V} (g : Z * Z -> V) (x z : Z) :
  0 <= x < 32 -> 0 <= z < 32 -> table_of g !! (x, z) = Some (g (x, z)).
Proof.
  intros Hx Hz. unfold table_of. rewrite lookup_fold_insert.
  rewrite decide_True by (apply elem_of_coords; lia). reflexivity.
Qed.

Lemma lookup_table_of_Some {V} (g : Z * Z -> V) (k : Z * Z) (v : V) :
  table_of g !! k = Some v -> k ∈ coords /\ v = g k.
Proof.
  unfold table_of. rewrite lookup_fold_insert.
  destruct (decide (k ∈ coords)); [|rewrite lookup_empty; discriminate].
  intros [= <-]. split; [assumption|reflexivity].
Qed.

(** A dictionary whose keys all lie in the grid. *)
Definition in_grid {V} (m : gmap (Z * Z) V) : Prop :=
  forall k, k ∉ coords -> m !! k = None.

Lemma in_grid_empty {V} : in_grid (∅ : gmap (Z * Z) V).
Proof. intros k _. apply lookup_empty. Qed.

Lemma in_grid_table_of {V} (g : Z * Z -> V) : in_grid (table_of g).
Proof.
  intros k Hk. unfold table_of. rewrite lookup_fold_insert.
  rewrite decide_False by assumption. apply lookup_empty.
Qed.

(** Filling every slot of a dictionary over the grid gives the table. *)
Lemma fold_insert_table {V} (g : Z * Z -> V) (l : list (Z * Z)) (m0 : gmap (Z * Z) V) :
  in_grid m0 -> (forall k, k ∈ l <-> k ∈ coords) ->
  fold_left (fun m k => <[k := g k]> m) l m0 = table_of g.
Proof.
  intros Hm Hl. apply map_eq. intros k. unfold table_of. rewrite !lookup_fold_insert.
  destruct (decide (k ∈ l)) as [H|H].
  - rewrite decide_True by (apply Hl; assumption). reflexivity.
  - rewrite decide_False by (rewrite <- Hl; assumption).
    rewrite lookup_empty. apply Hm. rewrite <- Hl. assumption.
Qed.

Lemma fold_insert_fmap {A V} (key : A -> Z * Z) (g : Z * Z -> V) (l : list A)
    (m0 : gmap (Z * Z) V) :
  fold_left (fun m a => <[key a := g (key a)]> m) l m0 =
  fold_left (fun m k => <[k := g k]> m) (key <$> l) m0.
Proof.
  revert m0. induction l as [|a l IH]; intros m0; [reflexivity|].
  cbn [fold_left fmap list_fmap]. apply IH.
Qed.

Lemma slot_keys_grid (k : Z * Z) : k ∈ slot_key <$> range 1024 <-> k ∈ coords.
Proof.
  destruct k as [x z]. rewrite list_elem_of_fmap, elem_of_coords. split.
  - intros (i & Heq & Hi). apply elem_of_range in Hi.
    assert (Hc : slot_key i ∈ coords) by (apply slot_key_coords; lia).
    rewrite <- Heq in Hc. apply elem_of_coords in Hc. exact Hc.
  - intros (Hx & Hz). exists (x + 32 * z). split.
    + symmetry. apply slot_key_index; assumption.
    + apply elem_of_range. lia.
Qed.

(** ** The header parser builds [header_of] *)

Lemma parsed_entry_slot (d : list byte) (i : Z) :
  (fun '(x, z) => parsed_entry d (x + 32 * z)) (slot_key i) = parsed_entry d i.
Proof.
  unfold slot_key. f_equal. pose proof (Z.div_mod i 32 ltac:(lia)). lia.
Qed.

Lemma parse_header_entry_ok (i : Z) (s : RegionFile) :
  0 <= i < 1024 -> 8192 <= Z.of_nat (length (data (file s))) ->
  size s = Z.of_nat (length (data (file s))) ->
  parse_header_entry (i * 4) s =
    (Ok tt, mkRegion (mkFile (data (file s)) (i * 4 + 4096 + 4)) (size s)
              (<[slot_key i := parsed_entry (data (file s)) i]> (header s))
              (chunk_headers s)).
Proof.
  intros Hi Hlen Hsz. unfold parse_header_entry.
  unfold bind at 1. rewrite file_seek_ok by lia. cbv beta iota.
  unfold bind at 1. rewrite file_read_ok by lia. cbv beta iota.
  cbn [with_pos file data pos size header chunk_headers].
  pose (d := data (file s)). fold d in Hlen, Hsz.
  assert (L1 : length (slice d (i * 4) 4) = 4%nat) by (rewrite length_slice; lia).
  unfold bind at 1. rewrite unpack_IB_be by exact L1. cbn [lift_opt ret]. cbv beta iota.
  unfold bind at 1. rewrite file_seek_ok by lia. cbv beta iota.
  unfold bind at 1. rewrite file_read_ok by lia. cbv beta iota.
  cbn [with_pos file data pos size header chunk_headers].
  assert (L2 : length (slice d (i * 4 + 4096) 4) = 4%nat) by (rewrite length_slice; lia).
  unfold bind at 1. rewrite unpack_I_be by exact L2. cbn [lift_opt ret]. cbv beta iota.
  unfold bind at 1. unfold get_state at 1. cbv beta iota.
  cbn [with_pos file data pos size header chunk_headers].
  unfold set_header. cbn [with_pos file data pos size header chunk_headers].
  fold d.
  rewrite L2. rewrite Z.div_mul by lia.
  rewrite take_slice by lia. rewrite drop_slice by lia.
  unfold parsed_entry, raw_offset, raw_length, raw_timestamp, header_status, slot_key.
  rewrite Hsz.
  replace (4 * i) with (i * 4) by lia. replace (4096 + i * 4) with (i * 4 + 4096) by lia.
  change (Z.of_nat 3) with 3. change (4 - 3) with 1. reflexivity.
Qed.

Lemma parse_header_loop (l : list Z) (s : RegionFile) :
  (forall i, i ∈ l -> 0 <= i < 1024) ->
  8192 <= Z.of_nat (length (data (file s))) ->
  size s = Z.of_nat (length (data (file s))) ->
  exists p,
    for_ (map (fun i => i * 4) l) parse_header_entry s =
      (Ok tt, mkRegion (mkFile (data (file s)) p) (size s)
                (fold_left (fun m i => <[slot_key i := parsed_entry (data (file s)) i]> m)
                   l (header s))
                (chunk_headers s)).
Proof.
  revert s. induction l as [|i l IH]; intros s Hl Hlen Hsz.
  - exists (pos (file s)). destruct s as [[d p] sz h ch]. reflexivity.
  - cbn [map for_]. unfold bind at 1.
    rewrite parse_header_entry_ok by (try apply Hl; try left; assumption).
    cbv beta iota.
    edestruct (IH (mkRegion (mkFile (data (file s)) (i * 4 + 4096 + 4)) (size s)
                     (<[slot_key i := parsed_entry (data (file s)) i]> (header s))
                     (chunk_headers s))) as [p Hp].
    + intros j Hj. apply Hl. right. exact Hj.
    + exact Hlen.
    + exact Hsz.
    + exists p. rewrite Hp. reflexivity.
Qed.

Lemma fold_parsed_entries (d : list byte) (l : list Z) (m : gmap (Z * Z) HeaderEntry) :
  fold_left (fun m i => <[slot_key i := parsed_entry d i]> m) l m =
  fold_left (fun m k => <[k := (fun '(x, z) => parsed_entry d (x + 32 * z)) k]> m)
    (slot_key <$> l) m.
Proof.
  revert m. induction l as [|i l IH]; intros m; [reflexivity|].
  cbn [fold_left fmap list_fmap]. rewrite parsed_entry_slot. apply IH.
Qed.

Lemma parse_header_ok (s : RegionFile) :
  8192 <= Z.of_nat (length (data (file s))) -> in_grid (header s) ->
  exists p,
    parse_header s =
      (Ok tt, mkRegion (mkFile (data (file s)) p) (Z.of_nat (length (data (file s))))
                (header_of (data (file s))) (chunk_headers s)).
Proof.
  intros Hlen Hgrid. unfold parse_header, get_size.
  unfold bind at 1. unfold file_seek_end at 1. cbv beta iota zeta.
  unfold bind at 1. unfold set_size at 1. cbv beta iota.
  cbn [file data pos size header chunk_headers]. unfold flen.
  destruct (Z.of_nat (length (data (file s))) =? 0) eqn:E0; [lia|].
  destruct (Z.of_nat (length (data (file s))) <? 8192) eqn:E1; [lia|].
  unfold range_step.
  edestruct (parse_header_loop (range 1024)
               (mkRegion (mkFile (data (file s)) (Z.of_nat (length (data (file s)))))
                  (Z.of_nat (length (data (file s)))) (header s) (chunk_headers s)))
    as [p Hp].
  - intros i Hi. apply elem_of_range in Hi. lia.
  - exact Hlen.
  - reflexivity.
  - exists p. rewrite Hp. cbn [file data pos size header chunk_headers]. do 2 f_equal.
    unfold header_of.
    exact (eq_trans (fold_parsed_entries (data (file s)) (range 1024) (header s))
             (fold_insert_table (fun '(x, z) => parsed_entry (data (file s)) (x + 32 * z))
                (slot_key <$> range 1024) (header s) Hgrid slot_keys_grid)).
Qed.

(** ** The chunk-header parser builds [chunk_headers_of] *)

Lemma raw_offset_range (d : list byte) (i : Z) :
  0 <= i -> 4 * i + 4 <= Z.of_nat (length d) -> 0 <= raw_offset d i < 16777216.
Proof.
  intros Hi Hl. unfold raw_offset. apply be_range_3. rewrite length_slice; lia.
Qed.

Lemma raw_length_range (d : list byte) (i : Z) :
  0 <= i -> 4 * i + 4 <= Z.of_nat (length d) -> 0 <= raw_length d i < 256.
Proof.
  intros Hi Hl. unfold raw_length. apply be_range_1. rewrite length_slice; lia.
Qed.

Lemma read_chunk_header_ok (offset : Z) (s : RegionFile) :
  0 <= offset -> offset * 4096 + 5 <= Z.of_nat (length (data (file s))) ->
  read_chunk_header offset s =
    (Ok (chunk_length_at (data (file s)) offset, chunk_compression_at (data (file s)) offset),
     with_pos s (offset * 4096 + 5)).
Proof.
  intros Ho Hl. unfold read_chunk_header.
  unfold bind at 1. rewrite file_seek_ok by lia. cbv beta iota.
  unfold bind at 1. rewrite file_read_ok by lia. cbv beta iota.
  cbn [with_pos file data pos size header chunk_headers].
  assert (L1 : length (slice (data (file s)) (offset * 4096) 4) = 4%nat)
    by (rewrite length_slice; lia).
  unfold bind at 1. rewrite unpack_I_be by exact L1. cbn [lift_opt ret]. cbv beta iota.
  unfold bind at 1. rewrite file_read_ok by lia. cbv beta iota.
  cbn [with_pos file data pos size header chunk_headers]. rewrite L1.
  change (Z.of_nat 4) with 4.
  assert (L2 : length (slice (data (file s)) (offset * 4096 + 4) 1) = 1%nat)
    by (rewrite length_slice; lia).
  unfold bind at 1. rewrite unpack_B_be by exact L2. cbn [lift_opt ret]. cbv beta iota.
  rewrite L2. unfold chunk_length_at, chunk_compression_at, with_pos.
  do 3 f_equal. lia.
Qed.

Lemma header_status_cases (o l sz : Z) :
  0 <= o -> 0 <= l ->
  (header_status o l sz = STATUS_CHUNK_NOT_CREATED /\ o = 0 /\ l = 0) \/
  (header_status o l sz = STATUS_CHUNK_MISMATCHED_LENGTHS /\ o <> 0 /\ l = 0) \/
  (header_status o l sz = STATUS_CHUNK_IN_HEADER /\ o = 1 /\ 1 <= l) \/
  (header_status o l sz = STATUS_CHUNK_OUT_OF_FILE /\ o <> 1 /\ 1 <= l /\ sz < (o + l) * 4096) \/
  (header_status o l sz = STATUS_CHUNK_OK /\ o <> 1 /\ 1 <= l /\ (o + l) * 4096 <= sz).
Proof.
  intros Ho Hl. unfold header_status.
  destruct (o =? 0) eqn:E1, (l =? 0) eqn:E2, (o <? 2) eqn:E3,
    ((o + l) * 4096 >? sz) eqn:E4; cbn [andb negb]; lia.
Qed.

Lemma parse_chunk_header_entry_ok (x z : Z) (s : RegionFile) :
  0 <= x < 32 -> 0 <= z < 32 ->
  8192 <= Z.of_nat (length (data (file s))) ->
  header s = header_of (data (file s)) ->
  size s = Z.of_nat (length (data (file s))) ->
  exists p,
    parse_chunk_header_entry (x, z) s =
      (Ok tt, mkRegion (mkFile (data (file s)) p) (size s) (header s)
                (<[(x, z) := chunk_header_of (data (file s))
                               (parsed_entry (data (file s)) (x + 32 * z))]>
                   (chunk_headers s))).
Proof.
  intros Hx Hz Hlen Hh Hsz. unfold parse_chunk_header_entry.
  destruct s as [[d p] sz h ch]. cbn [file data pos size header chunk_headers] in *.
  subst h sz.
  unfold bind at 1. unfold get_header at 1. cbn [file data pos size header chunk_headers].
  unfold header_of at 1. rewrite lookup_table_of by assumption. cbv beta iota.
  unfold parsed_entry at 1 2. unfold chunk_header_of.
  pose proof (raw_offset_range d (x + 32 * z) ltac:(lia) ltac:(lia)) as Ho.
  pose proof (raw_length_range d (x + 32 * z) ltac:(lia) ltac:(lia)) as Hl.
  set (o := raw_offset d (x + 32 * z)) in *.
  set (l := raw_length d (x + 32 * z)) in *.
  destruct (header_status_cases o l (Z.of_nat (length d)) ltac:(lia) ltac:(lia))
    as [(-> & _)|[(-> & _)|[(-> & _)|[(-> & H1 & H2 & H3)|(-> & H1 & H2 & H3)]]]].
  - exists p. unfold STATUS_CHUNK_NOT_CREATED; cbn [Z.eqb Pos.eqb].
    unfold set_chunk_header. reflexivity.
  - exists p. unfold STATUS_CHUNK_MISMATCHED_LENGTHS, STATUS_CHUNK_NOT_CREATED,
      STATUS_CHUNK_OK, STATUS_CHUNK_OUT_OF_FILE; cbn [Z.eqb Pos.eqb].
    unfold set_chunk_header. reflexivity.
  - exists p. unfold STATUS_CHUNK_IN_HEADER, STATUS_CHUNK_NOT_CREATED,
      STATUS_CHUNK_OK, STATUS_CHUNK_OUT_OF_FILE; cbn [Z.eqb Pos.eqb].
    unfold set_chunk_header. reflexivity.
  - unfold STATUS_CHUNK_NOT_CREATED, STATUS_CHUNK_OK, STATUS_CHUNK_OUT_OF_FILE;
      cbn [Z.eqb Pos.eqb].
    unfold bind at 1. unfold get_state at 1. cbv beta iota.
    cbn [file data pos size header chunk_headers].
    destruct (o * 4096 + 5 <? Z.of_nat (length d)) eqn:E.
    + exists (o * 4096 + 5). unfold bind at 1.
      rewrite read_chunk_header_ok by (cbn [file data]; lia). cbv beta iota.
      unfold set_chunk_header. reflexivity.
    + exists p. unfold set_chunk_header. reflexivity.
  - unfold STATUS_CHUNK_NOT_CREATED, STATUS_CHUNK_OK; cbn [Z.eqb Pos.eqb].
    exists (o * 4096 + 5). unfold bind at 1.
    rewrite read_chunk_header_ok by (cbn [file data]; lia). cbv beta iota.
    unfold set_chunk_header. reflexivity.
Qed.

Lemma parse_chunk_headers_loop (l : list (Z * Z)) (s : RegionFile) :
  (forall k, k ∈ l -> k ∈ coords) ->
  8192 <= Z.of_nat (length (data (file s))) ->
  header s = header_of (data (file s)) ->
  size s = Z.of_nat (length (data (file s))) ->
  exists p,
    for_ l parse_chunk_header_entry s =
      (Ok tt, mkRegion (mkFile (data (file s)) p) (size s) (header s)
                (fold_left
                   (fun m k => <[k := (fun '(x, z) =>
                                         chunk_header_of (data (file s))
                                           (parsed_entry (data (file s)) (x + 32 * z))) k]> m)
                   l (chunk_headers s))).
Proof.
  revert s. induction l as [|[x z] l IH]; intros s Hl Hlen Hh Hsz.
  - exists (pos (file s)). destruct s as [[d p] sz h ch]. reflexivity.
  - cbn [for_]. unfold bind at 1.
    assert (Hxz : (x, z) ∈ coords) by (apply Hl; left).
    apply elem_of_coords in Hxz as [Hx Hz].
    destruct (parse_chunk_header_entry_ok x z s Hx Hz Hlen Hh Hsz) as [p0 Hp0].
    rewrite Hp0. cbv beta iota.
    edestruct (IH (mkRegion (mkFile (data (file s)) p0) (size s) (header s)
                     (<[(x, z) := chunk_header_of (data (file s))
                                    (parsed_entry (data (file s)) (x + 32 * z))]>
                        (chunk_headers s)))) as [p Hp].
    + intros j Hj. apply Hl. right. exact Hj.
    + exact Hlen.
    + exact Hh.
    + exact Hsz.
    + exists p. rewrite Hp. reflexivity.
Qed.

Lemma parse_chunk_headers_ok (s : RegionFile) :
  8192 <= Z.of_nat (length (data (file s))) ->
  header s = header_of (data (file s)) ->
  size s = Z.of_nat (length (data (file s))) ->
  in_grid (chunk_headers s) ->
  exists p,
    parse_chunk_headers s =
      (Ok tt, mkRegion (mkFile (data (file s)) p) (size s) (header s)
                (chunk_headers_of (data (file s)))).
Proof.
  intros Hlen Hh Hsz Hgrid. unfold parse_chunk_headers.
  destruct (parse_chunk_headers_loop coords s (fun k H => H) Hlen Hh Hsz) as [p Hp].
  exists p. rewrite Hp. do 2 f_equal. unfold chunk_headers_of.
  exact (fold_insert_table
           (fun '(x, z) => chunk_header_of (data (file s))
                             (parsed_entry (data (file s)) (x + 32 * z)))
           coords (chunk_headers s) Hgrid (fun k => iff_refl _)).
Qed.

(** A full reparse, as the constructor and every mutating method end with. *)
Lemma reparse_ok (s : RegionFile) :
  8192 <= Z.of_nat (length (data (file s))) ->
  in_grid (header s) -> in_grid (chunk_headers s) ->
  exists p, (parse_header ;; parse_chunk_headers) s = (Ok tt, opened_at (data (file s)) p).
Proof.
  intros Hlen Hg1 Hg2. destruct (parse_header_ok s Hlen Hg1) as [p0 Hp0].
  unfold bind. rewrite Hp0.
  edestruct (parse_chunk_headers_ok
               (mkRegion (mkFile (data (file s)) p0) (Z.of_nat (length (data (file s))))
                  (header_of (data (file s))) (chunk_headers s))) as [p Hp];
    [exact Hlen | reflexivity | reflexivity | exact Hg2 |].
  exists p. rewrite Hp. reflexivity.
Qed.

Lemma RegionFile_init_ok (f : File) :
  8192 <= flen f -> exists p, RegionFile_init f = Ok (opened_at (data f) p).
Proof.
  intros Hlen. unfold RegionFile_init.
  destruct (reparse_ok (init_state f) Hlen in_grid_empty in_grid_empty) as [p Hp].
  exists p. rewrite Hp. reflexivity.
Qed.

Lemma in_grid_header_of (d : list byte) : in_grid (header_of d).
Proof. unfold header_of. apply in_grid_table_of. Qed.

Lemma in_grid_chunk_headers_of (d : list byte) : in_grid (chunk_headers_of d).
Proof. unfold chunk_headers_of. apply in_grid_table_of. Qed.

(** ** Sector arithmetic *)

Lemma bytes_to_sector_spec (n : Z) :
  n <= _bytes_to_sector n 4096 * 4096 < n + 4096.
Proof.
  unfold _bytes_to_sector. cbv zeta.
  pose proof (Z.div_mod n 4096 ltac:(lia)).
  pose proof (Z.mod_pos_bound n 4096 ltac:(lia)).
  destruct (n mod 4096 =? 0) eqn:E; lia.
Qed.

Lemma bytes_to_sector_pos (n : Z) : 1 <= n -> 1 <= _bytes_to_sector n 4096.
Proof. intros Hn. pose proof (bytes_to_sector_spec n). lia. Qed.

(** ** Opening a file shorter than the two tables *)

Lemma init_header_loop (l : list (Z * Z)) (s : RegionFile) :
  for_ l (fun '(x, z) => set_header (x, z) (0, 0, 0, STATUS_CHUNK_NOT_CREATED)) s =
    (Ok tt, mkRegion (file s) (size s)
              (fold_left (fun m k => <[k := (0, 0, 0, STATUS_CHUNK_NOT_CREATED)]> m) l (header s))
              (chunk_headers s)).
Proof.
  revert s. induction l as [|[x z] l IH]; intros s.
  - destruct s as [f sz h ch]. reflexivity.
  - cbn [for_ fold_left]. unfold bind at 1. unfold set_header at 1. cbv beta iota.
    rewrite IH. reflexivity.
Qed.

Lemma init_header_ok (s : RegionFile) :
  in_grid (header s) ->
  init_header s = (Ok tt, mkRegion (file s) (size s) blank_header (chunk_headers s)).
Proof.
  intros Hg. unfold init_header. rewrite init_header_loop. do 2 f_equal.
  unfold blank_header.
  exact (fold_insert_table (fun _ => (0, 0, 0, STATUS_CHUNK_NOT_CREATED))
           coords (header s) Hg (fun k => iff_refl _)).
Qed.

Lemma lookup_blank_header (x z : Z) :
  0 <= x < 32 -> 0 <= z < 32 ->
  blank_header !! (x, z) = Some (0, 0, 0, STATUS_CHUNK_NOT_CREATED).
Proof.
  intros Hx Hz. unfold blank_header. rewrite lookup_table_of by assumption. reflexivity.
Qed.

Definition blank_chunk_headers : gmap (Z * Z) ChunkHeader :=
  table_of (fun _ => (None, None, STATUS_CHUNK_NOT_CREATED)).

Lemma parse_chunk_headers_blank_loop (l : list (Z * Z)) (s : RegionFile) :
  (forall k, k ∈ l -> k ∈ coords) ->
  header s = blank_header ->
  for_ l parse_chunk_header_entry s =
    (Ok tt, mkRegion (file s) (size s) (header s)
              (fold_left (fun m k => <[k := (None, None, STATUS_CHUNK_NOT_CREATED)]> m)
                 l (chunk_headers s))).
Proof.
  revert s. induction l as [|[x z] l IH]; intros s Hl Hh.
  - destruct s as [f sz h ch]. reflexivity.
  - cbn [for_ fold_left]. unfold bind at 1.
    assert (Hxz : (x, z) ∈ coords) by (apply Hl; left).
    apply elem_of_coords in Hxz as [Hx Hz].
    unfold parse_chunk_header_entry at 1. unfold bind at 1. unfold get_header at 1.
    rewrite Hh, lookup_blank_header by assumption. cbv beta iota.
    unfold STATUS_CHUNK_NOT_CREATED at 1 2. cbn [Z.eqb Pos.eqb].
    unfold set_chunk_header at 1. rewrite IH.
    + cbn [file size header chunk_headers]. rewrite Hh. reflexivity.
    + intros k Hk. apply Hl. right. exact Hk.
    + exact Hh.
Qed.

Lemma parse_chunk_headers_blank (s : RegionFile) :
  header s = blank_header -> in_grid (chunk_headers s) ->
  parse_chunk_headers s =
    (Ok tt, mkRegion (file s) (size s) (header s) blank_chunk_headers).
Proof.
  intros Hh Hg. unfold parse_chunk_headers.
  rewrite (parse_chunk_headers_blank_loop coords s (fun k H => H) Hh). do 2 f_equal.
  unfold blank_chunk_headers.
  exact (fold_insert_table (fun _ => (None, None, STATUS_CHUNK_NOT_CREATED))
           coords (chunk_headers s) Hg (fun k => iff_refl _)).
Qed.

(** The empty file, and the object that opening it returns. *)
Definition empty_file : File := mkFile [] 0.

Definition empty_region : RegionFile :=
  mkRegion (mkFile [] 0) 0 blank_header blank_chunk_headers.

Lemma empty_file_opens : RegionFile_init empty_file = Ok empty_region.
Proof.
  unfold RegionFile_init, bind.
  assert (H : parse_header (init_state empty_file) =
              (Ok tt, mkRegion (mkFile [] 0) 0 blank_header ∅)).
  { unfold parse_header, get_size. unfold bind at 1. unfold file_seek_end at 1.
    cbv beta iota zeta. unfold bind at 1. unfold set_size at 1. cbv beta iota.
    change (flen (file (init_state empty_file))) with 0. cbn [Z.eqb].
    rewrite init_header_ok by apply in_grid_empty. reflexivity. }
  rewrite H. rewrite parse_chunk_headers_blank by (try reflexivity; apply in_grid_empty).
  reflexivity.
Qed.

(** What the header parser leaves behind when it finds less than 8192 bytes. *)
Lemma parse_header_small (s : RegionFile) :
  0 < flen (file s) < 8192 -> in_grid (header s) ->
  parse_header s =
    (Raise (NoRegionHeader "The region file is too small in size to have a header."),
     mkRegion (mkFile (data (file s)) (flen (file s))) (flen (file s))
       blank_header (chunk_headers s)).
Proof.
  intros Hlen Hg. unfold parse_header, get_size.
  unfold bind at 1. unfold file_seek_end at 1. cbv beta iota zeta.
  unfold bind at 1. unfold set_size at 1. cbv beta iota.
  cbn [file data pos size header chunk_headers].
  destruct (flen (file s) =? 0) eqn:E0; [lia|].
  destruct (flen (file s) <? 8192) eqn:E1; [|lia].
  unfold bind at 1. rewrite init_header_ok by exact Hg. reflexivity.
Qed.

(** ** Sample containers *)

(** A file that holds a single zero byte. *)
Definition one_byte_file : File := mkFile [x00] 0.

(** A well-formed container of three sectors: slot (0,0) holds one chunk at
    sector 2, one sector long, stamped 7, whose record is [x78; x41] under
    codec 2. *)
Definition one_chunk_data : list byte :=
  [x00; x00; x02; x01] ++ replicate 4092 x00 ++
  [x00; x00; x00; x07] ++ replicate 4092 x00 ++
  [x00; x00; x00; x03; x02; x78; x41] ++ replicate 4089 x00.

Definition one_chunk_file : File := mkFile one_chunk_data 0.

(** The object that opening [f] returns. *)
Definition region_of (f : File) : RegionFile :=
  match RegionFile_init f with
  | Ok s => s
  | Raise _ => init_state f
  end.

Lemma region_of_opens (f : File) :
  8192 <= flen f -> RegionFile_init f = Ok (region_of f).
Proof.
  intros H. unfold region_of. destruct (RegionFile_init_ok f H) as [p ->]. reflexivity.
Qed.

Lemma one_chunk_file_size : flen one_chunk_file = 12288.
Proof. vm_compute. reflexivity. Qed.

(** ** Reading leaves the file alone *)

(** C10: reading a record, fetching a timestamp, listing the coordinates,
    counting the records and iterating over the decoded records never write
    to the backing file: whatever the state of the container and whether the
    call returns or raises, the bytes of the file after the call are the
    bytes before it. *)
Theorem read_only_operations_keep_file {C : Codec} (s : RegionFile) (x z : Z) :
  data (file (snd (get_chunk x z s))) = data (file s) /\
  data (file (snd (get_nbt x z s))) = data (file s) /\
  data (file (snd (get_timestamp x z s))) = data (file s) /\
  data (file (snd (get_chunk_coords s))) = data (file s) /\
  data (file (snd (get_chunks s))) = data (file s) /\
  data (file (snd (chunk_count s))) = data (file s) /\
  data (file (snd (iter_chunks s))) = data (file s).
Proof.
  repeat split.
  - apply keeps_get_chunk.
  - apply keeps_get_chunk.
  - apply keeps_get_timestamp.
  - apply keeps_get_chunk_coords.
  - apply keeps_get_chunk_coords.
  - apply keeps_chunk_count.
  - apply keeps_iter_chunks.
Qed.

(** ** The coarse status *)

Lemma header_status_rule (offset length sz : Z) :
  header_status offset length sz = coarse_status_rule offset length sz.
Proof.
  unfold header_status, coarse_status_rule, first_match.
  destruct (offset =? 0), (length =? 0), (offset <? 2), ((offset + length) * 4096 >? sz);
    reflexivity.
Qed.

Lemma be_split_value (bs : list byte) :
  length bs = 4%nat ->
  Z.shiftr (be bs) 8 = be (take 3 bs) /\ Z.land (be bs) 255 = be (drop 3 bs).
Proof.
  destruct bs as [|a [|b [|c [|d [|]]]]]; try discriminate. intros _.
  cbn [take drop firstn skipn]. rewrite be_4, be_3, be_1.
  pose proof (Z_of_byte_range d).
  rewrite Z.shiftr_div_pow2 by lia. change 255 with (Z.ones 8).
  rewrite Z.land_ones by lia. change (2 ^ 8) with 256. split.
  - rewrite Z.div_add_l by lia. rewrite Z.div_small by lia. lia.
  - rewrite Z.add_comm, Z.mod_add by lia. apply Z.mod_small. lia.
Qed.

Lemma lookup_header_of (d : list byte) (x z : Z) :
  0 <= x < 32 -> 0 <= z < 32 ->
  header_of d !! (x, z) = Some (parsed_entry d (x + 32 * z)).
Proof.
  intros Hx Hz. unfold header_of. rewrite lookup_table_of by assumption. reflexivity.
Qed.

Lemma lookup_chunk_headers_of (d : list byte) (x z : Z) :
  0 <= x < 32 -> 0 <= z < 32 ->
  chunk_headers_of d !! (x, z) = Some (chunk_header_of d (parsed_entry d (x + 32 * z))).
Proof.
  intros Hx Hz. unfold chunk_headers_of. rewrite lookup_table_of by assumption. reflexivity.
Qed.

(** C2: in a file of at least 8192 bytes, the entry of slot (x,z) is the
    4-byte big-endian value at byte [4*(x+32z)] split into [value >> 8]
    and [value & 0xFF], and its coarse status is the first match of, in this
    order: offset and length both 0, NotCreated; length 0, MismatchedLengths;
    offset nonzero and below 2, InHeader; [(offset+length)*4096 > fileSize],
    OutOfFile; otherwise Ok.  Hence an entry with offset 1 and length 0 is
    MismatchedLengths, not InHeader. *)
Theorem coarse_status_first_match (f : File) (s : RegionFile) (x z : Z) :
  8192 <= flen f -> RegionFile_init f = Ok s ->
  0 <= x < 32 -> 0 <= z < 32 ->
  let value := be (slice (data f) (4 * (x + 32 * z)) 4) in
  let offset := Z.shiftr value 8 in
  let length := Z.land value 255 in
  header s !! (x, z) =
    Some (offset, length, raw_timestamp (data f) (x + 32 * z),
          coarse_status_rule offset length (flen f)) /\
  header_status 1 0 (flen f) = STATUS_CHUNK_MISMATCHED_LENGTHS /\
  coarse_status_rule 1 0 (flen f) = STATUS_CHUNK_MISMATCHED_LENGTHS.
Proof.
  intros Hlen Hinit Hx Hz value offset length.
  destruct (RegionFile_init_ok f Hlen) as [p Hp]. rewrite Hp in Hinit.
  injection Hinit as <-. cbn [opened_at header].
  split; [|split; reflexivity].
  rewrite lookup_header_of by assumption. unfold parsed_entry.
  assert (L : List.length (slice (data f) (4 * (x + 32 * z)) 4) = 4%nat).
  { rewrite length_slice; unfold flen in Hlen; lia. }
  destruct (be_split_value _ L) as [Ho Hl].
  rewrite take_slice in Ho by lia. rewrite drop_slice in Hl by lia.
  change (Z.of_nat 3) with 3 in *. change (4 - 3) with 1 in *.
  unfold raw_offset, raw_length. subst offset length value.
  rewrite Ho, Hl, header_status_rule. reflexivity.
Qed.

Lemma coarse_status_first_match_witness :
  header (region_of one_chunk_file) !! (0, 0) = Some (2, 1, 7, STATUS_CHUNK_OK).
Proof.
  assert (H1 : 8192 <= flen one_chunk_file) by (rewrite one_chunk_file_size; lia).
  destruct (coarse_status_first_match one_chunk_file (region_of one_chunk_file) 0 0
              H1 (region_of_opens _ H1) ltac:(lia) ltac:(lia)) as [H _].
  rewrite H. vm_compute. reflexivity.
Defined.

(** ** Opening a file that is too short for the tables *)

(** C3, as stated, fails: opening a one-byte file raises [NoRegionHeader]
    out of the constructor, so the caller is handed no container at all. *)
Lemma open_short_file_counterexample :
  RegionFile_init one_byte_file =
    Raise (NoRegionHeader "The region file is too small in size to have a header.") /\
  ~ (exists s, RegionFile_init one_byte_file = Ok s).
Proof.
  assert (H : RegionFile_init one_byte_file =
              Raise (NoRegionHeader "The region file is too small in size to have a header."))
    by (vm_compute; reflexivity).
  split; [exact H|]. intros [s Hs]. rewrite H in Hs. discriminate Hs.
Qed.

(** C3, amended: for a file whose size is nonzero and below 8192 bytes the
    header parser sets every slot to NotCreated and raises [NoRegionHeader];
    the constructor lets that exception through, so it returns no object, and
    in the object it abandons the chunk-header table was never filled while
    the file is untouched. *)
Theorem open_short_file_raises (f : File) :
  0 < flen f < 8192 ->
  let msg := "The region file is too small in size to have a header."%string in
  let abandoned := snd ((parse_header ;; parse_chunk_headers) (init_state f)) in
  RegionFile_init f = Raise (NoRegionHeader msg) /\
  fst (parse_header (init_state f)) = Raise (NoRegionHeader msg) /\
  (forall x z, 0 <= x < 32 -> 0 <= z < 32 ->
     header abandoned !! (x, z) = Some (0, 0, 0, STATUS_CHUNK_NOT_CREATED)) /\
  chunk_headers abandoned = ∅ /\
  data (file abandoned) = data f.
Proof.
  intros Hlen msg abandoned.
  pose proof (parse_header_small (init_state f) Hlen in_grid_empty) as H.
  subst abandoned. unfold RegionFile_init, bind. rewrite H. cbn [fst snd].
  repeat split.
  intros x z Hx Hz. cbn [header]. apply lookup_blank_header; assumption.
Qed.

Lemma open_short_file_raises_witness :
  RegionFile_init one_byte_file =
    Raise (NoRegionHeader "The region file is too small in size to have a header.") /\
  chunk_headers (snd ((parse_header ;; parse_chunk_headers) (init_state one_byte_file))) = ∅.
Proof.
  assert (H : 0 < flen one_byte_file < 8192) by (vm_compute; split; reflexivity).
  destruct (open_short_file_raises one_byte_file H) as (H1 & _ & _ & H2 & _).
  split; [exact H1 | exact H2].
Defined.

(** ** Writing into the empty container *)

Lemma occupied_empty_region : occupied empty_region = [].
Proof. vm_compute. reflexivity. Qed.

Section EmptyContainer.
Context {C : Codec}.

Lemma locate_empty_region (x z n : Z) :
  0 <= x < 32 -> 0 <= z < 32 -> 1 <= n ->
  locate x z n empty_region = (Raise IndexError, empty_region).
Proof.
  intros Hx Hz Hn. unfold locate.
  unfold bind at 1. unfold get_header at 1.
  change (header empty_region) with blank_header.
  rewrite lookup_blank_header by assumption. cbv beta iota.
  unfold STATUS_CHUNK_NOT_CREATED at 1 2. cbn [Z.eqb Pos.eqb orb].
  destruct (n <=? 0) eqn:E; [lia|].
  unfold bind at 1. unfold get_state at 1. cbv beta iota zeta.
  rewrite occupied_empty_region. reflexivity.
Qed.

(** C4: the code does not do what the claim says.  Writing any payload at
    (5,5) into the container opened from the empty file raises [IndexError]
    (the list of occupied slots is empty and its first element is read);
    nothing is written and slot (5,5) stays NotCreated with offset 0. *)
Theorem write_to_empty_container_raises (P : NBT) (now : Z) :
  RegionFile_init empty_file = Ok empty_region /\
  write_chunk 5 5 P now empty_region = (Raise IndexError, empty_region) /\
  header empty_region !! (5, 5) = Some (0, 0, 0, STATUS_CHUNK_NOT_CREATED) /\
  data (file empty_region) = [].
Proof.
  split; [exact empty_file_opens|]. split; [|split; [|reflexivity]].
  - unfold write_chunk. cbv zeta. unfold bind at 1.
    rewrite locate_empty_region; [reflexivity|lia|lia|].
    apply bytes_to_sector_pos. lia.
  - apply lookup_blank_header; lia.
Qed.

End EmptyContainer.

(** ** Reading a record of an opened container *)

Lemma region_of_opened (f : File) :
  8192 <= flen f -> exists p, region_of f = opened_at (data f) p.
Proof.
  intros H. unfold region_of. destruct (RegionFile_init_ok f H) as [p ->].
  exists p. reflexivity.
Qed.

Lemma init_opened (f : File) (s : RegionFile) :
  8192 <= flen f -> RegionFile_init f = Ok s -> exists p, s = opened_at (data f) p.
Proof.
  intros H Hs. destruct (RegionFile_init_ok f H) as [p Hp]. rewrite Hp in Hs.
  injection Hs as <-. exists p. reflexivity.
Qed.

(** An entry whose status is Ok lies inside the file. *)
Lemma parsed_entry_ok (d : list byte) (i offset slen ts : Z) :
  0 <= i < 1024 -> 8192 <= Z.of_nat (length d) ->
  parsed_entry d i = (offset, slen, ts, STATUS_CHUNK_OK) ->
  offset = raw_offset d i /\ slen = raw_length d i /\
  0 <= offset < 16777216 /\ offset <> 1 /\ 1 <= slen <= 255 /\
  (offset + slen) * 4096 <= Z.of_nat (length d).
Proof.
  intros Hi Hlen He. unfold parsed_entry in He. injection He as Ho Hl _ Hst.
  pose proof (raw_offset_range d i ltac:(lia) ltac:(lia)) as Ro.
  pose proof (raw_length_range d i ltac:(lia) ltac:(lia)) as Rl.
  rewrite Ho, Hl in *.
  destruct (header_status_cases offset slen (Z.of_nat (length d)) ltac:(lia) ltac:(lia))
    as [(E & _)|[(E & _)|[(E & _)|[(E & _)|(E & H1 & H2 & H3)]]]];
    rewrite E in Hst; try discriminate Hst.
  repeat split; lia.
Qed.

Section Reading.
Context {C : Codec}.

Lemma decode_chunk_parse (c : Z) (chunk : list byte) :
  decode_chunk c chunk =
    parse_decompressed
      (if c =? 1 then gzip_decompress chunk
       else if c =? 2 then zlib_decompress chunk else inr chunk).
Proof. reflexivity. Qed.

(** The outcome of [parse_decompressed] does not depend on the object. *)
Lemma parse_decompressed_state (r : string + list byte) (s t : RegionFile) :
  fst (parse_decompressed r s) = fst (parse_decompressed r t).
Proof.
  unfold parse_decompressed, garbled.
  destruct r as [err|d]; [destruct (String.eqb err ""); reflexivity|].
  destruct (NBTFile d) as [err|n]; [destruct (String.eqb err ""); reflexivity|reflexivity].
Qed.

(** Reading a slot whose coarse status is Ok and whose record length is more
    than one byte: the payload is read with the length stored in the record
    and decoded; the fine status plays no part. *)
Lemma get_chunk_record (d : list byte) (p x z offset slen ts : Z) :
  8192 <= Z.of_nat (length d) -> 0 <= x < 32 -> 0 <= z < 32 ->
  parsed_entry d (x + 32 * z) = (offset, slen, ts, STATUS_CHUNK_OK) ->
  1 < chunk_length_at d offset ->
  let c := chunk_compression_at d offset in
  let chunk := slice d (offset * 4096 + 5) (chunk_length_at d offset - 1) in
  get_chunk x z (opened_at d p) =
    (if c >? 2
     then raise (ChunkDataError ("Unknown chunk compression/format (" ++ fmt_d c ++ ")"))
     else decode_chunk c chunk)
      (with_pos (opened_at d p) (offset * 4096 + 5 + Z.of_nat (length chunk))).
Proof.
  intros Hlen Hx Hz He HL c chunk.
  destruct (parsed_entry_ok d (x + 32 * z) offset slen ts ltac:(lia) Hlen He)
    as (Eo & El & Ro & Ho1 & Rl & Hin).
  unfold opened_at.
  unfold get_chunk. unfold bind at 1. unfold get_header at 1.
  cbn [header]. rewrite lookup_header_of by assumption. rewrite He.
  cbv beta iota.
  change (STATUS_CHUNK_OK =? STATUS_CHUNK_NOT_CREATED) with false.
  change (STATUS_CHUNK_OK =? STATUS_CHUNK_IN_HEADER) with false.
  change (STATUS_CHUNK_OK =? STATUS_CHUNK_MISMATCHED_LENGTHS) with false.
  change (STATUS_CHUNK_OK =? STATUS_CHUNK_OUT_OF_FILE) with false.
  change (STATUS_CHUNK_OK =? STATUS_CHUNK_OK) with true.
  cbv beta iota.
  unfold bind at 1. unfold get_chunk_header at 1.
  cbn [chunk_headers]. rewrite lookup_chunk_headers_of by assumption. rewrite He.
  unfold chunk_header_of.
  change (STATUS_CHUNK_OK =? STATUS_CHUNK_NOT_CREATED) with false.
  change (STATUS_CHUNK_OK =? STATUS_CHUNK_OK) with true.
  cbv beta iota.
  set (L := chunk_length_at d offset) in *.
  destruct (L =? 0) eqn:E0; [lia|].
  assert (Hst : forall st : Z, st = STATUS_CHUNK_MISMATCHED_LENGTHS \/ st = STATUS_CHUNK_OK ->
                (st =? STATUS_CHUNK_ZERO_LENGTH) = false).
  { intros st [-> | ->]; reflexivity. }
  rewrite Hst by (destruct (L + 4 >? slen * 4096); [left|right]; reflexivity).
  unfold bind at 1. unfold ret at 1. cbv beta iota.
  destruct (L <=? 1) eqn:E1; [lia|].
  unfold bind at 1. rewrite file_seek_ok by lia. cbv beta iota.
  unfold bind at 1. rewrite file_read_ok by lia. cbv beta iota.
  cbn [with_pos file data pos size header chunk_headers]. reflexivity.
Qed.

End Reading.

Lemma region_of_header (f : File) (x z : Z) :
  8192 <= flen f -> 0 <= x < 32 -> 0 <= z < 32 ->
  header (region_of f) !! (x, z) = Some (parsed_entry (data f) (x + 32 * z)).
Proof.
  intros H Hx Hz. destruct (region_of_opened f H) as [p ->].
  cbn [opened_at header]. apply lookup_header_of; assumption.
Qed.

(** A container whose slot (0,0) reserves one sector at sector 2 while the
    record announces 4093 bytes: codec 2 and 4091 bytes of payload up to the
    end of the file. *)
Definition mismatched_data : list byte :=
  [x00; x00; x02; x01] ++ replicate 4092 x00 ++ replicate 4096 x00 ++
  [x00; x00; x0f; xfd; x02; x78] ++ replicate 4090 x41.

Definition mismatched_file : File := mkFile mismatched_data 0.

(** A container whose slot (0,0) holds a record with codec id 0 over the
    four bytes of an unnamed, empty Compound tag: the tag id 10, a name of
    length 0, and the End tag. *)
Definition codec0_data : list byte :=
  [x00; x00; x02; x01] ++ replicate 4092 x00 ++ replicate 4096 x00 ++
  [x00; x00; x00; x05; x00; x0a; x00; x00; x00] ++ replicate 4087 x00.

Definition codec0_file : File := mkFile codec0_data 0.

Lemma mismatched_file_size : flen mismatched_file = 12288.
Proof. vm_compute. reflexivity. Qed.

Lemma codec0_file_size : flen codec0_file = 12288.
Proof. vm_compute. reflexivity. Qed.

Section ReadingClaims.
Context {C : Codec}.

(** C7: a slot whose coarse status is Ok and whose record length [L]
    satisfies [L + 4 > sectorLength * 4096] has fine status
    MismatchedLengths, and reading it goes on regardless: [L - 1] bytes are
    read after the five header bytes and the outcome is exactly that of
    decoding them, so the payload is returned whenever they decompress and
    parse. *)
Theorem mismatched_lengths_still_readable
    (f : File) (s : RegionFile) (x z offset slen ts : Z) :
  8192 <= flen f -> RegionFile_init f = Ok s ->
  0 <= x < 32 -> 0 <= z < 32 ->
  header s !! (x, z) = Some (offset, slen, ts, STATUS_CHUNK_OK) ->
  let L := chunk_length_at (data f) offset in
  let c := chunk_compression_at (data f) offset in
  let chunk := slice (data f) (offset * 4096 + 5) (L - 1) in
  L + 4 > slen * 4096 ->
  chunk_headers s !! (x, z) = Some (Some L, Some c, STATUS_CHUNK_MISMATCHED_LENGTHS) /\
  fst (get_chunk x z s) =
    fst ((if c >? 2
          then raise (ChunkDataError ("Unknown chunk compression/format (" ++ fmt_d c ++ ")"))
          else decode_chunk c chunk) s) /\
  (forall raw P,
     (c = 1 /\ gzip_decompress chunk = inr raw) \/ (c = 2 /\ zlib_decompress chunk = inr raw) ->
     NBTFile raw = inr P ->
     fst (get_chunk x z s) = Ok (Some P)).
Proof.
  intros Hlen Hinit Hx Hz Hh L c chunk HL.
  destruct (init_opened f s Hlen Hinit) as [p ->].
  cbn [opened_at header] in Hh. rewrite lookup_header_of in Hh by assumption.
  assert (He : parsed_entry (data f) (x + 32 * z) = (offset, slen, ts, STATUS_CHUNK_OK))
    by congruence.
  clear Hh. unfold flen in Hlen.
  destruct (parsed_entry_ok _ (x + 32 * z) offset slen ts ltac:(lia) Hlen He)
    as (Eo & El & Ro & Ho1 & Rl & Hin).
  assert (H1 : 1 < L) by lia.
  assert (Hget : fst (get_chunk x z (opened_at (data f) p)) =
    fst ((if c >? 2
          then raise (ChunkDataError ("Unknown chunk compression/format (" ++ fmt_d c ++ ")"))
          else decode_chunk c chunk) (opened_at (data f) p))).
  { rewrite (get_chunk_record (data f) p x z offset slen ts Hlen Hx Hz He H1).
    fold L c chunk. destruct (c >? 2); [reflexivity|].
    rewrite decode_chunk_parse. apply parse_decompressed_state. }
  split; [|split; [exact Hget|]].
  - cbn [opened_at chunk_headers]. rewrite lookup_chunk_headers_of by assumption.
    rewrite He. unfold chunk_header_of.
    change (STATUS_CHUNK_OK =? STATUS_CHUNK_NOT_CREATED) with false.
    change (STATUS_CHUNK_OK =? STATUS_CHUNK_OK) with true. cbv beta iota zeta.
    fold L c. destruct (L =? 0) eqn:E0; [lia|].
    destruct (L + 4 >? slen * 4096) eqn:E1; [reflexivity|lia].
  - intros raw P Hraw HP. rewrite Hget. rewrite decode_chunk_parse.
    destruct Hraw as [[-> Hr]|[-> Hr]]; cbn [Z.gtb Z.compare Pos.compare Pos.compare_cont Z.eqb Pos.eqb];
      rewrite Hr; unfold parse_decompressed; rewrite HP; reflexivity.
Qed.

(** C5, amended: for a readable record (coarse status Ok, record length
    above 1) a codec id above 2 fails with the unknown-format error, codec 1
    is decompressed with gzip and codec 2 with zlib, and codec id 0 is not
    refused: its bytes go to the tag-tree parser as they are. *)
Theorem codec_dispatch (f : File) (s : RegionFile) (x z offset slen ts : Z) :
  8192 <= flen f -> RegionFile_init f = Ok s ->
  0 <= x < 32 -> 0 <= z < 32 ->
  header s !! (x, z) = Some (offset, slen, ts, STATUS_CHUNK_OK) ->
  let L := chunk_length_at (data f) offset in
  let c := chunk_compression_at (data f) offset in
  let chunk := slice (data f) (offset * 4096 + 5) (L - 1) in
  1 < L ->
  (2 < c ->
   fst (get_chunk x z s) =
     Raise (ChunkDataError ("Unknown chunk compression/format (" ++ fmt_d c ++ ")"))) /\
  (c = 1 -> fst (get_chunk x z s) = fst (parse_decompressed (gzip_decompress chunk) s)) /\
  (c = 2 -> fst (get_chunk x z s) = fst (parse_decompressed (zlib_decompress chunk) s)) /\
  (c = 0 -> fst (get_chunk x z s) = fst (parse_decompressed (inr chunk) s)).
Proof.
  intros Hlen Hinit Hx Hz Hh L c chunk HL.
  destruct (init_opened f s Hlen Hinit) as [p ->].
  cbn [opened_at header] in Hh. rewrite lookup_header_of in Hh by assumption.
  assert (He : parsed_entry (data f) (x + 32 * z) = (offset, slen, ts, STATUS_CHUNK_OK))
    by congruence.
  clear Hh. unfold flen in Hlen.
  rewrite (get_chunk_record (data f) p x z offset slen ts Hlen Hx Hz He HL).
  fold L c chunk. rewrite decode_chunk_parse.
  repeat split.
  - intros Hc. destruct (c >? 2) eqn:E; [reflexivity|lia].
  - intros ->. cbn [Z.gtb Z.compare Pos.compare Pos.compare_cont Z.eqb Pos.eqb].
    apply parse_decompressed_state.
  - intros ->. cbn [Z.gtb Z.compare Pos.compare Pos.compare_cont Z.eqb Pos.eqb].
    apply parse_decompressed_state.
  - intros ->. cbn [Z.gtb Z.compare Z.eqb]. apply parse_decompressed_state.
Qed.

End ReadingClaims.

Lemma mismatched_lengths_still_readable_witness :
  chunk_headers (region_of mismatched_file) !! (0, 0) =
    Some (Some 4093, Some 2, STATUS_CHUNK_MISMATCHED_LENGTHS) /\
  fst (@get_chunk marker_codec 0 0 (region_of mismatched_file)) =
    Ok (Some (replicate 4090 x41)).
Proof.
  assert (H1 : 8192 <= flen mismatched_file) by (rewrite mismatched_file_size; lia).
  assert (Hh : header (region_of mismatched_file) !! (0, 0) = Some (2, 1, 0, STATUS_CHUNK_OK)).
  { rewrite region_of_header by lia. vm_compute. reflexivity. }
  destruct (@mismatched_lengths_still_readable marker_codec mismatched_file
              (region_of mismatched_file) 0 0 2 1 0
              H1 (region_of_opens _ H1) ltac:(lia) ltac:(lia) Hh)
    as (Hst & _ & Hdec).
  { vm_compute. reflexivity. }
  split.
  - rewrite Hst. vm_compute. reflexivity.
  - apply (Hdec (replicate 4090 x41)).
    + right. split; vm_compute; reflexivity.
    + reflexivity.
Defined.

(** C5, as stated, fails at codec id 0: the record is not refused, its bytes
    go to the tag-tree parser as they are.  Here they are the bytes of an
    empty Compound tag, which the parser accepts, and the parser of the
    instance refuses what does not start with the id of a Compound tag. *)
Lemma codec_zero_counterexample :
  chunk_compression_at (data codec0_file) 2 = 0 /\
  header (region_of codec0_file) !! (0, 0) = Some (2, 1, 0, STATUS_CHUNK_OK) /\
  slice (data codec0_file) (2 * 4096 + 5) (chunk_length_at (data codec0_file) 2 - 1) =
    [x0a; x00; x00; x00] /\
  @NBTFile compound_codec [x41] = inl "First record is not a Compound Tag"%string /\
  fst (@get_chunk compound_codec 0 0 (region_of codec0_file)) =
    Ok (Some [x0a; x00; x00; x00]) /\
  fst (@get_chunk compound_codec 0 0 (region_of codec0_file)) <>
    Raise (ChunkDataError "Unknown chunk compression/format (0)").
Proof.
  assert (H : fst (@get_chunk compound_codec 0 0 (region_of codec0_file)) =
              Ok (Some [x0a; x00; x00; x00]))
    by (vm_compute; reflexivity).
  split; [vm_compute; reflexivity|]. split; [vm_compute; reflexivity|].
  split; [vm_compute; reflexivity|]. split; [reflexivity|].
  split; [exact H|]. rewrite H. discriminate.
Qed.

Lemma codec_dispatch_witness :
  fst (@get_chunk marker_codec 0 0 (region_of one_chunk_file)) = Ok (Some [x41]).
Proof.
  assert (H1 : 8192 <= flen one_chunk_file) by (rewrite one_chunk_file_size; lia).
  assert (Hh : header (region_of one_chunk_file) !! (0, 0) = Some (2, 1, 7, STATUS_CHUNK_OK)).
  { rewrite region_of_header by lia. vm_compute. reflexivity. }
  destruct (@codec_dispatch marker_codec one_chunk_file (region_of one_chunk_file) 0 0 2 1 7
              H1 (region_of_opens _ H1) ltac:(lia) ltac:(lia) Hh)
    as (_ & _ & Hz & _).
  { vm_compute. reflexivity. }
  rewrite Hz by (vm_compute; reflexivity). vm_compute. reflexivity.
Defined.

(** ** Deleting a record *)

Lemma file_write_ok (bs : list byte) (s : RegionFile) :
  file_write bs s =
    (Ok tt, mkRegion (mkFile (write_at (pos (file s)) bs (data (file s)))
                        (pos (file s) + Z.of_nat (length bs)))
              (size s) (header s) (chunk_headers s)).
Proof. reflexivity. Qed.

(** The contents after [unlink_chunk(x, z)]. *)
Definition unlink_data (d : list byte) (x z : Z) : list byte :=
  write_at (4096 + 4 * (x + z * 32)) [x00; x00; x00; x00]
    (write_at (4 * (x + z * 32)) [x00; x00; x00; x00] d).

Lemma length_unlink_data (d : list byte) (x z : Z) :
  8192 <= Z.of_nat (length d) -> 0 <= x < 32 -> 0 <= z < 32 ->
  length (unlink_data d x z) = length d.
Proof.
  intros Hlen Hx Hz. unfold unlink_data.
  rewrite !length_write_at by discriminate. cbn [length]. lia.
Qed.

Lemma lookup_unlink_data (d : list byte) (x z : Z) (j : nat) :
  8192 <= Z.of_nat (length d) -> 0 <= x < 32 -> 0 <= z < 32 ->
  unlink_data d x z !! j =
    if decide (4 * (x + 32 * z) <= Z.of_nat j < 4 * (x + 32 * z) + 4 \/
               4096 + 4 * (x + 32 * z) <= Z.of_nat j < 4096 + 4 * (x + 32 * z) + 4)
    then Some x00 else d !! j.
Proof.
  intros Hlen Hx Hz. unfold unlink_data.
  rewrite !lookup_write_at by discriminate.
  rewrite length_write_at by discriminate. cbn [length].
  repeat destruct (decide _); try lia; try reflexivity.
  - destruct (j - Z.to_nat (4 * (x + z * 32)))%nat as [|[|[|[|k]]]] eqn:E;
      try reflexivity; lia.
  - destruct (j - Z.to_nat (4096 + 4 * (x + z * 32)))%nat as [|[|[|[|k]]]] eqn:E;
      try reflexivity; lia.
Qed.

Lemma unlink_chunk_ok (s : RegionFile) (x z : Z) :
  8192 <= Z.of_nat (length (data (file s))) -> 0 <= x < 32 -> 0 <= z < 32 ->
  in_grid (header s) -> in_grid (chunk_headers s) ->
  exists p, unlink_chunk x z s = (Ok tt, opened_at (unlink_data (data (file s)) x z) p).
Proof.
  intros Hlen Hx Hz Hg1 Hg2. unfold unlink_chunk.
  unfold bind at 1. rewrite file_seek_ok by lia. cbv beta iota.
  change (pack_IB 0 0) with (Some [x00; x00; x00; x00; x00]).
  unfold bind at 1. cbn [lift_opt ret tail]. cbv beta iota.
  unfold bind at 1. rewrite file_write_ok. cbv beta iota.
  cbn [with_pos file data pos size header chunk_headers].
  unfold bind at 1. rewrite file_seek_ok by lia. cbv beta iota.
  change (pack_I 0) with (Some [x00; x00; x00; x00]).
  unfold bind at 1. cbn [lift_opt ret]. cbv beta iota.
  unfold bind at 1. rewrite file_write_ok. cbv beta iota.
  cbn [with_pos file data pos size header chunk_headers].
  fold (unlink_data (data (file s)) x z).
  match goal with
  | |- exists p, (parse_header ;; parse_chunk_headers) ?t = _ =>
      destruct (reparse_ok t) as [p Hp]
  end.
  - cbn [file data]. rewrite length_unlink_data by assumption. exact Hlen.
  - exact Hg1.
  - exact Hg2.
  - exists p. exact Hp.
Qed.

Lemma parsed_entry_unlink_data (d : list byte) (x z : Z) :
  8192 <= Z.of_nat (length d) -> 0 <= x < 32 -> 0 <= z < 32 ->
  parsed_entry (unlink_data d x z) (x + 32 * z) = (0, 0, 0, STATUS_CHUNK_NOT_CREATED).
Proof.
  intros Hlen Hx Hz.
  assert (Hs : forall q n, 0 <= q -> 0 <= n ->
            (4 * (x + 32 * z) <= q /\ q + n <= 4 * (x + 32 * z) + 4) \/
            (4096 + 4 * (x + 32 * z) <= q /\ q + n <= 4096 + 4 * (x + 32 * z) + 4) ->
            slice (unlink_data d x z) q n = replicate (Z.to_nat n) x00).
  { intros q n Hq Hn Hr. apply list_eq. intros j. rewrite lookup_slice.
    destruct (decide (j < Z.to_nat n)%nat) as [Hj|Hj].
    - rewrite lookup_unlink_data by assumption.
      rewrite decide_True by lia. symmetry. apply lookup_replicate_2. exact Hj.
    - symmetry. apply lookup_replicate_None. lia. }
  unfold parsed_entry, raw_offset, raw_length, raw_timestamp.
  rewrite !Hs by lia. reflexivity.
Qed.

Section Deleting.
Context {C : Codec}.

Lemma get_chunk_not_created (s : RegionFile) (x z o l t : Z) :
  header s !! (x, z) = Some (o, l, t, STATUS_CHUNK_NOT_CREATED) ->
  get_chunk x z s = (Raise (InconceivedChunk "Chunk is not created"), s).
Proof.
  intros H. unfold get_chunk. unfold bind at 1. unfold get_header at 1. cbv beta.
  rewrite H. reflexivity.
Qed.

(** C8: in a container of at least 8192 bytes, deleting the record at a
    coordinate (x,z) of the grid succeeds and zeroes exactly the four bytes
    of the slot in the offset table and the four bytes of its timestamp; the
    file keeps its length and every other byte, the data of the record
    included.  Reading (x,z) afterwards raises [InconceivedChunk], which is a
    lookup error and not a [RegionFileFormatError]. *)
Theorem unlink_zeroes_only_the_slot (f : File) (s : RegionFile) (x z : Z) :
  8192 <= flen f -> RegionFile_init f = Ok s ->
  0 <= x < 32 -> 0 <= z < 32 ->
  let i := x + 32 * z in
  let s' := snd (unlink_chunk x z s) in
  fst (unlink_chunk x z s) = Ok tt /\
  length (data (file s')) = length (data f) /\
  (forall j : nat,
     data (file s') !! j =
       if decide (4 * i <= Z.of_nat j < 4 * i + 4 \/
                  4096 + 4 * i <= Z.of_nat j < 4096 + 4 * i + 4)
       then Some x00 else data f !! j) /\
  header s' !! (x, z) = Some (0, 0, 0, STATUS_CHUNK_NOT_CREATED) /\
  fst (get_chunk x z s') = Raise (InconceivedChunk "Chunk is not created") /\
  is_RegionFileFormatError (InconceivedChunk "Chunk is not created") = false /\
  is_LookupError (InconceivedChunk "Chunk is not created") = true.
Proof.
  intros Hlen Hinit Hx Hz i s'.
  destruct (init_opened f s Hlen Hinit) as [p ->]. unfold flen in Hlen.
  destruct (unlink_chunk_ok (opened_at (data f) p) x z Hlen Hx Hz
              (in_grid_header_of _) (in_grid_chunk_headers_of _)) as [q Hq].
  cbn [opened_at file data] in Hq. subst s'. rewrite Hq. cbn [fst snd].
  assert (Hh : header (opened_at (unlink_data (data f) x z) q) !! (x, z) =
               Some (0, 0, 0, STATUS_CHUNK_NOT_CREATED)).
  { cbn [opened_at header]. rewrite lookup_header_of by assumption.
    rewrite parsed_entry_unlink_data by assumption. reflexivity. }
  split; [reflexivity|]. split; [apply length_unlink_data; assumption|].
  split; [intros j; apply lookup_unlink_data; assumption|].
  split; [exact Hh|].
  split; [rewrite (get_chunk_not_created _ _ _ _ _ _ Hh); reflexivity|].
  split; reflexivity.
Qed.

End Deleting.

Lemma unlink_zeroes_only_the_slot_witness :
  fst (unlink_chunk 0 0 (region_of one_chunk_file)) = Ok tt /\
  fst (@get_chunk marker_codec 0 0 (snd (unlink_chunk 0 0 (region_of one_chunk_file)))) =
    Raise (InconceivedChunk "Chunk is not created").
Proof.
  assert (H1 : 8192 <= flen one_chunk_file) by (rewrite one_chunk_file_size; lia).
  destruct (@unlink_zeroes_only_the_slot marker_codec one_chunk_file
              (region_of one_chunk_file) 0 0
              H1 (region_of_opens _ H1) ltac:(lia) ltac:(lia))
    as (Hok & _ & _ & _ & Hget & _).
  split; [exact Hok | exact Hget].
Defined.

(** ** The free-space search *)

Lemma elem_of_insert_sorted (e a : Z * Z * Z * Z) (l : list (Z * Z * Z * Z)) :
  a ∈ insert_sorted e l <-> a = e \/ a ∈ l.
Proof.
  induction l as [|h t IH]; cbn [insert_sorted].
  - rewrite list_elem_of_singleton. split; [intros ->; left; reflexivity|].
    intros [H|H]; [exact H|inversion H].
  - destruct (entry_leb e h).
    + rewrite elem_of_cons. reflexivity.
    + rewrite !elem_of_cons, IH. tauto.
Qed.

Lemma elem_of_sorted (a : Z * Z * Z * Z) (l : list (Z * Z * Z * Z)) :
  a ∈ sorted l <-> a ∈ l.
Proof.
  induction l as [|h t IH]; cbn [sorted fold_right]; [reflexivity|].
  fold (sorted t). rewrite elem_of_insert_sorted, elem_of_cons, IH. reflexivity.
Qed.

(** The occupied entries are the values of the header with a nonzero
    offset. *)
Lemma elem_of_occupied (s : RegionFile) (e : Z * Z * Z * Z) :
  e ∈ occupied s <-> entry_offset e <> 0 /\ exists k, header s !! k = Some e.
Proof.
  unfold occupied, header_values. rewrite elem_of_sorted, list_elem_of_filter.
  change (map snd (map_to_list (header s))) with (snd <$> map_to_list (header s)).
  rewrite list_elem_of_fmap. split.
  - intros (Hne & [k v] & -> & Hin). apply elem_of_map_to_list in Hin. split.
    + cbn [snd] in *. destruct (entry_offset v =? 0) eqn:E; [contradiction|lia].
    + exists k. exact Hin.
  - intros (Hne & k & Hk). split.
    + destruct (entry_offset e =? 0) eqn:E; [lia|exact I].
    + exists (k, e). split; [reflexivity|]. apply elem_of_map_to_list. exact Hk.
Qed.

(** A gap that [search_gap] returns lies beyond the header sectors and ends
    where a later entry of the list begins. *)
Lemma search_gap_Some (l : list (Z * Z * Z * Z)) (n sector : Z) :
  search_gap l n = Some sector ->
  1 < sector /\
  exists next, next ∈ tail l /\ sector + n <= entry_offset next.
Proof.
  induction l as [|cur l IH]; [discriminate|].
  destruct l as [|nxt rest]; [discriminate|].
  cbn [search_gap]. cbv zeta.
  destruct (entry_offset nxt - (entry_offset cur + entry_length cur) >=? n) eqn:E1.
  - destruct (entry_offset cur + entry_length cur <=? 1) eqn:E2.
    + intros H. destruct (IH H) as (H1 & next & Hin & Hle). split; [exact H1|].
      exists next. split; [|exact Hle]. cbn [tail] in *. right. exact Hin.
    + intros [= <-]. split; [lia|]. exists nxt. split; [left|lia].
  - intros H. destruct (IH H) as (H1 & next & Hin & Hle). split; [exact H1|].
    exists next. split; [|exact Hle]. cbn [tail] in *. right. exact Hin.
Qed.

(** The list that [write_chunk] searches: the occupied entries, behind a
    sentinel when the first of them does not start at sector 2. *)
Definition search_list (l : list (Z * Z * Z * Z)) : list (Z * Z * Z * Z) :=
  match l with
  | [] => []
  | first :: _ => if negb (entry_offset first =? 2) then (2, 0, 0, 0) :: l else l
  end.

Lemma tail_search_list (s : RegionFile) (e : Z * Z * Z * Z) :
  e ∈ tail (search_list (occupied s)) -> e ∈ occupied s.
Proof.
  unfold search_list. destruct (occupied s) as [|first rest]; [intros H; inversion H|].
  destruct (negb (entry_offset first =? 2)); cbn [tail]; [tauto|].
  intros H. right. exact H.
Qed.

(** The sector at which a record is appended to a file of [len] bytes. *)
Definition append_at (len : Z) : Z := _bytes_to_sector (len - 1) 4096 + 1.

Lemma append_at_bounds (len : Z) :
  len <= append_at len * 4096 /\ append_at len * 4096 < len + 8192.
Proof.
  unfold append_at. pose proof (bytes_to_sector_spec (len - 1)). lia.
Qed.

Section Locating.
Context {C : Codec}.

Lemma append_sector_ok (s : RegionFile) :
  append_sector s =
    (Ok (append_at (Z.of_nat (length (data (file s)))), true),
     with_pos s (Z.of_nat (length (data (file s))))).
Proof. reflexivity. Qed.

(** What [locate] answers on an opened container. *)
Lemma locate_opened (d : list byte) (p x z n o l t st : Z) :
  0 <= x < 32 -> 0 <= z < 32 ->
  parsed_entry d (x + 32 * z) = (o, l, t, st) ->
  locate x z n (opened_at d p) =
    if (st =? STATUS_CHUNK_NOT_CREATED) || (st =? STATUS_CHUNK_OK) then
      if n <=? l then (Ok (o, false), opened_at d p)
      else
        match occupied (opened_at d p) with
        | [] => (Raise IndexError, opened_at d p)
        | _ :: _ =>
            match search_gap (search_list (occupied (opened_at d p))) n with
            | Some sector => (Ok (sector, false), opened_at d p)
            | None => (Ok (append_at (Z.of_nat (length d)), true),
                       opened_at d (Z.of_nat (length d)))
            end
        end
    else (Ok (append_at (Z.of_nat (length d)), true), opened_at d (Z.of_nat (length d))).
Proof.
  intros Hx Hz He. unfold locate.
  unfold bind at 1. unfold get_header at 1. cbv beta.
  replace (header (opened_at d p) !! (x, z)) with (Some (o, l, t, st))
    by (cbn [opened_at header]; rewrite lookup_header_of by assumption; congruence).
  cbv beta iota.
  destruct ((st =? STATUS_CHUNK_NOT_CREATED) || (st =? STATUS_CHUNK_OK)).
  - destruct (n <=? l); [reflexivity|].
    unfold bind at 1. unfold get_state at 1. cbv beta iota zeta.
    unfold search_list.
    destruct (occupied (opened_at d p)) as [|first rest]; [reflexivity|].
    unfold bind at 1. unfold ret at 1. cbv beta iota.
    destruct (search_gap _ n); [reflexivity|]. apply append_sector_ok.
  - apply append_sector_ok.
Qed.

End Locating.

(** * Further properties of the module *)

(** ** Sector arithmetic *)

(** X1: [_bytes_to_sector] is the ceiling of [bsize / sectorlen]: the
    sectors it returns hold [bsize] bytes with less than one sector to
    spare, and no byte needs no sector. *)
Theorem bytes_to_sector_is_ceiling (bsize sectorlen : Z) :
  0 < sectorlen ->
  bsize <= _bytes_to_sector bsize sectorlen * sectorlen < bsize + sectorlen /\
  _bytes_to_sector 0 sectorlen = 0.
Proof.
  intros Hs. unfold _bytes_to_sector. cbv zeta. split.
  - pose proof (Z.div_mod bsize sectorlen ltac:(lia)).
    pose proof (Z.mod_pos_bound bsize sectorlen ltac:(lia)).
    destruct (bsize mod sectorlen =? 0) eqn:E; nia.
  - rewrite Z.mod_0_l by lia. rewrite Z.div_0_l by lia. reflexivity.
Qed.

Lemma bytes_to_sector_is_ceiling_witness :
  5000 <= _bytes_to_sector 5000 4096 * 4096 < 5000 + 4096.
Proof.
  apply (bytes_to_sector_is_ceiling 5000 4096). lia.
Defined.

(** ** Opening *)

Lemma be_range_4 (bs : list byte) : length bs = 4%nat -> 0 <= be bs < 4294967296.
Proof.
  destruct bs as [|a [|b [|c [|d [|]]]]]; try discriminate. intros _. rewrite be_4.
  pose proof (Z_of_byte_range a). pose proof (Z_of_byte_range b).
  pose proof (Z_of_byte_range c). pose proof (Z_of_byte_range d). lia.
Qed.

Lemma raw_timestamp_range (d : list byte) (i : Z) :
  0 <= i -> 4096 + 4 * i + 4 <= Z.of_nat (length d) -> 0 <= raw_timestamp d i < 4294967296.
Proof.
  intros Hi Hl. unfold raw_timestamp. apply be_range_4. rewrite length_slice; lia.
Qed.

(** X2: opening a file of at least 8192 bytes never raises, whatever the
    bytes are: the constructor returns an object over the unchanged file,
    with the file size recorded and with an entry for each of the 32 x 32
    coordinates, and for no other key, in both tables. *)
Theorem open_succeeds_on_any_content (f : File) :
  8192 <= flen f ->
  exists s,
    RegionFile_init f = Ok s /\
    data (file s) = data f /\ size s = flen f /\
    (forall x z, 0 <= x < 32 -> 0 <= z < 32 ->
       is_Some (header s !! (x, z)) /\ is_Some (chunk_headers s !! (x, z))) /\
    (forall k, k ∉ coords -> header s !! k = None /\ chunk_headers s !! k = None).
Proof.
  intros Hlen. destruct (RegionFile_init_ok f Hlen) as [p Hp].
  exists (opened_at (data f) p). split; [exact Hp|].
  split; [reflexivity|]. split; [reflexivity|]. split.
  - intros x z Hx Hz. cbn [opened_at header chunk_headers].
    rewrite lookup_header_of, lookup_chunk_headers_of by assumption.
    split; eexists; reflexivity.
  - intros k Hk. cbn [opened_at header chunk_headers].
    split; [apply in_grid_header_of | apply in_grid_chunk_headers_of]; exact Hk.
Qed.

Lemma open_succeeds_on_any_content_witness :
  exists s, RegionFile_init one_chunk_file = Ok s /\ size s = 12288.
Proof.
  assert (H1 : 8192 <= flen one_chunk_file) by (rewrite one_chunk_file_size; lia).
  destruct (open_succeeds_on_any_content one_chunk_file H1) as (s & Hs & _ & Hsz & _).
  exists s. split; [exact Hs|]. rewrite Hsz. apply one_chunk_file_size.
Defined.

(** X3: in an opened container every header entry is made of a 24-bit
    offset, an 8-bit length and a 32-bit timestamp; its status is one of the
    five coarse ones, it is NotCreated exactly when offset and length are
    both 0, an Ok entry has at least one sector, does not start at sector 1
    and ends inside the file, and each error status tells which check
    failed. *)
Theorem header_entry_invariants (f : File) (s : RegionFile) (k : Z * Z) (o l t st : Z) :
  8192 <= flen f -> RegionFile_init f = Ok s ->
  header s !! k = Some (o, l, t, st) ->
  0 <= o < 16777216 /\ 0 <= l < 256 /\ 0 <= t < 4294967296 /\
  (st = STATUS_CHUNK_NOT_CREATED <-> o = 0 /\ l = 0) /\
  (st = STATUS_CHUNK_OK -> 1 <= l /\ o <> 1 /\ (o + l) * 4096 <= flen f) /\
  (st = STATUS_CHUNK_MISMATCHED_LENGTHS -> l = 0 /\ o <> 0) /\
  (st = STATUS_CHUNK_IN_HEADER -> o = 1 /\ 1 <= l) /\
  (st = STATUS_CHUNK_OUT_OF_FILE -> 1 <= l /\ o <> 1 /\ flen f < (o + l) * 4096) /\
  (st = STATUS_CHUNK_NOT_CREATED \/ st = STATUS_CHUNK_OK \/
   st = STATUS_CHUNK_MISMATCHED_LENGTHS \/ st = STATUS_CHUNK_IN_HEADER \/
   st = STATUS_CHUNK_OUT_OF_FILE).
Proof.
  intros Hlen Hinit Hk. destruct (init_opened f s Hlen Hinit) as [p ->].
  cbn [opened_at header] in Hk. unfold header_of in Hk.
  apply lookup_table_of_Some in Hk as [Hin He]. destruct k as [x z].
  apply elem_of_coords in Hin as [Hx Hz]. unfold flen in *.
  unfold parsed_entry in He. injection He as -> -> -> ->.
  pose proof (raw_offset_range (data f) (x + 32 * z) ltac:(lia) ltac:(lia)) as Ro.
  pose proof (raw_length_range (data f) (x + 32 * z) ltac:(lia) ltac:(lia)) as Rl.
  pose proof (raw_timestamp_range (data f) (x + 32 * z) ltac:(lia) ltac:(lia)) as Rt.
  set (o := raw_offset (data f) (x + 32 * z)) in *.
  set (l := raw_length (data f) (x + 32 * z)) in *.
  unfold STATUS_CHUNK_NOT_CREATED, STATUS_CHUNK_OK, STATUS_CHUNK_MISMATCHED_LENGTHS,
    STATUS_CHUNK_IN_HEADER, STATUS_CHUNK_OUT_OF_FILE.
  destruct (header_status_cases o l (Z.of_nat (length (data f))) ltac:(lia) ltac:(lia))
    as [(-> & H)|[(-> & H)|[(-> & H)|[(-> & H)|(-> & H)]]]];
    unfold STATUS_CHUNK_NOT_CREATED, STATUS_CHUNK_OK, STATUS_CHUNK_MISMATCHED_LENGTHS,
      STATUS_CHUNK_IN_HEADER, STATUS_CHUNK_OUT_OF_FILE;
    repeat split; try lia; try (intros; lia); tauto.
Qed.

Lemma header_entry_invariants_witness :
  1 <= 1 /\ 2 <> 1 /\ (2 + 1) * 4096 <= flen one_chunk_file.
Proof.
  assert (H1 : 8192 <= flen one_chunk_file) by (rewrite one_chunk_file_size; lia).
  assert (Hh : header (region_of one_chunk_file) !! (0, 0) = Some (2, 1, 7, STATUS_CHUNK_OK)).
  { rewrite region_of_header by lia. vm_compute. reflexivity. }
  destruct (header_entry_invariants one_chunk_file (region_of one_chunk_file) (0, 0) 2 1 7
              STATUS_CHUNK_OK H1 (region_of_opens _ H1) Hh) as (_ & _ & _ & _ & Hok & _).
  exact (Hok eq_refl).
Defined.

(** ** Reading: which error for which status *)

Section ReadErrors.
Context {C : Codec}.

(** X4: what [get_chunk] raises is decided by the status of the slot, and
    the object is left as it was: NotCreated gives [InconceivedChunk] (a
    lookup error), the three coarse error statuses give [RegionHeaderError]
    naming the coordinate (a format error, never the lookup error), and a
    status that is none of the known ones gives [RegionHeaderError] too. *)
Theorem read_error_by_coarse_status (s : RegionFile) (x z o l t st : Z) :
  header s !! (x, z) = Some (o, l, t, st) ->
  (st = STATUS_CHUNK_NOT_CREATED ->
   get_chunk x z s = (Raise (InconceivedChunk "Chunk is not created"), s)) /\
  (st = STATUS_CHUNK_IN_HEADER ->
   get_chunk x z s =
     (Raise (RegionHeaderError
               ("Chunk " ++ fmt_d x ++ "," ++ fmt_d z ++ " is in the region header")), s)) /\
  (st = STATUS_CHUNK_MISMATCHED_LENGTHS ->
   get_chunk x z s =
     (Raise (RegionHeaderError
               ("Chunk " ++ fmt_d x ++ "," ++ fmt_d z ++ " is has zero length")), s)) /\
  (st = STATUS_CHUNK_OUT_OF_FILE ->
   get_chunk x z s =
     (Raise (RegionHeaderError
               ("Chunk " ++ fmt_d x ++ "," ++ fmt_d z
                  ++ " is partially/completely outside the file")), s)) /\
  (st <> STATUS_CHUNK_NOT_CREATED -> st <> STATUS_CHUNK_IN_HEADER ->
   st <> STATUS_CHUNK_MISMATCHED_LENGTHS -> st <> STATUS_CHUNK_OUT_OF_FILE ->
   st <> STATUS_CHUNK_OK ->
   get_chunk x z s = (Raise (RegionHeaderError "Chunk has unknown status"), s)).
Proof.
  intros H.
  assert (E : forall k : Z * Z * Z * Z -> M (option NBT),
            bind (get_header (x, z)) k s = k (o, l, t, st) s).
  { intros k. unfold bind, get_header. rewrite H. reflexivity. }
  unfold get_chunk. rewrite E. cbv beta iota.
  repeat split.
  - intros ->. reflexivity.
  - intros ->. reflexivity.
  - intros ->. reflexivity.
  - intros ->. reflexivity.
  - intros H1 H2 H3 H4 H5.
    apply Z.eqb_neq in H1, H2, H3, H4, H5. rewrite H1, H2, H3, H4, H5. reflexivity.
Qed.

(** X5: a coordinate outside the 32 x 32 grid is a missing key of the
    header of an opened container: reading it, asking for its timestamp and
    writing to it all raise [KeyError], and the write stops before anything
    is written. *)
Theorem outside_grid_is_key_error
    (f : File) (s : RegionFile) (x z : Z) (P : NBT) (now : Z) :
  8192 <= flen f -> RegionFile_init f = Ok s ->
  ~ (0 <= x < 32 /\ 0 <= z < 32) ->
  get_chunk x z s = (Raise KeyError, s) /\
  get_timestamp x z s = (Raise KeyError, s) /\
  write_chunk x z P now s = (Raise KeyError, s).
Proof.
  intros Hlen Hinit Hout. destruct (init_opened f s Hlen Hinit) as [p ->].
  assert (H : header (opened_at (data f) p) !! (x, z) = None).
  { cbn [opened_at header]. apply in_grid_header_of. rewrite elem_of_coords. exact Hout. }
  repeat split.
  - unfold get_chunk. unfold bind at 1. unfold get_header at 1. cbv beta. rewrite H.
    reflexivity.
  - unfold get_timestamp. unfold bind at 1. unfold get_header at 1. cbv beta. rewrite H.
    reflexivity.
  - unfold write_chunk. cbv zeta. unfold bind at 1. unfold locate.
    unfold bind at 1. unfold get_header at 1. cbv beta. rewrite H. reflexivity.
Qed.

End ReadErrors.

Lemma read_error_by_coarse_status_witness :
  @get_chunk marker_codec 5 5 empty_region =
    (Raise (InconceivedChunk "Chunk is not created"), empty_region).
Proof.
  assert (H : header empty_region !! (5, 5) = Some (0, 0, 0, STATUS_CHUNK_NOT_CREATED))
    by (apply lookup_blank_header; lia).
  destruct (@read_error_by_coarse_status marker_codec empty_region 5 5 0 0 0
              STATUS_CHUNK_NOT_CREATED H)
    as (H1 & _).
  exact (H1 eq_refl).
Defined.

Lemma outside_grid_is_key_error_witness :
  @get_chunk marker_codec 32 0 (region_of one_chunk_file) =
    (Raise KeyError, region_of one_chunk_file).
Proof.
  assert (H1 : 8192 <= flen one_chunk_file) by (rewrite one_chunk_file_size; lia).
  destruct (@outside_grid_is_key_error marker_codec one_chunk_file (region_of one_chunk_file)
              32 0 [] 0 H1 (region_of_opens _ H1) ltac:(lia)) as (H & _).
  exact H.
Defined.

(** ** The fine status *)

Lemma chunk_length_range (d : list byte) (o : Z) :
  0 <= o -> o * 4096 + 5 <= Z.of_nat (length d) ->
  0 <= chunk_length_at d o < 4294967296 /\ 0 <= chunk_compression_at d o < 256.
Proof.
  intros Ho Hl. unfold chunk_length_at, chunk_compression_at. split.
  - apply be_range_4. rewrite length_slice; lia.
  - apply be_range_1. rewrite length_slice; lia.
Qed.

Ltac unfold_statuses :=
  unfold STATUS_CHUNK_NOT_CREATED, STATUS_CHUNK_OK, STATUS_CHUNK_ZERO_LENGTH,
    STATUS_CHUNK_MISMATCHED_LENGTHS, STATUS_CHUNK_IN_HEADER, STATUS_CHUNK_OUT_OF_FILE in *.

Ltac finish_inv :=
  repeat split; intros;
  repeat match goal with
    | H : Some _ = Some _ |- _ => injection H as H
    | H : Some _ = None |- _ => discriminate H
    | H : None = Some _ |- _ => discriminate H
    end;
  subst; try tauto; try lia; try discriminate; try reflexivity; try (f_equal; lia).

(** X6: in an opened container the chunk header of a slot follows from its
    header entry.  Length and compression are present together or absent
    together; the fine status is the coarse one unless the coarse one is
    Ok, where it may also be ZeroLength or MismatchedLengths; a fine status
    Ok means that the record, its four length bytes included, starts in the
    file and fits the sectors reserved for it, which end inside the file;
    ZeroLength means a recorded length of 0; a NotCreated slot has no
    length. *)
Theorem chunk_header_invariants
    (f : File) (s : RegionFile) (k : Z * Z) (o l t st : Z)
    (len comp : option Z) (cst : Z) :
  8192 <= flen f -> RegionFile_init f = Ok s ->
  header s !! k = Some (o, l, t, st) ->
  chunk_headers s !! k = Some (len, comp, cst) ->
  (len = None <-> comp = None) /\
  (cst = st \/
   (st = STATUS_CHUNK_OK /\
    (cst = STATUS_CHUNK_ZERO_LENGTH \/ cst = STATUS_CHUNK_MISMATCHED_LENGTHS))) /\
  (cst = STATUS_CHUNK_OK ->
   len = Some (chunk_length_at (data f) o) /\
   comp = Some (chunk_compression_at (data f) o) /\
   1 <= chunk_length_at (data f) o /\
   o * 4096 + 4 + chunk_length_at (data f) o <= (o + l) * 4096 <= flen f) /\
  (cst = STATUS_CHUNK_ZERO_LENGTH -> st = STATUS_CHUNK_OK /\ len = Some 0) /\
  (st = STATUS_CHUNK_NOT_CREATED -> len = None /\ cst = STATUS_CHUNK_NOT_CREATED) /\
  (forall L, len = Some L -> 0 <= L < 4294967296).
Proof.
  intros Hlen Hinit Hk Hc. destruct (init_opened f s Hlen Hinit) as [p ->].
  cbn [opened_at header chunk_headers] in Hk, Hc.
  unfold header_of in Hk. apply lookup_table_of_Some in Hk as [Hin He].
  destruct k as [x z]. apply elem_of_coords in Hin as [Hx Hz].
  rewrite lookup_chunk_headers_of in Hc by assumption. rewrite <- He in Hc.
  unfold flen in *. symmetry in He. unfold parsed_entry in He.
  injection He as Eo El Et Est.
  pose proof (raw_offset_range (data f) (x + 32 * z) ltac:(lia) ltac:(lia)) as Ro.
  pose proof (raw_length_range (data f) (x + 32 * z) ltac:(lia) ltac:(lia)) as Rl.
  rewrite Eo, El in *. clear Eo El Et.
  unfold chunk_header_of in Hc.
  destruct (header_status_cases o l (Z.of_nat (length (data f))) ltac:(lia) ltac:(lia))
    as [(E & H)|[(E & H)|[(E & H)|[(E & H)|(E & H)]]]];
    rewrite E in Est; subst st.
  - cbn in Hc. injection Hc as <- <- <-. unfold_statuses. finish_inv.
  - cbn in Hc. injection Hc as <- <- <-. unfold_statuses. finish_inv.
  - cbn in Hc. injection Hc as <- <- <-. unfold_statuses. finish_inv.
  - change (STATUS_CHUNK_OUT_OF_FILE =? STATUS_CHUNK_NOT_CREATED) with false in Hc.
    change (STATUS_CHUNK_OUT_OF_FILE =? STATUS_CHUNK_OK) with false in Hc.
    change (STATUS_CHUNK_OUT_OF_FILE =? STATUS_CHUNK_OUT_OF_FILE) with true in Hc.
    cbv beta iota in Hc.
    destruct (o * 4096 + 5 <? Z.of_nat (length (data f))) eqn:E5;
      injection Hc as <- <- <-; unfold_statuses.
    + pose proof (chunk_length_range (data f) o ltac:(lia) ltac:(lia)) as [RL _].
      finish_inv.
    + finish_inv.
  - change (STATUS_CHUNK_OK =? STATUS_CHUNK_NOT_CREATED) with false in Hc.
    change (STATUS_CHUNK_OK =? STATUS_CHUNK_OK) with true in Hc.
    cbv beta iota zeta in Hc.
    pose proof (chunk_length_range (data f) o ltac:(lia) ltac:(lia)) as [RL _].
    set (L := chunk_length_at (data f) o) in *.
    destruct (L =? 0) eqn:E0; [|destruct (L + 4 >? l * 4096) eqn:E1];
      injection Hc as <- <- <-; unfold_statuses; finish_inv.
Qed.

Lemma chunk_header_invariants_witness :
  1 <= chunk_length_at (data one_chunk_file) 2 /\
  2 * 4096 + 4 + chunk_length_at (data one_chunk_file) 2 <= (2 + 1) * 4096.
Proof.
  assert (H1 : 8192 <= flen one_chunk_file) by (rewrite one_chunk_file_size; lia).
  assert (Hh : header (region_of one_chunk_file) !! (0, 0) = Some (2, 1, 7, STATUS_CHUNK_OK)).
  { rewrite region_of_header by lia. vm_compute. reflexivity. }
  assert (Hc : chunk_headers (region_of one_chunk_file) !! (0, 0) =
               Some (Some 3, Some 2, STATUS_CHUNK_OK)).
  { destruct (region_of_opened one_chunk_file H1) as [p ->].
    cbn [opened_at chunk_headers]. rewrite lookup_chunk_headers_of by lia.
    vm_compute. reflexivity. }
  destruct (chunk_header_invariants one_chunk_file (region_of one_chunk_file) (0, 0)
              2 1 7 STATUS_CHUNK_OK (Some 3) (Some 2) STATUS_CHUNK_OK
              H1 (region_of_opens _ H1) Hh Hc) as (_ & _ & Hok & _).
  destruct (Hok eq_refl) as (_ & _ & Ha & Hb). split; [exact Ha | lia].
Defined.

(** ** Reading never fails in any other way *)

Section ReadOutcome.
Context {C : Codec}.

Lemma garbled_outcome (err : string) (s : RegionFile) :
  garbled err s = (Ok None, s) \/ garbled err s = (Raise (ChunkDataError err), s).
Proof.
  unfold garbled. destruct (String.eqb err ""); [left|right]; reflexivity.
Qed.

Lemma parse_decompressed_outcome (r : string + list byte) (s : RegionFile) :
  snd (parse_decompressed r s) = s /\
  match fst (parse_decompressed r s) with
  | Ok _ => True
  | Raise e => is_RegionFileFormatError e = true
  end.
Proof.
  unfold parse_decompressed.
  destruct r as [err|d]; [|destruct (NBTFile d) as [err|n]];
    try (destruct (garbled_outcome err s) as [-> | ->]; split; reflexivity || exact I).
  split; [reflexivity | exact I].
Qed.

Lemma parsed_entry_fields (d : list byte) (i o l t st : Z) :
  0 <= i < 1024 -> 8192 <= Z.of_nat (length d) ->
  parsed_entry d i = (o, l, t, st) ->
  0 <= o < 16777216 /\ 0 <= l < 256 /\ st = header_status o l (Z.of_nat (length d)).
Proof.
  intros Hi Hlen He. unfold parsed_entry in He. injection He as <- <- _ <-.
  split; [apply raw_offset_range; lia|]. split; [apply raw_length_range; lia|reflexivity].
Qed.

(** A record of at most one byte: its slot is Ok but there is nothing to
    read. *)
Lemma get_chunk_short (d : list byte) (p x z offset slen ts : Z) :
  8192 <= Z.of_nat (length d) -> 0 <= x < 32 -> 0 <= z < 32 ->
  parsed_entry d (x + 32 * z) = (offset, slen, ts, STATUS_CHUNK_OK) ->
  chunk_length_at d offset <= 1 ->
  exists msg, get_chunk x z (opened_at d p) = (Raise (ChunkHeaderError msg), opened_at d p).
Proof.
  intros Hlen Hx Hz He HL.
  destruct (parsed_entry_ok d (x + 32 * z) offset slen ts ltac:(lia) Hlen He)
    as (Eo & El & Ro & Ho1 & Rl & Hin).
  pose proof (chunk_length_range d offset ltac:(lia) ltac:(lia)) as [RL _].
  unfold opened_at.
  unfold get_chunk. unfold bind at 1. unfold get_header at 1.
  cbn [header]. rewrite lookup_header_of by assumption. rewrite He.
  cbv beta iota.
  change (STATUS_CHUNK_OK =? STATUS_CHUNK_NOT_CREATED) with false.
  change (STATUS_CHUNK_OK =? STATUS_CHUNK_IN_HEADER) with false.
  change (STATUS_CHUNK_OK =? STATUS_CHUNK_MISMATCHED_LENGTHS) with false.
  change (STATUS_CHUNK_OK =? STATUS_CHUNK_OUT_OF_FILE) with false.
  change (STATUS_CHUNK_OK =? STATUS_CHUNK_OK) with true.
  cbv beta iota.
  unfold bind at 1. unfold get_chunk_header at 1.
  cbn [chunk_headers]. rewrite lookup_chunk_headers_of by assumption. rewrite He.
  unfold chunk_header_of.
  change (STATUS_CHUNK_OK =? STATUS_CHUNK_NOT_CREATED) with false.
  change (STATUS_CHUNK_OK =? STATUS_CHUNK_OK) with true.
  cbv beta iota.
  set (L := chunk_length_at d offset) in *.
  destruct (L =? 0) eqn:E0.
  - change (STATUS_CHUNK_ZERO_LENGTH =? STATUS_CHUNK_ZERO_LENGTH) with true.
    eexists. reflexivity.
  - assert (Hst : forall st : Z,
              st = STATUS_CHUNK_MISMATCHED_LENGTHS \/ st = STATUS_CHUNK_OK ->
              (st =? STATUS_CHUNK_ZERO_LENGTH) = false).
    { intros st [-> | ->]; reflexivity. }
    rewrite Hst by (destruct (L + 4 >? slen * 4096); [left|right]; reflexivity).
    unfold bind at 1. unfold ret at 1. cbv beta iota.
    destruct (L <=? 1) eqn:E1; [|lia]. eexists. reflexivity.
Qed.

Lemma get_chunk_outcome_opened (d : list byte) (p x z : Z) :
  8192 <= Z.of_nat (length d) -> 0 <= x < 32 -> 0 <= z < 32 ->
  (exists q, snd (get_chunk x z (opened_at d p)) = opened_at d q) /\
  match fst (get_chunk x z (opened_at d p)) with
  | Ok _ => True
  | Raise e =>
      is_RegionFileFormatError e = true \/
      (e = InconceivedChunk "Chunk is not created" /\
       exists t, header (opened_at d p) !! (x, z) = Some (0, 0, t, STATUS_CHUNK_NOT_CREATED))
  end.
Proof.
  intros Hlen Hx Hz.
  assert (Hh : header (opened_at d p) !! (x, z) =
               Some (parsed_entry d (x + 32 * z)))
    by (cbn [opened_at header]; apply lookup_header_of; assumption).
  assert (Hsame : forall t, t = opened_at d p -> exists q,
            t = opened_at d q).
  { intros t ->. exists p. reflexivity. }
  destruct (parsed_entry d (x + 32 * z)) as [[[o l] t] st] eqn:He.
  destruct (read_error_by_coarse_status _ x z o l t st Hh) as (H1 & H2 & H3 & H4 & H5).
  destruct (parsed_entry_fields d (x + 32 * z) o l t st ltac:(lia) Hlen He)
    as (Ro & Rl & Est).
  destruct (header_status_cases o l (Z.of_nat (length d)) ltac:(lia) ltac:(lia))
    as [(E & Ho & Hl)|[(E & _)|[(E & _)|[(E & _)|(E & _)]]]];
    rewrite E in Est; subst st.
  - rewrite (H1 eq_refl). cbn [fst snd]. split; [apply Hsame; reflexivity|].
    right. split; [reflexivity|]. exists t. rewrite Hh. subst o l. reflexivity.
  - rewrite (H3 eq_refl). cbn [fst snd]. split; [apply Hsame; reflexivity|]. left. reflexivity.
  - rewrite (H2 eq_refl). cbn [fst snd]. split; [apply Hsame; reflexivity|]. left. reflexivity.
  - rewrite (H4 eq_refl). cbn [fst snd]. split; [apply Hsame; reflexivity|]. left. reflexivity.
  - clear H1 H2 H3 H4 H5.
    destruct (Z_le_gt_dec (chunk_length_at d o) 1) as [Hs|Hs].
    + destruct (get_chunk_short d p x z o l t Hlen Hx Hz He Hs) as [msg ->].
      cbn [fst snd]. split; [apply Hsame; reflexivity|]. left. reflexivity.
    + rewrite (get_chunk_record d p x z o l t Hlen Hx Hz He ltac:(lia)).
      destruct (chunk_compression_at d o >? 2).
      * cbn [raise fst snd]. split; [eexists; reflexivity|]. left. reflexivity.
      * rewrite decode_chunk_parse.
        match goal with
        | |- context [parse_decompressed ?r ?t] =>
            destruct (parse_decompressed_outcome r t) as [Hs1 Hs2]
        end.
        rewrite Hs1. split.
        -- eexists. unfold with_pos. cbn [opened_at file data size header chunk_headers].
           reflexivity.
        -- destruct (fst (parse_decompressed _ _)); [exact I|]. left. exact Hs2.
Qed.


(** X7: reading a coordinate of the grid from an opened container fails
    only in the two documented ways, whatever the bytes of the file are: it
    returns, or raises [InconceivedChunk], or raises a
    [RegionFileFormatError]; never a [KeyError], a [struct.error], a
    [TypeError] or an error of the file object.  The tables and the bytes of
    the file are as before. *)
Theorem read_fails_only_as_documented (f : File) (s : RegionFile) (x z : Z) :
  8192 <= flen f -> RegionFile_init f = Ok s ->
  0 <= x < 32 -> 0 <= z < 32 ->
  (exists q, snd (get_chunk x z s) = with_pos s q) /\
  match fst (get_chunk x z s) with
  | Ok _ => True
  | Raise e =>
      is_RegionFileFormatError e = true \/
      (e = InconceivedChunk "Chunk is not created" /\
       exists t, header s !! (x, z) = Some (0, 0, t, STATUS_CHUNK_NOT_CREATED))
  end.
Proof.
  intros Hlen Hinit Hx Hz. destruct (init_opened f s Hlen Hinit) as [p ->].
  unfold flen in Hlen.
  destruct (get_chunk_outcome_opened (data f) p x z Hlen Hx Hz) as [[q Hq] H].
  split; [exists q; rewrite Hq; reflexivity | exact H].
Qed.

End ReadOutcome.

Lemma read_fails_only_as_documented_witness :
  exists q, snd (@get_chunk marker_codec 0 0 (region_of one_chunk_file)) =
            with_pos (region_of one_chunk_file) q.
Proof.
  assert (H1 : 8192 <= flen one_chunk_file) by (rewrite one_chunk_file_size; lia).
  destruct (@read_fails_only_as_documented marker_codec one_chunk_file
              (region_of one_chunk_file) 0 0 H1 (region_of_opens _ H1)
              ltac:(lia) ltac:(lia)) as [H _].
  exact H.
Defined.

(** ** Deleting: the other slots, and the empty file *)

Lemma slice_unlink_data (d : list byte) (x z q n : Z) :
  8192 <= Z.of_nat (length d) -> 0 <= x < 32 -> 0 <= z < 32 ->
  0 <= q -> 0 <= n ->
  (q + n <= 4 * (x + 32 * z) \/
   (4 * (x + 32 * z) + 4 <= q /\ q + n <= 4096 + 4 * (x + 32 * z)) \/
   4096 + 4 * (x + 32 * z) + 4 <= q) ->
  slice (unlink_data d x z) q n = slice d q n.
Proof.
  intros Hlen Hx Hz Hq Hn Hr. apply list_eq. intros j. rewrite !lookup_slice.
  destruct (decide (j < Z.to_nat n)%nat); [|reflexivity].
  rewrite lookup_unlink_data by assumption. rewrite decide_False by lia. reflexivity.
Qed.

Lemma parsed_entry_unlink_other (d : list byte) (x z i : Z) :
  8192 <= Z.of_nat (length d) -> 0 <= x < 32 -> 0 <= z < 32 ->
  0 <= i < 1024 -> i <> x + 32 * z ->
  parsed_entry (unlink_data d x z) i = parsed_entry d i.
Proof.
  intros Hlen Hx Hz Hi Hne. unfold parsed_entry, raw_offset, raw_length, raw_timestamp.
  rewrite length_unlink_data by assumption.
  rewrite !slice_unlink_data by lia. reflexivity.
Qed.

(** X8: deleting the record at (x,z) leaves the header entry of every other
    coordinate of the grid as it was, and its chunk header too as long as
    that entry does not point at sector 0 (a chunk header read from sector 0
    is read from the offset table itself). *)
Theorem unlink_keeps_other_slots (f : File) (s : RegionFile) (x z x' z' : Z) :
  8192 <= flen f -> RegionFile_init f = Ok s ->
  0 <= x < 32 -> 0 <= z < 32 -> 0 <= x' < 32 -> 0 <= z' < 32 ->
  (x', z') <> (x, z) ->
  let s' := snd (unlink_chunk x z s) in
  header s' !! (x', z') = header s !! (x', z') /\
  (forall e, header s !! (x', z') = Some e -> entry_offset e <> 0 ->
     chunk_headers s' !! (x', z') = chunk_headers s !! (x', z')).
Proof.
  intros Hlen Hinit Hx Hz Hx' Hz' Hne s'.
  destruct (init_opened f s Hlen Hinit) as [p ->]. unfold flen in Hlen.
  destruct (unlink_chunk_ok (opened_at (data f) p) x z Hlen Hx Hz
              (in_grid_header_of _) (in_grid_chunk_headers_of _)) as [q Hq].
  cbn [opened_at file data] in Hq. subst s'. rewrite Hq. cbn [snd opened_at header chunk_headers].
  assert (Hi : x' + 32 * z' <> x + 32 * z).
  { intros E. apply Hne. f_equal; lia. }
  assert (Hp : parsed_entry (unlink_data (data f) x z) (x' + 32 * z') =
               parsed_entry (data f) (x' + 32 * z'))
    by (apply parsed_entry_unlink_other; lia).
  split.
  - rewrite !lookup_header_of by assumption. rewrite Hp. reflexivity.
  - intros e He Hoff. rewrite lookup_header_of in He by assumption. injection He as <-.
    rewrite !lookup_chunk_headers_of by assumption. rewrite Hp. f_equal.
    destruct (parsed_entry (data f) (x' + 32 * z')) as [[[o l] t] st] eqn:Ee.
    destruct (parsed_entry_fields (data f) (x' + 32 * z') o l t st ltac:(lia) Hlen Ee)
      as (Ro & Rl & Est).
    cbn [entry_offset fst] in Hoff.
    unfold chunk_header_of, chunk_length_at, chunk_compression_at.
    rewrite length_unlink_data by assumption.
    destruct (header_status_cases o l (Z.of_nat (length (data f))) ltac:(lia) ltac:(lia))
      as [(E & H)|[(E & H)|[(E & H)|[(E & H)|(E & H)]]]];
      rewrite E in Est; subst st; try reflexivity.
    + change (STATUS_CHUNK_OUT_OF_FILE =? STATUS_CHUNK_NOT_CREATED) with false.
      change (STATUS_CHUNK_OUT_OF_FILE =? STATUS_CHUNK_OK) with false.
      change (STATUS_CHUNK_OUT_OF_FILE =? STATUS_CHUNK_OUT_OF_FILE) with true.
      cbv beta iota.
      rewrite !slice_unlink_data by lia. reflexivity.
    + change (STATUS_CHUNK_OK =? STATUS_CHUNK_NOT_CREATED) with false.
      change (STATUS_CHUNK_OK =? STATUS_CHUNK_OK) with true.
      cbv beta iota zeta.
      rewrite !slice_unlink_data by lia. reflexivity.
Qed.

Lemma unlink_keeps_other_slots_witness :
  header (snd (unlink_chunk 5 5 (region_of one_chunk_file))) !! (0, 0) =
    Some (2, 1, 7, STATUS_CHUNK_OK).
Proof.
  assert (H1 : 8192 <= flen one_chunk_file) by (rewrite one_chunk_file_size; lia).
  destruct (unlink_keeps_other_slots one_chunk_file (region_of one_chunk_file) 5 5 0 0
              H1 (region_of_opens _ H1) ltac:(lia) ltac:(lia) ltac:(lia) ltac:(lia)
              ltac:(discriminate)) as [H _].
  rewrite H. rewrite region_of_header by lia. vm_compute. reflexivity.
Defined.

(** The contents after [unlink_chunk] on the empty file. *)
Lemma unlink_data_empty (x z : Z) :
  0 <= x < 32 -> 0 <= z < 32 ->
  unlink_data [] x z = replicate (Z.to_nat (4096 + 4 * (x + 32 * z) + 4)) x00.
Proof.
  intros Hx Hz. unfold unlink_data. apply list_eq. intros j.
  rewrite !lookup_write_at by discriminate.
  rewrite length_write_at by discriminate. cbn [length].
  assert (Hz4 : forall k : nat, (k < 4)%nat -> [x00; x00; x00; x00] !! k = Some x00).
  { intros [|[|[|[|k]]]] Hk; try reflexivity; lia. }
  destruct (decide (j < Z.to_nat (4096 + 4 * (x + 32 * z) + 4))%nat) as [Hj|Hj].
  - rewrite lookup_replicate_2 by exact Hj.
    repeat destruct (decide _); try lia; try reflexivity; try (apply Hz4; lia).
  - rewrite (proj1 (lookup_replicate_None _ _ _)) by lia.
    repeat destruct (decide _); try lia. apply lookup_nil.
Qed.

(** X9: [unlink_chunk] on the container of the empty file does not return.
    It writes the eight zero bytes all the same, which makes a file of
    [4096 + 4 * (x + 32 z) + 4] zero bytes, and the reparse then raises
    [NoRegionHeader] because that is less than 8192 bytes; only for
    (31,31) is the file long enough. *)
Theorem unlink_on_empty_file_raises (x z : Z) :
  0 <= x < 32 -> 0 <= z < 32 -> (x, z) <> (31, 31) ->
  fst (unlink_chunk x z empty_region) =
    Raise (NoRegionHeader "The region file is too small in size to have a header.") /\
  data (file (snd (unlink_chunk x z empty_region))) =
    replicate (Z.to_nat (4096 + 4 * (x + 32 * z) + 4)) x00.
Proof.
  intros Hx Hz Hne.
  assert (Hi : x + 32 * z < 1023).
  { destruct (Z.eq_dec x 31) as [->|]; [|lia].
    destruct (Z.eq_dec z 31) as [->|]; [congruence|lia]. }
  cut (exists st, unlink_chunk x z empty_region =
         (Raise (NoRegionHeader "The region file is too small in size to have a header."), st)
         /\ data (file st) = replicate (Z.to_nat (4096 + 4 * (x + 32 * z) + 4)) x00).
  { intros (st & -> & Hd). split; [reflexivity | exact Hd]. }
  unfold unlink_chunk.
  unfold bind at 1. rewrite file_seek_ok by lia. cbv beta iota.
  change (pack_IB 0 0) with (Some [x00; x00; x00; x00; x00]).
  unfold bind at 1. cbn [lift_opt ret tail]. cbv beta iota.
  unfold bind at 1. rewrite file_write_ok. cbv beta iota.
  cbn [with_pos file data pos size header chunk_headers empty_region].
  unfold bind at 1. rewrite file_seek_ok by lia. cbv beta iota.
  change (pack_I 0) with (Some [x00; x00; x00; x00]).
  unfold bind at 1. cbn [lift_opt ret]. cbv beta iota.
  unfold bind at 1. rewrite file_write_ok. cbv beta iota.
  cbn [with_pos file data pos size header chunk_headers].
  fold (unlink_data [] x z). rewrite unlink_data_empty by assumption.
  unfold bind at 1. rewrite parse_header_small.
  - eexists. split; [reflexivity|]. reflexivity.
  - unfold flen. cbn [file data]. rewrite length_replicate. lia.
  - cbn [header]. unfold blank_header. apply in_grid_table_of.
Qed.

Lemma unlink_on_empty_file_raises_witness :
  fst (unlink_chunk 0 0 empty_region) =
    Raise (NoRegionHeader "The region file is too small in size to have a header.").
Proof.
  destruct (unlink_on_empty_file_raises 0 0 ltac:(lia) ltac:(lia) ltac:(discriminate))
    as [H _].
  exact H.
Defined.

(** ** Listing and iterating *)

(** The dictionary that [get_chunk_coords] appends for key [k], if any. *)
Definition listed (s : RegionFile) (k : Z * Z) : option ChunkCoord :=
  match chunk_headers s !! k, header s !! k with
  | Some c, Some e => if entry_offset e >? 0 then Some (mkCoord k.1 k.2 c) else None
  | _, _ => None
  end.

Lemma get_chunk_coords_loop (l : list (Z * Z)) (acc : list ChunkCoord) (s : RegionFile) :
  (forall k, k ∈ l -> is_Some (chunk_headers s !! k) /\ is_Some (header s !! k)) ->
  fold_ l (fun chunks '(x, z) =>
             length <- get_chunk_header (x, z) ;;
             '(offset, _, _, _) <- get_header (x, z) ;;
             if offset >? 0 then ret (chunks ++ [mkCoord x z length]) else ret chunks)
    acc s = (Ok (acc ++ omap (listed s) l), s).
Proof.
  revert acc. induction l as [|[x z] l IH]; intros acc Hl.
  - cbn [fold_ omap list_omap]. rewrite app_nil_r. reflexivity.
  - destruct (Hl (x, z) ltac:(left)) as [[c Hc] [[[[o ln] t] st] He]].
    cbn [fold_ omap list_omap]. unfold listed at 1. rewrite Hc, He.
    cbn [entry_offset fst snd].
    unfold bind at 1. unfold bind at 1. unfold get_chunk_header at 1. rewrite Hc.
    cbv beta iota. unfold bind at 1. unfold get_header at 1. rewrite He. cbv beta iota.
    destruct (o >? 0); unfold ret at 1; cbv beta iota;
      rewrite IH by (intros k Hk; apply Hl; right; exact Hk).
    + rewrite <- (assoc_L (++)). reflexivity.
    + reflexivity.
Qed.

Lemma get_chunk_coords_opened (d : list byte) (p : Z) :
  get_chunk_coords (opened_at d p) = (Ok (omap (listed (opened_at d p)) coords), opened_at d p).
Proof.
  unfold get_chunk_coords. rewrite get_chunk_coords_loop; [reflexivity|].
  intros [x z] Hk. apply elem_of_coords in Hk as [Hx Hz].
  cbn [opened_at header chunk_headers].
  rewrite lookup_header_of, lookup_chunk_headers_of by assumption.
  split; eexists; reflexivity.
Qed.

Lemma length_omap_le {A B} (g : A -> option B) (l : list A) :
  (length (omap g l) <= length l)%nat.
Proof.
  induction l as [|a l IH]; cbn [omap list_omap length]; [lia|].
  destruct (g a); cbn [length]; lia.
Qed.

(** Whether [get_chunk_coords] lists key [k]: its header offset is
    positive. *)
Definition allocated (s : RegionFile) (k : Z * Z) : bool :=
  match header s !! k with
  | Some e => entry_offset e >? 0
  | None => false
  end.

(** The listing, key by key: the keys are those of [l] that are allocated,
    in the order of [l]. *)
Lemma listed_keys (s : RegionFile) (l : list (Z * Z)) :
  (forall k, k ∈ l -> is_Some (chunk_headers s !! k) /\ is_Some (header s !! k)) ->
  map (fun cc => (cc_x cc, cc_z cc)) (omap (listed s) l) =
    filter (fun k => allocated s k) l.
Proof.
  induction l as [|[x z] l IH]; intros Hl; [reflexivity|].
  destruct (Hl (x, z) ltac:(left)) as [[c Hc] [e He]].
  specialize (IH (fun k Hk => Hl k ltac:(right; exact Hk))).
  cbn [omap list_omap]. unfold listed at 1. rewrite Hc, He.
  destruct (entry_offset e >? 0) eqn:Eo.
  - rewrite filter_cons_True by (unfold allocated; rewrite He, Eo; exact I).
    cbn [map cc_x cc_z fst snd]. rewrite IH. reflexivity.
  - rewrite filter_cons_False by (unfold allocated; rewrite He, Eo; exact id).
    exact IH.
Qed.

Lemma NoDup_coords : NoDup coords.
Proof.
  apply (NoDup_fmap_1 (fun k : Z * Z => 32 * k.1 + k.2)).
  replace ((fun k : Z * Z => 32 * k.1 + k.2) <$> coords) with (Z.of_nat <$> seq 0 1024)
    by (vm_compute; reflexivity).
  apply NoDup_fmap_2; [apply Nat2Z.inj'|apply NoDup_seq].
Qed.

(** X10: on an opened container [get_chunk_coords], and [get_chunks] with
    it, does not raise and changes nothing.  The listing holds one
    dictionary for each coordinate of the grid whose header offset is
    positive, and no other: its coordinates are those coordinates, once
    each, in the order of the two loops (x outside, z inside), each with its
    chunk header as ['length'], whatever its status (a NotCreated slot is
    never listed).  [chunk_count] is the number of these coordinates, at
    most 1024. *)
Theorem listing_is_the_allocated_slots (f : File) (s : RegionFile) :
  8192 <= flen f -> RegionFile_init f = Ok s ->
  exists chunks,
    get_chunk_coords s = (Ok chunks, s) /\
    get_chunks s = (Ok chunks, s) /\
    map (fun cc => (cc_x cc, cc_z cc)) chunks = filter (fun k => allocated s k) coords /\
    NoDup (map (fun cc => (cc_x cc, cc_z cc)) chunks) /\
    (forall cc, cc ∈ chunks ->
       chunk_headers s !! (cc_x cc, cc_z cc) = Some (cc_length cc)) /\
    chunk_count s =
      (Ok (Z.of_nat (length (filter (fun k => allocated s k) coords))), s) /\
    chunk_count s = (Ok (Z.of_nat (length chunks)), s) /\
    (length chunks <= 1024)%nat /\
    (forall x z c,
       mkCoord x z c ∈ chunks <->
       (0 <= x < 32 /\ 0 <= z < 32 /\ chunk_headers s !! (x, z) = Some c /\
        exists o l t st, header s !! (x, z) = Some (o, l, t, st) /\ 0 < o)) /\
    (forall x z c, mkCoord x z c ∈ chunks ->
       exists o l t st, header s !! (x, z) = Some (o, l, t, st) /\
                        st <> STATUS_CHUNK_NOT_CREATED).
Proof.
  intros Hlen Hinit. destruct (init_opened f s Hlen Hinit) as [p ->].
  exists (omap (listed (opened_at (data f) p)) coords).
  assert (Hgrid : forall k, k ∈ coords ->
            is_Some (chunk_headers (opened_at (data f) p) !! k) /\
            is_Some (header (opened_at (data f) p) !! k)).
  { intros [x z] Hk. apply elem_of_coords in Hk as [Hx Hz].
    cbn [opened_at header chunk_headers].
    rewrite lookup_header_of, lookup_chunk_headers_of by assumption.
    split; eexists; reflexivity. }
  pose proof (listed_keys (opened_at (data f) p) coords Hgrid) as Hkeys.
  assert (Hmem : forall x z c,
    mkCoord x z c ∈ omap (listed (opened_at (data f) p)) coords <->
    (0 <= x < 32 /\ 0 <= z < 32 /\ chunk_headers (opened_at (data f) p) !! (x, z) = Some c /\
     exists o l t st, header (opened_at (data f) p) !! (x, z) = Some (o, l, t, st) /\ 0 < o)).
  { intros x z c. rewrite list_elem_of_omap. split.
    - intros ([x' z'] & Hk & Hl). apply elem_of_coords in Hk as [Hx Hz].
      unfold listed in Hl.
      destruct (chunk_headers (opened_at (data f) p) !! (x', z')) as [c'|] eqn:Hc;
        [|discriminate].
      destruct (header (opened_at (data f) p) !! (x', z')) as [[[[o l] t] st]|] eqn:He;
        [|discriminate].
      cbn [entry_offset fst snd] in Hl. destruct (o >? 0) eqn:Eo; [|discriminate].
      cbn [fst snd] in Hl. injection Hl as E1 E2 E3. subst x z c.
      split; [lia|]. split; [lia|]. split; [exact Hc|].
      exists o, l, t, st. split; [exact He|lia].
    - intros (Hx & Hz & Hc & o & l & t & st & He & Ho). exists (x, z). split.
      + apply elem_of_coords. lia.
      + unfold listed. rewrite Hc, He. cbn [entry_offset fst snd].
        destruct (o >? 0) eqn:Eo; [reflexivity|lia]. }
  assert (Hcount : chunk_count (opened_at (data f) p) =
            (Ok (Z.of_nat (length (omap (listed (opened_at (data f) p)) coords))),
             opened_at (data f) p)).
  { unfold chunk_count. unfold bind. rewrite get_chunk_coords_opened. reflexivity. }
  split; [apply get_chunk_coords_opened|].
  split; [apply get_chunk_coords_opened|].
  split; [exact Hkeys|].
  split; [rewrite Hkeys; apply NoDup_filter, NoDup_coords|].
  split.
  { intros [x z c] Hin. apply Hmem in Hin as (_ & _ & Hc & _). exact Hc. }
  split.
  { rewrite Hcount. rewrite <- Hkeys. rewrite length_map. reflexivity. }
  split; [exact Hcount|]. split; [|split].
  - pose proof (length_omap_le (listed (opened_at (data f) p)) coords) as Hle.
    assert (Hn : length coords = 1024%nat) by (vm_compute; reflexivity). lia.
  - exact Hmem.
  - intros x z c Hin. apply Hmem in Hin as (Hx & Hz & _ & o & l & t & st & He & Ho).
    exists o, l, t, st. split; [exact He|]. intros ->.
    unfold flen in Hlen. cbn [opened_at header] in He.
    rewrite lookup_header_of in He by assumption.
    assert (He' : parsed_entry (data f) (x + 32 * z) = (o, l, t, STATUS_CHUNK_NOT_CREATED))
      by congruence.
    clear He. rename He' into He.
    destruct (parsed_entry_fields (data f) (x + 32 * z) o l t STATUS_CHUNK_NOT_CREATED
                ltac:(lia) Hlen He) as (Ro & Rl & Est).
    destruct (header_status_cases o l (Z.of_nat (length (data f))) ltac:(lia) ltac:(lia))
      as [(E & H)|[(E & H)|[(E & H)|[(E & H)|(E & H)]]]];
      rewrite E in Est; try discriminate Est. lia.
Qed.

Lemma listing_one_chunk :
  fst (get_chunk_coords (region_of one_chunk_file)) =
    Ok [mkCoord 0 0 (Some 3, Some 2, STATUS_CHUNK_OK)].
Proof. vm_compute. reflexivity. Qed.

Lemma listing_is_the_allocated_slots_witness :
  fst (chunk_count (region_of one_chunk_file)) = Ok 1 /\
  fst (get_chunks (region_of one_chunk_file)) =
    Ok [mkCoord 0 0 (Some 3, Some 2, STATUS_CHUNK_OK)].
Proof.
  assert (H1 : 8192 <= flen one_chunk_file) by (rewrite one_chunk_file_size; lia).
  destruct (listing_is_the_allocated_slots one_chunk_file (region_of one_chunk_file)
              H1 (region_of_opens _ H1)) as (chunks & Hc & Hg & _ & _ & _ & _ & Hn & _).
  pose proof listing_one_chunk as E. rewrite Hc in E. cbn [fst] in E.
  injection E as ->. split.
  - rewrite Hn. reflexivity.
  - rewrite Hg. reflexivity.
Defined.

(** ** The bytes that [write_chunk] stores *)

Definition encode_I (n : Z) : list byte :=
  [byte_of_Z (n / 16777216); byte_of_Z (n / 65536); byte_of_Z (n / 256); byte_of_Z n].

(** The record as it is stored: length, codec id 2, data. *)
Definition stored_record (compressed : list byte) : list byte :=
  encode_I (Z.of_nat (length compressed) + 1) ++ [x02] ++ compressed.

(** The contents once the record is written at [sector], padded or not. *)
Definition record_data (d : list byte) (sector nsectors : Z) (compressed : list byte)
    (pad_end : bool) : list byte :=
  let d3 := write_at (sector * 4096) (stored_record compressed) d in
  if pad_end then write_at ((sector + nsectors) * 4096 - 1) [x00] d3 else d3.

(** The four bytes of a slot of the offset table. *)
Definition slot_bytes (sector nsectors : Z) : list byte :=
  tail (encode_I sector ++ [byte_of_Z nsectors]).

(** The contents once the two tables are updated too. *)
Definition written_data (d : list byte) (x z sector nsectors : Z) (compressed : list byte)
    (pad_end : bool) (now : Z) : list byte :=
  write_at (4096 + 4 * (x + z * 32)) (encode_I now)
    (write_at (4 * (x + z * 32)) (slot_bytes sector nsectors)
       (record_data d sector nsectors compressed pad_end)).

Lemma pack_I_encode (n : Z) : 0 <= n < 4294967296 -> pack_I n = Some (encode_I n).
Proof.
  intros H. unfold pack_I, encode_I.
  replace ((0 <=? n) && (n <? 4294967296)) with true by (symmetry; apply andb_true_iff; lia).
  reflexivity.
Qed.

Lemma be_encode_I (n : Z) : 0 <= n < 4294967296 -> be (encode_I n) = n.
Proof.
  intros H. destruct (pack_I_spec n H) as (bs & Hp & _ & Hb).
  rewrite pack_I_encode in Hp by assumption. injection Hp as <-. exact Hb.
Qed.

Lemma pack_IB_slot (sector nsectors : Z) :
  0 <= sector < 16777216 -> 0 <= nsectors <= 255 ->
  pack_IB sector nsectors = Some (encode_I sector ++ [byte_of_Z nsectors]) /\
  be (take 3 (slot_bytes sector nsectors)) = sector /\
  be (drop 3 (slot_bytes sector nsectors)) = nsectors.
Proof.
  intros Hs Hn. destruct (pack_IB_tail sector nsectors Hs Hn) as (hb & Hp & _ & H1 & H2).
  assert (E : pack_IB sector nsectors = Some (encode_I sector ++ [byte_of_Z nsectors])).
  { unfold pack_IB. rewrite pack_I_encode by lia. unfold pack_B.
    replace ((0 <=? nsectors) && (nsectors <=? 255)) with true
      by (symmetry; apply andb_true_iff; lia).
    reflexivity. }
  rewrite E in Hp. injection Hp as <-. unfold slot_bytes. auto.
Qed.

Lemma write_at_app (p : Z) (a b d : list byte) :
  0 <= p ->
  write_at (p + Z.of_nat (length a)) b (write_at p a d) = write_at p (a ++ b) d.
Proof.
  intros Hp. destruct (decide (b = [])) as [->|Hb].
  { rewrite app_nil_r. reflexivity. }
  destruct (decide (a = [])) as [->|Ha].
  { cbn [length app write_at]. f_equal. lia. }
  assert (Hab : a ++ b <> []) by (destruct a; [congruence|discriminate]).
  apply list_eq. intros i.
  rewrite !lookup_write_at by assumption.
  rewrite length_write_at by assumption. rewrite length_app.
  repeat destruct (decide _); try lia; try reflexivity.
  - symmetry. apply lookup_app_l. lia.
  - rewrite lookup_app_r by lia. f_equal. lia.
Qed.
(** After the two table slots of coordinate (x,z) are written, the slot
    reads back what was stored and everything from byte 8192 on is as
    before. *)
Lemma slot_after_write (d0 hb tb : list byte) (x z : Z) :
  0 <= x < 32 -> 0 <= z < 32 -> 8192 <= Z.of_nat (length d0) ->
  length hb = 4%nat -> length tb = 4%nat ->
  let d' := write_at (4096 + 4 * (x + z * 32)) tb (write_at (4 * (x + z * 32)) hb d0) in
  raw_offset d' (x + 32 * z) = be (take 3 hb) /\
  raw_length d' (x + 32 * z) = be (drop 3 hb) /\
  raw_timestamp d' (x + 32 * z) = be tb /\
  length d' = length d0 /\
  (forall q n, 8192 <= q -> 0 <= n -> slice d' q n = slice d0 q n).
Proof.
  intros Hx Hz Hlen Hhb Htb d'.
  assert (Hh : hb <> []) by (destruct hb; [discriminate|congruence]).
  assert (Ht : tb <> []) by (destruct tb; [discriminate|congruence]).
  assert (L1 : length (write_at (4 * (x + z * 32)) hb d0) = length d0).
  { rewrite length_write_at by assumption. lia. }
  assert (L2 : length d' = length d0).
  { subst d'. rewrite length_write_at by assumption. lia. }
  replace (x + 32 * z) with (x + z * 32) by lia.
  unfold raw_offset, raw_length, raw_timestamp. subst d'.
  split; [|split; [|split; [|split]]].
  - rewrite slice_write_at_outside by lia.
    rewrite slice_write_at_inside by lia.
    rewrite Z.sub_diag.
    unfold slice. change (Z.to_nat 0) with 0%nat. reflexivity.
  - rewrite slice_write_at_outside by lia.
    rewrite slice_write_at_inside by lia.
    replace (4 * (x + z * 32) + 3 - 4 * (x + z * 32)) with 3 by ring.
    unfold slice. f_equal. change (Z.to_nat 3) with 3%nat. change (Z.to_nat 1) with 1%nat.
    rewrite take_ge; [reflexivity|]. rewrite length_drop. lia.
  - rewrite slice_write_at_inside by lia.
    rewrite Z.sub_diag.
    unfold slice. change (Z.to_nat 0) with 0%nat. change (Z.to_nat 4) with 4%nat.
    rewrite drop_0, take_ge by lia. reflexivity.
  - exact L2.
  - intros q n Hq Hn.
    rewrite slice_write_at_outside by (try right; lia).
    rewrite slice_write_at_outside by (try right; lia). reflexivity.
Qed.

Lemma length_encode_I (n : Z) : length (encode_I n) = 4%nat.
Proof. reflexivity. Qed.

Lemma length_stored_record (compressed : list byte) :
  Z.of_nat (length (stored_record compressed)) = Z.of_nat (length compressed) + 5.
Proof. unfold stored_record. rewrite !length_app, length_encode_I. cbn [length]. lia. Qed.

Lemma stored_record_nonempty (compressed : list byte) : stored_record compressed <> [].
Proof. unfold stored_record, encode_I. discriminate. Qed.

Section WriteSteps.
Context {C : Codec}.

(** [write_chunk] from the placement on: the record is on disk, the cursor
    is at the slot of the offset table, and the two tables come next. *)
Lemma write_chunk_steps (s s1 : RegionFile) (x z : Z) (P : NBT) (now sector : Z) (pad : bool) :
  let compressed := zlib_compress (write_file P) in
  let n := _bytes_to_sector (Z.of_nat (length compressed) + 5) 4096 in
  locate x z n s = (Ok (sector, pad), s1) ->
  0 <= sector -> 0 <= x + z * 32 ->
  Z.of_nat (length compressed) + 1 < 4294967296 ->
  write_chunk x z P now s =
    (hb <- lift_opt StructError (pack_IB sector n) ;;
     file_write (tail hb) ;;
     file_seek (4096 + 4 * (x + z * 32)) ;;
     tb <- lift_opt StructError (pack_I now) ;;
     file_write tb ;;
     parse_header ;;
     parse_chunk_headers)
      (mkRegion (mkFile (record_data (data (file s1)) sector n compressed pad)
                   (4 * (x + z * 32)))
         (size s1) (header s1) (chunk_headers s1)).
Proof.
  intros compressed n Hloc Hs Hxz Hc.
  assert (Hn : 1 <= n) by (apply bytes_to_sector_pos; lia).
  unfold write_chunk. cbv zeta. fold compressed. fold n.
  rewrite (bind_ok _ _ _ _ _ Hloc). cbv beta iota.
  unfold bind at 1. rewrite file_seek_ok by lia. cbv beta iota.
  rewrite pack_I_encode by lia.
  unfold bind at 1. cbn [lift_opt]. unfold ret at 1. cbv beta iota.
  unfold bind at 1. rewrite file_write_ok. cbv beta iota.
  cbn [with_pos file data pos size header chunk_headers].
  change (pack_B 2) with (Some [x02]).
  unfold bind at 1. cbn [lift_opt]. unfold ret at 1. cbv beta iota.
  unfold bind at 1. rewrite file_write_ok. cbv beta iota.
  cbn [with_pos file data pos size header chunk_headers].
  unfold bind at 1. rewrite file_write_ok. cbv beta iota.
  cbn [with_pos file data pos size header chunk_headers].
  rewrite length_encode_I. change (Z.of_nat 4) with 4.
  change (Z.of_nat (length [x02])) with 1.
  set (lb := encode_I (Z.of_nat (length compressed) + 1)).
  assert (Hlb : length lb = 4%nat) by reflexivity.
  assert (Hd : write_at (sector * 4096 + 4 + 1) compressed
                 (write_at (sector * 4096 + 4) [x02]
                    (write_at (sector * 4096) lb (data (file s1)))) =
               write_at (sector * 4096) (stored_record compressed) (data (file s1))).
  { change 4 with (Z.of_nat (length lb)) at 2.
    rewrite write_at_app by lia.
    replace (sector * 4096 + 4 + 1) with (sector * 4096 + Z.of_nat (length (lb ++ [x02])))
      by (rewrite length_app, Hlb; cbn [length]; lia).
    rewrite write_at_app by lia. unfold stored_record. fold lb.
    rewrite <- (assoc_L (++)). reflexivity. }
  rewrite Hd. unfold record_data. cbv zeta.
  destruct pad.
  - unfold bind at 1. unfold bind at 1. rewrite file_seek_ok by lia. cbv beta iota.
    rewrite file_write_ok. cbv beta iota.
    cbn [with_pos file data pos size header chunk_headers].
    unfold bind at 1. rewrite file_seek_ok by lia. cbv beta iota.
    cbn [with_pos file data pos size header chunk_headers]. reflexivity.
  - unfold bind at 1. unfold ret at 1. cbv beta iota.
    unfold bind at 1. rewrite file_seek_ok by lia. cbv beta iota.
    cbn [with_pos file data pos size header chunk_headers]. reflexivity.
Qed.

End WriteSteps.

(** ** Where the record ends up *)

Lemma length_record_data (d : list byte) (sector n : Z) (compressed : list byte) (pad : bool) :
  0 <= sector -> Z.of_nat (length compressed) + 5 <= n * 4096 ->
  Z.of_nat (length (record_data d sector n compressed pad)) =
    if pad then Z.max (Z.of_nat (length d)) ((sector + n) * 4096)
    else Z.max (Z.of_nat (length d)) (sector * 4096 + Z.of_nat (length compressed) + 5).
Proof.
  intros Hs Hn. unfold record_data. cbv zeta.
  pose proof (length_stored_record compressed) as Hr.
  destruct pad.
  - rewrite !length_write_at by (try discriminate; apply stored_record_nonempty).
    cbn [length]. lia.
  - rewrite length_write_at by apply stored_record_nonempty. lia.
Qed.

(** The record never touches the two tables. *)
Lemma slice_record_data_tables (d : list byte) (sector n : Z) (compressed : list byte)
    (pad : bool) :
  2 <= sector -> 1 <= n -> 8192 <= Z.of_nat (length d) ->
  slice (record_data d sector n compressed pad) 0 8192 = slice d 0 8192.
Proof.
  intros Hs Hn Hlen. unfold record_data. cbv zeta.
  assert (L : (length d <= length (write_at (sector * 4096) (stored_record compressed) d))%nat).
  { rewrite length_write_at by apply stored_record_nonempty. lia. }
  destruct pad.
  - rewrite slice_write_at_outside by lia. rewrite slice_write_at_outside by lia. reflexivity.
  - rewrite slice_write_at_outside by lia. reflexivity.
Qed.

(** Unless the padding byte falls on its last byte, the record can be read
    back whole. *)
Lemma slice_record_data_record (d : list byte) (sector n : Z) (compressed : list byte)
    (pad : bool) :
  0 <= sector ->
  (pad = true -> Z.of_nat (length compressed) + 5 < n * 4096) ->
  slice (record_data d sector n compressed pad) (sector * 4096)
    (Z.of_nat (length compressed) + 5) = stored_record compressed.
Proof.
  intros Hs Hpad. unfold record_data. cbv zeta.
  pose proof (length_stored_record compressed) as Hr.
  assert (E : slice (write_at (sector * 4096) (stored_record compressed) d) (sector * 4096)
                (Z.of_nat (length compressed) + 5) = stored_record compressed).
  { rewrite slice_write_at_inside by lia. rewrite Z.sub_diag, <- Hr. apply slice_all. }
  destruct pad; [|exact E].
  specialize (Hpad eq_refl).
  rewrite slice_write_at_outside; [exact E|lia|lia|lia|].
  left. split; [lia|]. rewrite length_write_at by apply stored_record_nonempty. lia.
Qed.

(** The three fields of a record that reads back whole. *)
Lemma read_back_record (d : list byte) (q : Z) (compressed : list byte) :
  0 <= q -> Z.of_nat (length compressed) + 1 < 4294967296 ->
  slice d q (Z.of_nat (length compressed) + 5) = stored_record compressed ->
  be (slice d q 4) = Z.of_nat (length compressed) + 1 /\
  be (slice d (q + 4) 1) = 2 /\
  slice d (q + 5) (Z.of_nat (length compressed)) = compressed.
Proof.
  intros Hq Hc Hs.
  assert (H4 : slice d q 4 = encode_I (Z.of_nat (length compressed) + 1)).
  { change 4 with (Z.of_nat 4). rewrite <- (take_slice d q (Z.of_nat (length compressed) + 5))
      by lia. rewrite Hs. reflexivity. }
  assert (H1 : slice d (q + 4) 1 = [x02]).
  { pose proof (drop_slice d q (Z.of_nat (length compressed) + 5) 4 Hq ltac:(lia)) as D.
    pose proof (take_slice d (q + Z.of_nat 4) (Z.of_nat (length compressed) + 5 - Z.of_nat 4)
                  1 ltac:(lia)) as T.
    change (Z.of_nat 4) with 4 in *. change (Z.of_nat 1) with 1 in *.
    rewrite <- T, <- D, Hs. reflexivity. }
  assert (H5 : slice d (q + 5) (Z.of_nat (length compressed)) = compressed).
  { pose proof (drop_slice d q (Z.of_nat (length compressed) + 5) 5 Hq ltac:(lia)) as D.
    change (Z.of_nat 5) with 5 in *.
    replace (Z.of_nat (length compressed) + 5 - 5) with (Z.of_nat (length compressed)) in D
      by lia.
    rewrite <- D, Hs. reflexivity. }
  rewrite H4, H1. split; [apply be_encode_I; lia|]. split; [reflexivity|exact H5].
Qed.

Section Placement.
Context {C : Codec}.

(** The four ways [locate] can answer on an opened container. *)
Lemma locate_cases (d : list byte) (p x z n o l t st : Z) :
  0 <= x < 32 -> 0 <= z < 32 ->
  parsed_entry d (x + 32 * z) = (o, l, t, st) ->
  (locate x z n (opened_at d p) = (Raise IndexError, opened_at d p) /\
   occupied (opened_at d p) = [] /\
   (st = STATUS_CHUNK_NOT_CREATED \/ st = STATUS_CHUNK_OK) /\ l < n) \/
  (locate x z n (opened_at d p) = (Ok (o, false), opened_at d p) /\
   (st = STATUS_CHUNK_NOT_CREATED \/ st = STATUS_CHUNK_OK) /\ n <= l) \/
  (exists sector next,
     locate x z n (opened_at d p) = (Ok (sector, false), opened_at d p) /\
     1 < sector /\ next ∈ occupied (opened_at d p) /\
     sector + n <= entry_offset next /\ l < n) \/
  (locate x z n (opened_at d p) =
     (Ok (append_at (Z.of_nat (length d)), true), opened_at d (Z.of_nat (length d))) /\
   ((st <> STATUS_CHUNK_NOT_CREATED /\ st <> STATUS_CHUNK_OK) \/
    (l < n /\ occupied (opened_at d p) <> []))).
Proof.
  intros Hx Hz He. rewrite (locate_opened d p x z n o l t st Hx Hz He).
  destruct ((st =? STATUS_CHUNK_NOT_CREATED) || (st =? STATUS_CHUNK_OK)) eqn:Est.
  - assert (Hst : st = STATUS_CHUNK_NOT_CREATED \/ st = STATUS_CHUNK_OK).
    { apply orb_true_iff in Est as [E|E]; apply Z.eqb_eq in E; auto. }
    destruct (n <=? l) eqn:En.
    + right. left. split; [reflexivity|]. split; [exact Hst|lia].
    + destruct (occupied (opened_at d p)) as [|first rest] eqn:Eocc.
      * left. split; [reflexivity|]. split; [reflexivity|]. split; [exact Hst|lia].
      * rewrite <- Eocc.
        destruct (search_gap (search_list (occupied (opened_at d p))) n) as [sector|] eqn:Eg.
        -- right. right. left.
           destruct (search_gap_Some _ _ _ Eg) as (H1 & next & Hin & Hle).
           exists sector, next. split; [reflexivity|]. split; [exact H1|].
           split; [apply tail_search_list; exact Hin|]. split; [exact Hle|lia].
        -- right. right. right. split; [reflexivity|]. right. split; [lia|].
           rewrite Eocc. discriminate.
  - right. right. right. split; [reflexivity|]. left.
    apply orb_false_iff in Est as [E1 E2]. apply Z.eqb_neq in E1, E2. split; assumption.
Qed.

(** X12: a record that needs more than 255 sectors cannot be written.
    Unless the header is entirely unallocated and the slot is not corrupt
    (then the search raises [IndexError] first), [write_chunk] raises
    [struct.error]: at the latest when it packs the sector count into one
    byte.  By then the record may already be on disk, but the two tables in
    the first 8192 bytes and the tables in memory are as before. *)
Theorem oversized_record_is_refused
    (f : File) (s : RegionFile) (x z : Z) (P : NBT) (now : Z) :
  8192 <= flen f -> RegionFile_init f = Ok s ->
  0 <= x < 32 -> 0 <= z < 32 ->
  255 < _bytes_to_sector (Z.of_nat (length (zlib_compress (write_file P))) + 5) 4096 ->
  (occupied s <> [] \/
   exists o l t st, header s !! (x, z) = Some (o, l, t, st) /\
                    st <> STATUS_CHUNK_NOT_CREATED /\ st <> STATUS_CHUNK_OK) ->
  let s' := snd (write_chunk x z P now s) in
  fst (write_chunk x z P now s) = Raise StructError /\
  header s' = header s /\ chunk_headers s' = chunk_headers s /\
  slice (data (file s')) 0 8192 = slice (data f) 0 8192.
Proof.
  intros Hlen Hinit Hx Hz Hn Hocc. destruct (init_opened f s Hlen Hinit) as [p ->].
  unfold flen in Hlen.
  set (compressed := zlib_compress (write_file P)) in *.
  set (n := _bytes_to_sector (Z.of_nat (length compressed) + 5) 4096) in *.
  pose proof (bytes_to_sector_spec (Z.of_nat (length compressed) + 5)) as Hbts. fold n in Hbts.
  destruct (parsed_entry (data f) (x + 32 * z)) as [[[o l] t] st] eqn:He.
  destruct (parsed_entry_fields (data f) (x + 32 * z) o l t st ltac:(lia) Hlen He)
    as (Ro & Rl & Est).
  assert (Hplace : exists sector pad q,
    locate x z n (opened_at (data f) p) = (Ok (sector, pad), opened_at (data f) q) /\
    2 <= sector).
  { destruct (locate_cases (data f) p x z n o l t st Hx Hz He)
      as [(_ & Hnil & Hst & _)|[(_ & _ & Hl)|[(sector & next & Hloc & H1 & _)|(Hloc & _)]]].
    - exfalso. destruct Hocc as [Hne | (o' & l' & t' & st' & Hh & Hs1 & Hs2)];
        [contradiction|].
      cbn [opened_at header] in Hh. rewrite lookup_header_of, He in Hh by assumption.
      injection Hh as -> -> -> ->. destruct Hst; contradiction.
    - lia.
    - exists sector, false, p. split; [exact Hloc|lia].
    - exists (append_at (Z.of_nat (length (data f)))), true, (Z.of_nat (length (data f))).
      split; [exact Hloc|]. pose proof (append_at_bounds (Z.of_nat (length (data f)))). lia. }
  destruct Hplace as (sector & pad & q & Hloc & Hsec).
  intros s'. subst s'.
  cut (exists st, write_chunk x z P now (opened_at (data f) p) = (Raise StructError, st) /\
         header st = header_of (data f) /\ chunk_headers st = chunk_headers_of (data f) /\
         slice (data (file st)) 0 8192 = slice (data f) 0 8192).
  { intros (st' & -> & H1 & H2 & H3). cbn [fst snd opened_at header chunk_headers].
    split; [reflexivity|]. split; [exact H1|]. split; [exact H2|exact H3]. }
  destruct (Z_lt_ge_dec (Z.of_nat (length compressed) + 1) 4294967296) as [Hc|Hc].
  - rewrite (write_chunk_steps _ _ x z P now sector pad Hloc ltac:(lia) ltac:(lia) Hc).
    fold compressed. fold n. unfold pack_IB. rewrite (pack_B_None n Hn).
    assert (E : forall o : option (list byte),
              match o with Some _ => @None (list byte) | None => None end = None)
      by (intros [?|]; reflexivity).
    rewrite E. unfold bind at 1. cbn [lift_opt raise].
    eexists. split; [reflexivity|]. cbn [opened_at file data header chunk_headers].
    split; [reflexivity|]. split; [reflexivity|].
    apply slice_record_data_tables; lia.
  - unfold write_chunk. cbv zeta. fold compressed. fold n.
    rewrite (bind_ok _ _ _ _ _ Hloc). cbv beta iota.
    unfold bind at 1. rewrite file_seek_ok by lia. cbv beta iota.
    rewrite (proj2 (pack_I_None _)) by lia.
    unfold bind at 1. cbn [lift_opt raise].
    eexists. split; [reflexivity|].
    cbn [with_pos opened_at file data header chunk_headers].
    split; [reflexivity|]. split; reflexivity.
Qed.

End Placement.


(** A payload whose record needs 256 sectors under the sample codec. *)
Definition big_payload : list byte := replicate (Z.to_nat 1044475) x00.

Lemma occupied_one_chunk : occupied (region_of one_chunk_file) = [(2, 1, 7, STATUS_CHUNK_OK)].
Proof. vm_compute. reflexivity. Qed.

Lemma oversized_record_is_refused_witness :
  fst (@write_chunk marker_codec 5 5 big_payload 0 (region_of one_chunk_file)) =
    Raise StructError.
Proof.
  assert (H1 : 8192 <= flen one_chunk_file) by (rewrite one_chunk_file_size; lia).
  assert (Hn : 255 < _bytes_to_sector
                       (Z.of_nat (length (@zlib_compress marker_codec
                                            (@write_file marker_codec big_payload))) + 5) 4096).
  { cbn [zlib_compress write_file marker_codec length]. unfold big_payload.
    rewrite length_replicate.
    replace (Z.of_nat (S (Z.to_nat 1044475)) + 5) with 1044481 by lia.
    vm_compute. reflexivity. }
  destruct (@oversized_record_is_refused marker_codec one_chunk_file
              (region_of one_chunk_file) 5 5 big_payload 0
              H1 (region_of_opens _ H1) ltac:(lia) ltac:(lia) Hn) as [H _].
  { left. rewrite occupied_one_chunk. discriminate. }
  exact H.
Defined.

Section WriteOk.
Context {C : Codec}.

(** A write that gets through: the object afterwards is the one opened on
    the new contents. *)
Lemma write_chunk_ok (d : list byte) (p q x z : Z) (P : NBT) (now sector : Z) (pad : bool) :
  let compressed := zlib_compress (write_file P) in
  let n := _bytes_to_sector (Z.of_nat (length compressed) + 5) 4096 in
  8192 <= Z.of_nat (length d) -> 0 <= x < 32 -> 0 <= z < 32 ->
  locate x z n (opened_at d p) = (Ok (sector, pad), opened_at d q) ->
  0 <= sector < 16777216 -> n <= 255 -> 0 <= now < 4294967296 ->
  exists p',
    write_chunk x z P now (opened_at d p) =
      (Ok tt, opened_at (written_data d x z sector n compressed pad now) p').
Proof.
  intros compressed n Hlen Hx Hz Hloc Hs Hn Hnow.
  pose proof (bytes_to_sector_spec (Z.of_nat (length compressed) + 5)) as Hbts. fold n in Hbts.
  assert (Hn1 : 1 <= n) by (apply bytes_to_sector_pos; lia).
  assert (Hc : Z.of_nat (length compressed) + 1 < 4294967296) by lia.
  rewrite (write_chunk_steps _ _ x z P now sector pad Hloc ltac:(lia) ltac:(lia) Hc).
  fold compressed. fold n.
  destruct (pack_IB_slot sector n ltac:(lia) ltac:(lia)) as (Hp & _ & _).
  rewrite Hp. unfold bind at 1. cbn [lift_opt]. unfold ret at 1. cbv beta iota.
  fold (slot_bytes sector n).
  unfold bind at 1. rewrite file_write_ok. cbv beta iota.
  cbn [with_pos opened_at file data pos size header chunk_headers].
  unfold bind at 1. rewrite file_seek_ok by lia. cbv beta iota.
  rewrite pack_I_encode by lia.
  unfold bind at 1. cbn [lift_opt]. unfold ret at 1. cbv beta iota.
  unfold bind at 1. rewrite file_write_ok. cbv beta iota.
  cbn [with_pos file data pos size header chunk_headers].
  fold (written_data d x z sector n compressed pad now).
  match goal with
  | |- exists p', (parse_header ;; parse_chunk_headers) ?t = _ =>
      destruct (reparse_ok t) as [p' Hp']
  end.
  - cbn [file data]. unfold written_data.
    pose proof (length_record_data d sector n compressed pad ltac:(lia) ltac:(lia)) as Hl.
    assert (Hl0 : 8192 <= Z.of_nat (length (record_data d sector n compressed pad)))
      by (destruct pad; lia).
    destruct (slot_after_write (record_data d sector n compressed pad)
                (slot_bytes sector n) (encode_I now) x z Hx Hz Hl0 eq_refl eq_refl)
      as (_ & _ & _ & Hlen' & _).
    rewrite Hlen'. exact Hl0.
  - apply in_grid_header_of.
  - apply in_grid_chunk_headers_of.
  - exists p'. exact Hp'.
Qed.

(** What the container holds at (x,z) after a write, in terms of the bytes
    [stored] found where the record was put. *)
Lemma written_slot_reads (d : list byte) (p x z : Z) (P : NBT) (now sector : Z)
    (pad : bool) (stored : list byte) :
  let compressed := zlib_compress (write_file P) in
  let n := _bytes_to_sector (Z.of_nat (length compressed) + 5) 4096 in
  let d' := written_data d x z sector n compressed pad now in
  8192 <= Z.of_nat (length d) -> 0 <= x < 32 -> 0 <= z < 32 ->
  2 <= sector < 16777216 -> n <= 255 -> 0 <= now < 4294967296 ->
  (pad = false -> (sector + n) * 4096 <= Z.of_nat (length d)) ->
  compressed <> [] -> length stored = length compressed ->
  slice (record_data d sector n compressed pad) (sector * 4096)
    (Z.of_nat (length compressed) + 5) = stored_record stored ->
  parsed_entry d' (x + 32 * z) = (sector, n, now, STATUS_CHUNK_OK) /\
  get_chunk x z (opened_at d' p) =
    decode_chunk 2 stored
      (with_pos (opened_at d' p) (sector * 4096 + 5 + Z.of_nat (length compressed))).
Proof.
  intros compressed n d' Hlen Hx Hz Hs Hn Hnow Hfit Hne Hst Hrec0.
  pose proof (bytes_to_sector_spec (Z.of_nat (length compressed) + 5)) as Hbts. fold n in Hbts.
  assert (Hn1 : 1 <= n) by (apply bytes_to_sector_pos; lia).
  assert (Hc1 : 1 <= Z.of_nat (length compressed)).
  { destruct compressed; [congruence|cbn [length]; lia]. }
  pose proof (length_record_data d sector n compressed pad ltac:(lia) ltac:(lia)) as Hl.
  subst d'. unfold written_data.
  remember (record_data d sector n compressed pad) as d0 eqn:Ed0.
  assert (Hl0 : 8192 <= Z.of_nat (length d0)) by (destruct pad; lia).
  pose proof (slot_after_write d0 (slot_bytes sector n) (encode_I now) x z Hx Hz Hl0
                eq_refl eq_refl) as Hslot.
  cbv zeta in Hslot.
  remember (write_at (4096 + 4 * (x + z * 32)) (encode_I now)
              (write_at (4 * (x + z * 32)) (slot_bytes sector n) d0)) as d' eqn:Ed'.
  destruct Hslot as (Ho & Hln & Ht & Hlen' & Hhigh).
  destruct (pack_IB_slot sector n ltac:(lia) ltac:(lia)) as (_ & Hb3 & Hb1).
  rewrite Hb3 in Ho. rewrite Hb1 in Hln. rewrite be_encode_I in Ht by lia.
  assert (He : parsed_entry d' (x + 32 * z) = (sector, n, now, STATUS_CHUNK_OK)).
  { unfold parsed_entry. rewrite Ho, Hln, Ht, Hlen'. f_equal.
    unfold header_status.
    destruct (sector =? 0) eqn:E1; [lia|]. destruct (n =? 0) eqn:E2; [lia|].
    destruct (sector <? 2) eqn:E3; [lia|]. cbn [andb negb].
    destruct ((sector + n) * 4096 >? Z.of_nat (length d0)) eqn:E4; [|reflexivity].
    destruct pad; [lia|]. specialize (Hfit eq_refl). lia. }
  split; [exact He|].
  assert (Hrec : slice d' (sector * 4096) (Z.of_nat (length stored) + 5) =
                 stored_record stored).
  { rewrite Hst. rewrite Hhigh by lia. exact Hrec0. }
  destruct (read_back_record d' (sector * 4096) stored ltac:(lia) ltac:(lia) Hrec)
    as (HL & Hcodec & Hdata).
  rewrite Hst in HL, Hdata.
  assert (Hlen2 : 8192 <= Z.of_nat (length d')) by (rewrite Hlen'; exact Hl0).
  rewrite (get_chunk_record d' p x z sector n now Hlen2 Hx Hz He)
    by (unfold chunk_length_at; rewrite HL; lia).
  unfold chunk_compression_at, chunk_length_at. rewrite Hcodec, HL.
  replace (Z.of_nat (length compressed) + 1 - 1) with (Z.of_nat (length compressed)) by lia.
  rewrite Hdata, Hst. reflexivity.
Qed.

(** What the container holds at (x,z) after such a write, when the record
    lies beyond the tables, ends inside the file and was not clipped by the
    padding byte. *)
Lemma written_slot_reads_back (d : list byte) (p x z : Z) (P : NBT) (now sector : Z)
    (pad : bool) :
  let compressed := zlib_compress (write_file P) in
  let n := _bytes_to_sector (Z.of_nat (length compressed) + 5) 4096 in
  let d' := written_data d x z sector n compressed pad now in
  8192 <= Z.of_nat (length d) -> 0 <= x < 32 -> 0 <= z < 32 ->
  2 <= sector < 16777216 -> n <= 255 -> 0 <= now < 4294967296 ->
  (pad = false -> (sector + n) * 4096 <= Z.of_nat (length d)) ->
  (pad = true -> Z.of_nat (length compressed) + 5 < n * 4096) ->
  compressed <> [] ->
  parsed_entry d' (x + 32 * z) = (sector, n, now, STATUS_CHUNK_OK) /\
  get_chunk x z (opened_at d' p) =
    decode_chunk 2 compressed
      (with_pos (opened_at d' p) (sector * 4096 + 5 + Z.of_nat (length compressed))).
Proof.
  intros compressed n d' Hlen Hx Hz Hs Hn Hnow Hfit Hpad Hne.
  apply (written_slot_reads d p x z P now sector pad compressed Hlen Hx Hz Hs Hn Hnow Hfit
           Hne eq_refl).
  apply slice_record_data_record; [lia|exact Hpad].
Qed.

End WriteOk.

(** ** Writing then reading *)

(** A slot is sound when it is NotCreated, or Ok and beyond the tables. *)
Definition entry_sound (e : Z * Z * Z * Z) : bool :=
  (entry_status e =? STATUS_CHUNK_NOT_CREATED) ||
  ((entry_status e =? STATUS_CHUNK_OK) && (2 <=? entry_offset e)).

(** A container without corrupt slots. *)
Definition well_formed (s : RegionFile) : bool := forallb entry_sound (header_values s).

Lemma well_formed_lookup (s : RegionFile) (k : Z * Z) (e : Z * Z * Z * Z) :
  well_formed s = true -> header s !! k = Some e -> entry_sound e = true.
Proof.
  intros Hwf Hk. unfold well_formed in Hwf. rewrite forallb_forall in Hwf. apply Hwf.
  unfold header_values. apply in_map_iff. exists (k, e). split; [reflexivity|].
  apply list_elem_of_In, elem_of_map_to_list. exact Hk.
Qed.

(** In a well-formed container an allocated entry is Ok and lies inside the
    file. *)
Lemma sound_occupied_entry (d : list byte) (p : Z) (e : Z * Z * Z * Z) :
  8192 <= Z.of_nat (length d) ->
  well_formed (opened_at d p) = true -> e ∈ occupied (opened_at d p) ->
  2 <= entry_offset e < 16777216 /\ entry_offset e * 4096 < Z.of_nat (length d).
Proof.
  intros Hlen Hwf Hin. apply elem_of_occupied in Hin as (Hne & k & Hk).
  pose proof (well_formed_lookup _ k e Hwf Hk) as Hs.
  cbn [opened_at header] in Hk. unfold header_of in Hk.
  apply lookup_table_of_Some in Hk as [Hc He]. destruct k as [x z].
  apply elem_of_coords in Hc as [Hx Hz]. destruct e as [[[o l] t] st]. symmetry in He.
  cbn [entry_offset entry_status fst snd] in *.
  destruct (parsed_entry_fields d (x + 32 * z) o l t st ltac:(lia) Hlen He) as (Ro & Rl & Est).
  unfold entry_sound in Hs. cbn [entry_offset entry_status fst snd] in Hs.
  destruct (header_status_cases o l (Z.of_nat (length d)) ltac:(lia) ltac:(lia))
    as [(E & H)|[(E & H)|[(E & H)|[(E & H)|(E & H)]]]];
    rewrite E in Est; subst st; cbn in Hs; try discriminate Hs; lia.
Qed.

Section RoundTrip.
Context {C : Codec}.

(** X13: writing then reading.  In a well-formed container of at least
    8192 bytes (and less than 64 GiB) that has an allocated slot, writing a
    payload whose record takes at most 255 sectors at a coordinate of the
    grid succeeds, and reading the coordinate back returns the payload,
    with the time of the write as its timestamp; provided zlib inverts its
    compression of this payload into a nonempty string, the tag-tree parser
    inverts its serialization, and the record does not both go to the end of
    the file and fill its sectors exactly. *)
Theorem write_then_read (f : File) (s : RegionFile) (x z : Z) (P : NBT) (now : Z) :
  8192 <= flen f <= 68719468544 -> RegionFile_init f = Ok s ->
  well_formed s = true -> occupied s <> [] ->
  0 <= x < 32 -> 0 <= z < 32 -> 0 <= now < 4294967296 ->
  let compressed := zlib_compress (write_file P) in
  let n := _bytes_to_sector (Z.of_nat (length compressed) + 5) 4096 in
  compressed <> [] ->
  zlib_decompress compressed = inr (write_file P) ->
  NBTFile (write_file P) = inr P ->
  n <= 255 ->
  (forall sector s1, locate x z n s = (Ok (sector, true), s1) ->
     (Z.of_nat (length compressed) + 5) mod 4096 <> 0) ->
  fst (write_chunk x z P now s) = Ok tt /\
  fst (get_chunk x z (snd (write_chunk x z P now s))) = Ok (Some P) /\
  fst (get_timestamp x z (snd (write_chunk x z P now s))) = Ok now.
Proof.
  intros Hlen Hinit Hwf Hocc Hx Hz Hnow compressed n Hne Hzlib Hnbt Hn Hfill.
  destruct (init_opened f s (proj1 Hlen) Hinit) as [p ->]. unfold flen in Hlen.
  pose proof (bytes_to_sector_spec (Z.of_nat (length compressed) + 5)) as Hbts. fold n in Hbts.
  assert (Hn1 : 1 <= n) by (apply bytes_to_sector_pos; lia).
  destruct (parsed_entry (data f) (x + 32 * z)) as [[[o l] t] st] eqn:He.
  destruct (parsed_entry_fields (data f) (x + 32 * z) o l t st ltac:(lia) ltac:(lia) He)
    as (Ro & Rl & Est).
  assert (Hplace : exists sector pad q,
    locate x z n (opened_at (data f) p) = (Ok (sector, pad), opened_at (data f) q) /\
    2 <= sector < 16777216 /\
    (pad = false -> (sector + n) * 4096 <= Z.of_nat (length (data f))) /\
    (pad = true -> Z.of_nat (length compressed) + 5 < n * 4096)).
  { destruct (locate_cases (data f) p x z n o l t st Hx Hz He)
      as [(_ & Hnil & _)|[(Hloc & Hst & Hl)|[(sector & next & Hloc & H1 & Hin & Hle & _)
         |(Hloc & _)]]].
    - contradiction.
    - exists o, false, p. split; [exact Hloc|].
      assert (Hs : entry_sound (o, l, t, st) = true).
      { apply (well_formed_lookup _ (x, z) _ Hwf). cbn [opened_at header].
        rewrite lookup_header_of by assumption. congruence. }
      unfold entry_sound in Hs. cbn [entry_offset entry_status fst snd] in Hs.
      destruct (header_status_cases o l (Z.of_nat (length (data f))) ltac:(lia) ltac:(lia))
        as [(E & H)|[(E & H)|[(E & H)|[(E & H)|(E & H)]]]];
        rewrite E in Est; subst st; cbn in Hs; try discriminate Hs; try lia;
        (split; [lia|]; split; [intros _; nia|intros; discriminate]).
    - exists sector, false, p. split; [exact Hloc|].
      destruct (sound_occupied_entry (data f) p next ltac:(lia) Hwf Hin) as [Hno Hnl].
      split; [lia|]. split; [intros _; nia|intros; discriminate].
    - exists (append_at (Z.of_nat (length (data f)))), true, (Z.of_nat (length (data f))).
      split; [exact Hloc|].
      pose proof (append_at_bounds (Z.of_nat (length (data f)))) as Hb.
      split; [lia|]. split; [intros; discriminate|intros _].
      specialize (Hfill _ _ Hloc).
      destruct (Z.eq_dec (Z.of_nat (length compressed) + 5) (n * 4096)) as [E|E]; [|lia].
      exfalso. apply Hfill. rewrite E. apply Z.mod_mul. lia. }
  destruct Hplace as (sector & pad & q & Hloc & Hsec & Hfit & Hpad).
  destruct (write_chunk_ok (data f) p q x z P now sector pad ltac:(lia) Hx Hz Hloc
              ltac:(lia) Hn Hnow) as [p' Hw].
  fold compressed in Hw. fold n in Hw. rewrite Hw. cbn [fst snd].
  destruct (written_slot_reads_back (data f) p' x z P now sector pad ltac:(lia) Hx Hz
              Hsec Hn Hnow Hfit Hpad Hne) as [Hentry Hget].
  fold compressed in Hentry, Hget. fold n in Hentry, Hget.
  split; [reflexivity|]. split.
  - rewrite Hget. rewrite decode_chunk_parse.
    change (2 =? 1) with false. change (2 =? 2) with true. cbv beta iota.
    rewrite Hzlib. unfold parse_decompressed. rewrite Hnbt. reflexivity.
  - unfold get_timestamp, bind, get_header. cbn [opened_at header].
    rewrite lookup_header_of by assumption. rewrite Hentry. reflexivity.
Qed.

End RoundTrip.

Lemma write_then_read_witness :
  fst (@get_chunk marker_codec 5 5
         (snd (@write_chunk marker_codec 5 5 [x01; x02] 1000 (region_of one_chunk_file)))) =
    Ok (Some [x01; x02]).
Proof.
  assert (H1 : 8192 <= flen one_chunk_file <= 68719468544)
    by (rewrite one_chunk_file_size; lia).
  destruct (@write_then_read marker_codec one_chunk_file (region_of one_chunk_file)
              5 5 [x01; x02] 1000 H1 (region_of_opens _ (proj1 H1))) as (_ & H & _).
  - vm_compute. reflexivity.
  - rewrite occupied_one_chunk. discriminate.
  - lia.
  - lia.
  - lia.
  - discriminate.
  - reflexivity.
  - reflexivity.
  - vm_compute. discriminate.
  - intros sector s1 _. vm_compute. discriminate.
  - exact H.
Defined.

(** ** Appending, and the other answers of the placement *)

Lemma append_at_alt (len : Z) :
  (len mod 4096 <> 1 -> append_at len = _bytes_to_sector len 4096 + 1) /\
  (len mod 4096 = 1 -> append_at len = _bytes_to_sector len 4096) /\
  (len mod 4096 = 0 -> append_at len = len / 4096 + 1).
Proof.
  pose proof (bytes_to_sector_spec (len - 1)) as H1.
  pose proof (bytes_to_sector_spec len) as H2.
  pose proof (Z.div_mod len 4096 ltac:(lia)) as H3.
  pose proof (Z.mod_pos_bound len 4096 ltac:(lia)) as H4.
  unfold append_at. repeat split; intros; lia.
Qed.

Section Appending.
Context {C : Codec}.

(** The placement answers with padding only when it appends at the end of
    the file. *)
Lemma locate_padded (d : list byte) (p x z n sector : Z) :
  0 <= x < 32 -> 0 <= z < 32 ->
  fst (locate x z n (opened_at d p)) = Ok (sector, true) ->
  sector = append_at (Z.of_nat (length d)) /\
  locate x z n (opened_at d p) =
    (Ok (sector, true), opened_at d (Z.of_nat (length d))).
Proof.
  intros Hx Hz Hloc.
  destruct (parsed_entry d (x + 32 * z)) as [[[o l] t] st] eqn:He.
  destruct (locate_cases d p x z n o l t st Hx Hz He)
    as [(E & _)|[(E & _)|[(sec & next & E & _)|(E & _)]]];
    rewrite E in Hloc; cbn [fst] in Hloc; try discriminate Hloc.
  injection Hloc as <-. split; [reflexivity|exact E].
Qed.

(** X14: when the placement answers with padding (no gap fits, or the slot
    is corrupt), the record goes to sector
    [_bytes_to_sector(size - 1) + 1], which starts at or after the end of
    the file; this is [_bytes_to_sector(size) + 1] except for a size that is
    1 modulo 4096, and it skips a whole sector when the size is a multiple
    of 4096.  After a write that gets through, the file ends exactly with
    the sectors of the record, and its last byte is the zero byte of the
    padding. *)
Theorem append_position_and_padding
    (f : File) (s : RegionFile) (x z : Z) (P : NBT) (now sector : Z) :
  8192 <= flen f <= 68719468544 -> RegionFile_init f = Ok s ->
  0 <= x < 32 -> 0 <= z < 32 -> 0 <= now < 4294967296 ->
  let compressed := zlib_compress (write_file P) in
  let n := _bytes_to_sector (Z.of_nat (length compressed) + 5) 4096 in
  n <= 255 ->
  fst (locate x z n s) = Ok (sector, true) ->
  let s' := snd (write_chunk x z P now s) in
  sector = _bytes_to_sector (flen f - 1) 4096 + 1 /\
  flen f <= sector * 4096 /\
  (flen f mod 4096 <> 1 -> sector = _bytes_to_sector (flen f) 4096 + 1) /\
  (flen f mod 4096 = 1 -> sector = _bytes_to_sector (flen f) 4096) /\
  (flen f mod 4096 = 0 -> sector = flen f / 4096 + 1) /\
  fst (write_chunk x z P now s) = Ok tt /\
  flen (file s') = (sector + n) * 4096 /\
  slice (data (file s')) ((sector + n) * 4096 - 1) 1 = [x00].
Proof.
  intros Hlen Hinit Hx Hz Hnow compressed n Hn Hloc s'.
  destruct (init_opened f s (proj1 Hlen) Hinit) as [p ->]. unfold flen in *.
  pose proof (bytes_to_sector_spec (Z.of_nat (length compressed) + 5)) as Hbts. fold n in Hbts.
  assert (Hn1 : 1 <= n) by (apply bytes_to_sector_pos; lia).
  destruct (locate_padded (data f) p x z n sector Hx Hz Hloc) as [Hsec Hfull].
  pose proof (append_at_bounds (Z.of_nat (length (data f)))) as Hb. rewrite <- Hsec in Hb.
  destruct (append_at_alt (Z.of_nat (length (data f)))) as (A1 & A2 & A3).
  rewrite <- Hsec in A1, A2, A3.
  destruct (write_chunk_ok (data f) p _ x z P now sector true ltac:(lia) Hx Hz Hfull
              ltac:(lia) Hn Hnow) as [p' Hw].
  fold compressed in Hw. fold n in Hw. subst s'. rewrite Hw.
  cbn [fst snd opened_at file data].
  pose proof (length_record_data (data f) sector n compressed true ltac:(lia) ltac:(lia))
    as Hl. cbv beta iota in Hl.
  assert (Hl0 : 8192 <= Z.of_nat (length (record_data (data f) sector n compressed true)))
    by lia.
  destruct (slot_after_write (record_data (data f) sector n compressed true)
              (slot_bytes sector n) (encode_I now) x z Hx Hz Hl0 eq_refl eq_refl)
    as (_ & _ & _ & Hlen' & Hhigh).
  fold (written_data (data f) x z sector n compressed true now) in Hlen', Hhigh.
  split; [exact Hsec|]. split; [lia|]. split; [exact A1|]. split; [exact A2|].
  split; [exact A3|]. split; [reflexivity|]. split.
  - rewrite Hlen'. lia.
  - rewrite Hhigh by lia. unfold record_data. cbv zeta.
    rewrite slice_write_at_inside by (cbn [length]; lia). rewrite Z.sub_diag. reflexivity.
Qed.

(** X15: a slot whose status is neither NotCreated nor Ok is never reused:
    whatever its offset and length say and however small the record is, the
    write goes to the end of the file, with padding, and the file grows. *)
Theorem corrupt_slot_is_never_reused
    (f : File) (s : RegionFile) (x z : Z) (P : NBT) (now o l t st : Z) :
  8192 <= flen f <= 68719468544 -> RegionFile_init f = Ok s ->
  0 <= now < 4294967296 ->
  header s !! (x, z) = Some (o, l, t, st) ->
  st <> STATUS_CHUNK_NOT_CREATED -> st <> STATUS_CHUNK_OK ->
  let n := _bytes_to_sector (Z.of_nat (length (zlib_compress (write_file P))) + 5) 4096 in
  n <= 255 ->
  let s' := snd (write_chunk x z P now s) in
  let sector := _bytes_to_sector (flen f - 1) 4096 + 1 in
  fst (write_chunk x z P now s) = Ok tt /\
  flen f < flen (file s') /\
  exists st', header s' !! (x, z) = Some (sector, n, now, st').
Proof.
  intros Hlen Hinit Hnow Hh Hs1 Hs2 n Hn s' sector.
  destruct (init_opened f s (proj1 Hlen) Hinit) as [p ->]. unfold flen in *.
  set (compressed := zlib_compress (write_file P)) in *.
  pose proof (bytes_to_sector_spec (Z.of_nat (length compressed) + 5)) as Hbts. fold n in Hbts.
  assert (Hn1 : 1 <= n) by (apply bytes_to_sector_pos; lia).
  cbn [opened_at header] in Hh. unfold header_of in Hh.
  apply lookup_table_of_Some in Hh as [Hc He]. apply elem_of_coords in Hc as [Hx Hz].
  symmetry in He.
  assert (Hloc : locate x z n (opened_at (data f) p) =
                 (Ok (sector, true), opened_at (data f) (Z.of_nat (length (data f))))).
  { rewrite (locate_opened (data f) p x z n o l t st Hx Hz He).
    apply Z.eqb_neq in Hs1, Hs2. rewrite Hs1, Hs2. reflexivity. }
  pose proof (append_at_bounds (Z.of_nat (length (data f)))) as Hb.
  fold sector in Hb. change (append_at (Z.of_nat (length (data f)))) with sector in Hb.
  destruct (write_chunk_ok (data f) p _ x z P now sector true ltac:(lia) Hx Hz Hloc
              ltac:(lia) Hn Hnow) as [p' Hw].
  fold compressed in Hw. fold n in Hw. subst s'. rewrite Hw.
  cbn [fst snd opened_at file data header].
  pose proof (length_record_data (data f) sector n compressed true ltac:(lia) ltac:(lia))
    as Hl. cbv beta iota in Hl.
  assert (Hl0 : 8192 <= Z.of_nat (length (record_data (data f) sector n compressed true)))
    by lia.
  destruct (slot_after_write (record_data (data f) sector n compressed true)
              (slot_bytes sector n) (encode_I now) x z Hx Hz Hl0 eq_refl eq_refl)
    as (Ho & Hln & Ht & Hlen' & _).
  fold (written_data (data f) x z sector n compressed true now) in Ho, Hln, Ht, Hlen'.
  destruct (pack_IB_slot sector n ltac:(lia) ltac:(lia)) as (_ & Hb3 & Hb1).
  rewrite Hb3 in Ho. rewrite Hb1 in Hln. rewrite be_encode_I in Ht by lia.
  split; [reflexivity|]. split; [rewrite Hlen'; lia|].
  rewrite lookup_header_of by assumption. unfold parsed_entry. rewrite Ho, Hln, Ht.
  eexists. reflexivity.
Qed.

(** X16: without a single allocated slot nothing can be written to a slot
    that is NotCreated: in any opened container of at least 8192 bytes
    whose offsets are all zero, [write_chunk] raises [IndexError] and leaves
    the object and the file as they were. *)
Theorem write_without_allocated_slot_raises
    (f : File) (s : RegionFile) (x z : Z) (P : NBT) (now o l t : Z) :
  8192 <= flen f -> RegionFile_init f = Ok s ->
  occupied s = [] ->
  header s !! (x, z) = Some (o, l, t, STATUS_CHUNK_NOT_CREATED) ->
  write_chunk x z P now s = (Raise IndexError, s).
Proof.
  intros Hlen Hinit Hocc Hh. destruct (init_opened f s Hlen Hinit) as [p ->].
  unfold flen in Hlen.
  set (n := _bytes_to_sector (Z.of_nat (length (zlib_compress (write_file P))) + 5) 4096).
  assert (Hn1 : 1 <= n) by (apply bytes_to_sector_pos; lia).
  cbn [opened_at header] in Hh. unfold header_of in Hh.
  apply lookup_table_of_Some in Hh as [Hc He]. apply elem_of_coords in Hc as [Hx Hz].
  symmetry in He.
  destruct (parsed_entry_fields (data f) (x + 32 * z) o l t _ ltac:(lia) Hlen He)
    as (Ro & Rl & Est).
  assert (Hl : l = 0).
  { destruct (header_status_cases o l (Z.of_nat (length (data f))) ltac:(lia) ltac:(lia))
      as [(E & H)|[(E & H)|[(E & H)|[(E & H)|(E & H)]]]];
      rewrite E in Est; try discriminate Est. lia. }
  assert (Hloc : locate x z n (opened_at (data f) p) =
                 (Raise IndexError, opened_at (data f) p)).
  { rewrite (locate_opened (data f) p x z n o l t _ Hx Hz He). rewrite Hocc.
    change (STATUS_CHUNK_NOT_CREATED =? STATUS_CHUNK_NOT_CREATED) with true. cbn [orb].
    destruct (n <=? l) eqn:En; [lia|reflexivity]. }
  unfold write_chunk. cbv zeta. fold n. unfold bind at 1. rewrite Hloc. reflexivity.
Qed.

End Appending.

Lemma append_position_and_padding_witness :
  4 = flen one_chunk_file / 4096 + 1 /\
  flen (file (snd (@write_chunk marker_codec 5 5 [x01; x02] 1000
                     (region_of one_chunk_file)))) = 20480.
Proof.
  assert (H1 : 8192 <= flen one_chunk_file <= 68719468544)
    by (rewrite one_chunk_file_size; lia).
  destruct (@append_position_and_padding marker_codec one_chunk_file
              (region_of one_chunk_file) 5 5 [x01; x02] 1000 4
              H1 (region_of_opens _ (proj1 H1)) ltac:(lia) ltac:(lia) ltac:(lia))
    as (_ & _ & _ & _ & H0 & _ & Hl & _).
  - vm_compute. discriminate.
  - vm_compute. reflexivity.
  - split; [apply H0; vm_compute; reflexivity|exact Hl].
Defined.

(** A container of two sectors whose slot (0,0) points into the tables. *)
Definition in_header_data : list byte := [x00; x00; x01; x01] ++ replicate (Z.to_nat 8188) x00.

Definition in_header_file : File := mkFile in_header_data 0.

Lemma in_header_file_size : flen in_header_file = 8192.
Proof. vm_compute. reflexivity. Qed.

Lemma corrupt_slot_is_never_reused_witness :
  fst (@write_chunk marker_codec 0 0 [x01] 1000 (region_of in_header_file)) = Ok tt /\
  flen in_header_file <
    flen (file (snd (@write_chunk marker_codec 0 0 [x01] 1000 (region_of in_header_file)))).
Proof.
  assert (H1 : 8192 <= flen in_header_file <= 68719468544)
    by (rewrite in_header_file_size; lia).
  assert (Hh : header (region_of in_header_file) !! (0, 0) =
               Some (1, 1, 0, STATUS_CHUNK_IN_HEADER)).
  { rewrite region_of_header by lia. vm_compute. reflexivity. }
  destruct (@corrupt_slot_is_never_reused marker_codec in_header_file
              (region_of in_header_file) 0 0 [x01] 1000 1 1 0 STATUS_CHUNK_IN_HEADER
              H1 (region_of_opens _ (proj1 H1)) ltac:(lia) Hh ltac:(discriminate)
              ltac:(discriminate)) as (Hok & Hgrow & _).
  - vm_compute. discriminate.
  - split; [exact Hok|exact Hgrow].
Defined.

(** A container of two sectors with both tables blank. *)
Definition blank_tables_file : File := mkFile (replicate (Z.to_nat 8192) x00) 0.

Lemma blank_tables_file_size : flen blank_tables_file = 8192.
Proof. vm_compute. reflexivity. Qed.

Lemma occupied_blank_tables : occupied (region_of blank_tables_file) = [].
Proof. vm_compute. reflexivity. Qed.

Lemma write_without_allocated_slot_raises_witness :
  fst (@write_chunk marker_codec 5 5 [x01] 0 (region_of blank_tables_file)) =
    Raise IndexError.
Proof.
  assert (H1 : 8192 <= flen blank_tables_file) by (rewrite blank_tables_file_size; lia).
  assert (Hh : header (region_of blank_tables_file) !! (5, 5) =
               Some (0, 0, 0, STATUS_CHUNK_NOT_CREATED)).
  { rewrite region_of_header by lia. vm_compute. reflexivity. }
  rewrite (@write_without_allocated_slot_raises marker_codec blank_tables_file
             (region_of blank_tables_file) 5 5 [x01] 0 0 0 0
             H1 (region_of_opens _ H1) occupied_blank_tables Hh).
  reflexivity.
Defined.

(** ** A record that fills its sectors exactly *)

(** [bs] with its last byte replaced by a zero byte. *)
Definition zero_last (bs : list byte) : list byte :=
  take (length bs - 1) bs ++ [x00].

Lemma length_zero_last (bs : list byte) : bs <> [] -> length (zero_last bs) = length bs.
Proof.
  intros H. unfold zero_last. rewrite length_app, length_take. cbn [length].
  destruct bs; [congruence|cbn [length]; lia].
Qed.

Lemma stored_record_zero_last (bs : list byte) :
  bs <> [] ->
  stored_record (zero_last bs) = take (length bs + 4) (stored_record bs) ++ [x00].
Proof.
  intros H. unfold stored_record. rewrite length_zero_last by assumption.
  assert (L : (1 <= length bs)%nat) by (destruct bs; [congruence|cbn [length]; lia]).
  rewrite take_app_ge by (rewrite length_encode_I; lia).
  rewrite length_encode_I.
  rewrite take_app_ge by (cbn [length]; lia). cbn [length].
  replace (length bs + 4 - 4 - 1)%nat with (length bs - 1)%nat by lia.
  unfold zero_last. rewrite <- !app_assoc. reflexivity.
Qed.

(** Writing one byte at the end of a range. *)
Lemma slice_write_last (d : list byte) (q m : Z) (b : byte) :
  0 <= q -> 1 <= m -> q + m <= Z.of_nat (length d) ->
  slice (write_at (q + m - 1) [b] d) q m = take (Z.to_nat (m - 1)) (slice d q m) ++ [b].
Proof.
  intros Hq Hm Hl. apply list_eq. intros i. rewrite lookup_slice.
  rewrite lookup_write_at by discriminate. cbn [length].
  assert (Lt : length (take (Z.to_nat (m - 1)) (slice d q m)) = Z.to_nat (m - 1)).
  { rewrite length_take, length_slice by lia. lia. }
  destruct (decide (i < Z.to_nat (m - 1))%nat) as [Hi|Hi].
  - rewrite lookup_app_l by lia. rewrite lookup_take_lt by lia. rewrite lookup_slice.
    repeat destruct (decide _); try lia; reflexivity.
  - rewrite lookup_app_r by lia. rewrite Lt.
    destruct (decide (i = Z.to_nat (m - 1))) as [->|Hne].
    + rewrite Nat.sub_diag.
      repeat destruct (decide _); try lia.
      replace (Z.to_nat q + Z.to_nat (m - 1) - Z.to_nat (q + m - 1))%nat with 0%nat by lia.
      reflexivity.
    + destruct (decide (i < Z.to_nat m)%nat); [lia|].
      symmetry. apply lookup_ge_None. cbn [length]. lia.
Qed.

(** Appended with padding, a record of exactly [n] sectors is stored with
    its last byte zeroed. *)
Lemma slice_record_data_exact (d : list byte) (sector n : Z) (compressed : list byte) :
  0 <= sector -> compressed <> [] ->
  Z.of_nat (length compressed) + 5 = n * 4096 ->
  slice (record_data d sector n compressed true) (sector * 4096)
    (Z.of_nat (length compressed) + 5) = stored_record (zero_last compressed).
Proof.
  intros Hs Hne Hn. unfold record_data. cbv zeta.
  pose proof (length_stored_record compressed) as Hr.
  set (d3 := write_at (sector * 4096) (stored_record compressed) d).
  assert (L3 : sector * 4096 + (Z.of_nat (length compressed) + 5) <= Z.of_nat (length d3)).
  { subst d3. rewrite length_write_at by apply stored_record_nonempty. lia. }
  assert (E : slice d3 (sector * 4096) (Z.of_nat (length compressed) + 5) =
              stored_record compressed).
  { subst d3. rewrite slice_write_at_inside by lia. rewrite Z.sub_diag, <- Hr.
    apply slice_all. }
  replace ((sector + n) * 4096 - 1)
    with (sector * 4096 + (Z.of_nat (length compressed) + 5) - 1) by lia.
  rewrite slice_write_last by lia. rewrite E.
  rewrite stored_record_zero_last by assumption. do 2 f_equal. lia.
Qed.

Section ExactFill.
Context {C : Codec}.

(** X17: a record that is appended and fills its sectors exactly loses its
    last byte.  The padding byte is written at the last byte of the last
    sector of the record, which here is the last byte of the compressed
    data: the write succeeds, but the file holds the compressed data with a
    zero for its last byte, and that is what a following read hands to the
    decompressor. *)
Theorem exact_fill_append_zeroes_last_byte
    (f : File) (s : RegionFile) (x z : Z) (P : NBT) (now sector : Z) :
  8192 <= flen f <= 68719468544 -> RegionFile_init f = Ok s ->
  0 <= x < 32 -> 0 <= z < 32 -> 0 <= now < 4294967296 ->
  let compressed := zlib_compress (write_file P) in
  let n := _bytes_to_sector (Z.of_nat (length compressed) + 5) 4096 in
  n <= 255 -> compressed <> [] ->
  fst (locate x z n s) = Ok (sector, true) ->
  (Z.of_nat (length compressed) + 5) mod 4096 = 0 ->
  let s' := snd (write_chunk x z P now s) in
  fst (write_chunk x z P now s) = Ok tt /\
  slice (data (file s')) (sector * 4096 + 5) (Z.of_nat (length compressed)) =
    zero_last compressed /\
  fst (get_chunk x z s') = fst (decode_chunk 2 (zero_last compressed) s').
Proof.
  intros Hlen Hinit Hx Hz Hnow compressed n Hn Hne Hloc Hfill s'.
  destruct (init_opened f s (proj1 Hlen) Hinit) as [p ->]. unfold flen in *.
  pose proof (bytes_to_sector_spec (Z.of_nat (length compressed) + 5)) as Hbts. fold n in Hbts.
  assert (Hn1 : 1 <= n) by (apply bytes_to_sector_pos; lia).
  assert (Hexact : Z.of_nat (length compressed) + 5 = n * 4096).
  { pose proof (Z.div_mod (Z.of_nat (length compressed) + 5) 4096 ltac:(lia)) as Hd.
    rewrite Hfill in Hd. lia. }
  destruct (locate_padded (data f) p x z n sector Hx Hz Hloc) as [Hsec Hfull].
  pose proof (append_at_bounds (Z.of_nat (length (data f)))) as Hb. rewrite <- Hsec in Hb.
  destruct (write_chunk_ok (data f) p _ x z P now sector true ltac:(lia) Hx Hz Hfull
              ltac:(lia) Hn Hnow) as [p' Hw].
  fold compressed in Hw. fold n in Hw. subst s'. rewrite Hw. cbn [fst snd].
  pose proof (slice_record_data_exact (data f) sector n compressed ltac:(lia) Hne Hexact)
    as Hrec.
  destruct (written_slot_reads (data f) p' x z P now sector true (zero_last compressed)
              ltac:(lia) Hx Hz ltac:(lia) Hn Hnow ltac:(discriminate) Hne
              (length_zero_last _ Hne) Hrec) as [Hentry Hget].
  fold compressed in Hentry, Hget. fold n in Hentry, Hget.
  split; [reflexivity|]. split.
  - cbn [opened_at file data].
    pose proof (length_record_data (data f) sector n compressed true ltac:(lia) ltac:(lia))
      as Hl. cbv beta iota in Hl.
    assert (Hl0 : 8192 <= Z.of_nat (length (record_data (data f) sector n compressed true)))
      by lia.
    destruct (slot_after_write (record_data (data f) sector n compressed true)
                (slot_bytes sector n) (encode_I now) x z Hx Hz Hl0 eq_refl eq_refl)
      as (_ & _ & _ & _ & Hhigh).
    fold (written_data (data f) x z sector n compressed true now) in Hhigh.
    rewrite Hhigh by lia.
    pose proof (drop_slice (record_data (data f) sector n compressed true) (sector * 4096)
                  (Z.of_nat (length compressed) + 5) 5 ltac:(lia) ltac:(lia)) as D.
    change (Z.of_nat 5) with 5 in D.
    replace (Z.of_nat (length compressed) + 5 - 5) with (Z.of_nat (length compressed)) in D
      by lia.
    rewrite <- D, Hrec. reflexivity.
  - rewrite Hget. rewrite !decode_chunk_parse. apply parse_decompressed_state.
Qed.

End ExactFill.

(** A payload whose record is exactly one sector under the sample codec. *)
Definition exact_payload : list byte := replicate (Z.to_nat 4090) x41.

Lemma exact_fill_append_zeroes_last_byte_witness :
  fst (@get_chunk marker_codec 5 5
         (snd (@write_chunk marker_codec 5 5 exact_payload 1000 (region_of one_chunk_file)))) =
    Ok (Some (replicate (Z.to_nat 4089) x41 ++ [x00])).
Proof.
  assert (H1 : 8192 <= flen one_chunk_file <= 68719468544)
    by (rewrite one_chunk_file_size; lia).
  destruct (@exact_fill_append_zeroes_last_byte marker_codec one_chunk_file
              (region_of one_chunk_file) 5 5 exact_payload 1000 4
              H1 (region_of_opens _ (proj1 H1)) ltac:(lia) ltac:(lia) ltac:(lia))
    as (_ & _ & H).
  - vm_compute. discriminate.
  - discriminate.
  - vm_compute. reflexivity.
  - vm_compute. reflexivity.
  - rewrite H. vm_compute. reflexivity.
Defined.

(** ** What a write touches *)

Lemma lookup_write_at_other (p : Z) (bs d : list byte) (j : nat) :
  (j < length d)%nat -> (j < Z.to_nat p \/ Z.to_nat p + length bs <= j)%nat ->
  write_at p bs d !! j = d !! j.
Proof.
  intros Hj Hout. destruct (decide (bs = [])) as [->|Hbs]; [reflexivity|].
  rewrite lookup_write_at by assumption.
  repeat destruct (decide _); try lia; reflexivity.
Qed.

Lemma length_write_at_ge (p : Z) (bs d : list byte) :
  (length d <= length (write_at p bs d))%nat.
Proof.
  destruct (decide (bs = [])) as [->|Hbs]; [reflexivity|].
  rewrite length_write_at by assumption. lia.
Qed.

Lemma slice_eq_lookup (d d' : list byte) (q m : Z) :
  0 <= q ->
  (forall j : nat, q <= Z.of_nat j < q + m -> d' !! j = d !! j) ->
  slice d' q m = slice d q m.
Proof.
  intros Hq H. apply list_eq. intros i. rewrite !lookup_slice.
  destruct (decide (i < Z.to_nat m)%nat); [|reflexivity]. apply H. lia.
Qed.

(** Outside the sectors of the record and the two slots of its coordinate,
    the old bytes are still there. *)
Lemma written_data_lookup (d : list byte) (x z sector n : Z) (compressed : list byte)
    (pad : bool) (now : Z) (j : nat) :
  0 <= x < 32 -> 0 <= z < 32 -> 0 <= sector ->
  Z.of_nat (length compressed) + 5 <= n * 4096 ->
  8192 <= Z.of_nat (length d) ->
  Z.of_nat j < Z.of_nat (length d) ->
  ~ (4 * (x + z * 32) <= Z.of_nat j < 4 * (x + z * 32) + 4) ->
  ~ (4096 + 4 * (x + z * 32) <= Z.of_nat j < 4096 + 4 * (x + z * 32) + 4) ->
  ~ (sector * 4096 <= Z.of_nat j < (sector + n) * 4096) ->
  written_data d x z sector n compressed pad now !! j = d !! j.
Proof.
  intros Hx Hz Hs Hn Hlen Hj Hslot Hts Hrec. unfold written_data.
  set (d0 := record_data d sector n compressed pad).
  assert (L0 : (length d <= length d0)%nat).
  { subst d0. unfold record_data. cbv zeta. destruct pad.
    - etransitivity; [|apply length_write_at_ge]. apply length_write_at_ge.
    - apply length_write_at_ge. }
  rewrite lookup_write_at_other;
    [|rewrite length_write_at by discriminate; lia|cbn [length encode_I]; lia].
  rewrite lookup_write_at_other; [|lia|unfold slot_bytes, encode_I; cbn [length app tail]; lia].
  subst d0. unfold record_data. cbv zeta.
  pose proof (length_stored_record compressed) as Hr.
  pose proof (length_write_at_ge (sector * 4096) (stored_record compressed) d) as L3.
  destruct pad.
  - rewrite lookup_write_at_other; [|lia|cbn [length]; lia].
    apply lookup_write_at_other; lia.
  - apply lookup_write_at_other; lia.
Qed.

Lemma length_written_data_ge (d : list byte) (x z sector n : Z) (compressed : list byte)
    (pad : bool) (now : Z) :
  (length d <= length (written_data d x z sector n compressed pad now))%nat.
Proof.
  unfold written_data, record_data. cbv zeta.
  etransitivity; [|apply length_write_at_ge].
  etransitivity; [|apply length_write_at_ge].
  destruct pad.
  - etransitivity; [|apply length_write_at_ge]. apply length_write_at_ge.
  - apply length_write_at_ge.
Qed.

(** The slot of another coordinate reads as before, when the record lies
    beyond the tables and the slot was NotCreated or Ok. *)
Lemma parsed_entry_other (d : list byte) (x z sector n : Z) (compressed : list byte)
    (pad : bool) (now i' : Z) :
  0 <= x < 32 -> 0 <= z < 32 -> 2 <= sector ->
  Z.of_nat (length compressed) + 5 <= n * 4096 ->
  8192 <= Z.of_nat (length d) ->
  0 <= i' < 1024 -> i' <> x + z * 32 ->
  entry_sound (parsed_entry d i') = true ->
  parsed_entry (written_data d x z sector n compressed pad now) i' = parsed_entry d i'.
Proof.
  intros Hx Hz Hs Hn Hlen Hi Hne Hsound.
  set (d' := written_data d x z sector n compressed pad now).
  assert (Hfr : forall q m, 0 <= q -> q + m <= 8192 ->
                  (q + m <= 4 * (x + z * 32) \/ 4 * (x + z * 32) + 4 <= q) ->
                  (q + m <= 4096 + 4 * (x + z * 32) \/ 4096 + 4 * (x + z * 32) + 4 <= q) ->
                  slice d' q m = slice d q m).
  { intros q m Hq Hm H1 H2. apply slice_eq_lookup; [exact Hq|]. intros j Hj.
    apply written_data_lookup; try assumption; lia. }
  assert (Eo : raw_offset d' i' = raw_offset d i')
    by (unfold raw_offset; rewrite Hfr by lia; reflexivity).
  assert (El : raw_length d' i' = raw_length d i')
    by (unfold raw_length; rewrite Hfr by lia; reflexivity).
  assert (Et : raw_timestamp d' i' = raw_timestamp d i')
    by (unfold raw_timestamp; rewrite Hfr by lia; reflexivity).
  pose proof (length_written_data_ge d x z sector n compressed pad now) as Lge.
  fold d' in Lge.
  unfold parsed_entry in *. rewrite Eo, El, Et. f_equal.
  pose proof (raw_offset_range d i' ltac:(lia) ltac:(lia)) as Ro.
  pose proof (raw_length_range d i' ltac:(lia) ltac:(lia)) as Rl.
  unfold entry_sound in Hsound. cbn [entry_status entry_offset fst snd] in Hsound.
  set (o := raw_offset d i') in *. set (l := raw_length d i') in *.
  destruct (header_status_cases o l (Z.of_nat (length d)) ltac:(lia) ltac:(lia))
    as [(E & H)|[(E & H)|[(E & H)|[(E & H)|(E & H)]]]];
    rewrite E in Hsound |- *; cbn in Hsound; try discriminate Hsound.
  - destruct H as [-> ->]. reflexivity.
  - unfold header_status.
    destruct (o =? 0) eqn:E1; [lia|]. destruct (l =? 0) eqn:E2; [lia|].
    destruct (o <? 2) eqn:E3; [lia|]. cbn [andb negb].
    destruct ((o + l) * 4096 >? Z.of_nat (length d')) eqn:E4; [lia|reflexivity].
Qed.

Section Frame.
Context {C : Codec}.

(** Where the placement can point. *)
Lemma locate_sector (d : list byte) (p x z n sector : Z) (pad : bool) :
  8192 <= Z.of_nat (length d) -> 0 <= x < 32 -> 0 <= z < 32 -> 0 <= n ->
  fst (locate x z n (opened_at d p)) = Ok (sector, pad) ->
  0 <= sector /\
  (sector < 16777216 \/ sector = append_at (Z.of_nat (length d))) /\
  exists q, locate x z n (opened_at d p) = (Ok (sector, pad), opened_at d q).
Proof.
  intros Hlen Hx Hz Hn Hloc.
  destruct (parsed_entry d (x + 32 * z)) as [[[o l] t] st] eqn:He.
  destruct (parsed_entry_fields d (x + 32 * z) o l t st ltac:(lia) Hlen He) as (Ro & Rl & _).
  destruct (locate_cases d p x z n o l t st Hx Hz He)
    as [(E & _)|[(E & _)|[(sec & next & E & H1 & Hin & Hle & _)|(E & _)]]];
    rewrite E in Hloc |- *; cbn [fst] in Hloc; try discriminate Hloc;
    injection Hloc as <- <-.
  - split; [lia|]. split; [left; lia|]. exists p. reflexivity.
  - split; [lia|]. split; [|exists p; reflexivity]. left.
    apply elem_of_occupied in Hin as (_ & [kx kz] & Hk).
    cbn [opened_at header] in Hk. unfold header_of in Hk.
    apply lookup_table_of_Some in Hk as [Hc Hk]. apply elem_of_coords in Hc as [Hkx Hkz].
    destruct next as [[[no nl] nt] nst]. symmetry in Hk.
    destruct (parsed_entry_fields d (kx + 32 * kz) no nl nt nst ltac:(lia) Hlen Hk)
      as (Rno & _ & _).
    cbn [entry_offset fst] in Hle. lia.
  - pose proof (append_at_bounds (Z.of_nat (length d))) as Hb.
    split; [lia|]. split; [right; reflexivity|]. eexists. reflexivity.
Qed.

(** X18: a write that finds a place changes nothing of the old file outside
    the sectors it gives to the record and the two table slots of its
    coordinate: every other byte keeps its value, and the file never
    shrinks. *)
Theorem write_changes_only_its_bytes
    (f : File) (s : RegionFile) (x z : Z) (P : NBT) (now sector : Z) (pad : bool) :
  8192 <= flen f <= 68719468544 -> RegionFile_init f = Ok s ->
  0 <= x < 32 -> 0 <= z < 32 -> 0 <= now < 4294967296 ->
  let compressed := zlib_compress (write_file P) in
  let n := _bytes_to_sector (Z.of_nat (length compressed) + 5) 4096 in
  n <= 255 ->
  fst (locate x z n s) = Ok (sector, pad) ->
  let s' := snd (write_chunk x z P now s) in
  let i := x + z * 32 in
  fst (write_chunk x z P now s) = Ok tt /\
  flen f <= flen (file s') /\
  forall j : nat,
    Z.of_nat j < flen f ->
    ~ (4 * i <= Z.of_nat j < 4 * i + 4) ->
    ~ (4096 + 4 * i <= Z.of_nat j < 4096 + 4 * i + 4) ->
    ~ (sector * 4096 <= Z.of_nat j < (sector + n) * 4096) ->
    data (file s') !! j = data f !! j.
Proof.
  intros Hlen Hinit Hx Hz Hnow compressed n Hn Hloc s' i.
  destruct (init_opened f s (proj1 Hlen) Hinit) as [p ->]. unfold flen in *.
  pose proof (bytes_to_sector_spec (Z.of_nat (length compressed) + 5)) as Hbts. fold n in Hbts.
  assert (Hn1 : 1 <= n) by (apply bytes_to_sector_pos; lia).
  destruct (locate_sector (data f) p x z n sector pad ltac:(lia) Hx Hz ltac:(lia) Hloc)
    as (Hsec & Hrange & q & Hfull).
  assert (Hsmall : sector < 16777216).
  { destruct Hrange as [H|H]; [exact H|].
    pose proof (append_at_bounds (Z.of_nat (length (data f)))) as Hb. rewrite <- H in Hb.
    lia. }
  destruct (write_chunk_ok (data f) p q x z P now sector pad ltac:(lia) Hx Hz Hfull
              ltac:(lia) Hn Hnow) as [p' Hw].
  fold compressed in Hw. fold n in Hw. subst s'. rewrite Hw.
  cbn [fst snd opened_at file data].
  split; [reflexivity|]. split.
  - pose proof (length_written_data_ge (data f) x z sector n compressed pad now). lia.
  - intros j Hj Hslot Hts Hrec. subst i.
    apply written_data_lookup; try assumption; lia.
Qed.

End Frame.

Lemma write_changes_only_its_bytes_witness :
  data (file (snd (@write_chunk marker_codec 5 5 [x01; x02] 1000
                     (region_of one_chunk_file)))) !! Z.to_nat 8192 =
    data one_chunk_file !! Z.to_nat 8192.
Proof.
  assert (H1 : 8192 <= flen one_chunk_file <= 68719468544)
    by (rewrite one_chunk_file_size; lia).
  destruct (@write_changes_only_its_bytes marker_codec one_chunk_file
              (region_of one_chunk_file) 5 5 [x01; x02] 1000 4 true
              H1 (region_of_opens _ (proj1 H1)) ltac:(lia) ltac:(lia) ltac:(lia))
    as (_ & _ & H).
  - vm_compute. discriminate.
  - vm_compute. reflexivity.
  - apply H.
    + rewrite one_chunk_file_size. lia.
    + cbv zeta. lia.
    + cbv zeta. lia.
    + vm_compute. intros [H2 _]. apply H2. reflexivity.
Defined.

(** ** Reusing the place of a record *)

Section InPlace.
Context {C : Codec}.

(** X19: a record that fits the sectors of an Ok slot beyond the tables is
    written over the old one, wherever the other slots point: the write
    succeeds, the file keeps its length, the slot keeps its offset and now
    holds the sector count of the new record and the time of the write, and
    reading the coordinate returns the payload (provided zlib inverts its
    compression of it into a nonempty string and the tag-tree parser inverts
    its serialization). *)
Theorem overwrite_in_place
    (f : File) (s : RegionFile) (x z : Z) (P : NBT) (now o l t : Z) :
  8192 <= flen f -> RegionFile_init f = Ok s ->
  0 <= now < 4294967296 ->
  header s !! (x, z) = Some (o, l, t, STATUS_CHUNK_OK) -> 2 <= o ->
  let compressed := zlib_compress (write_file P) in
  let n := _bytes_to_sector (Z.of_nat (length compressed) + 5) 4096 in
  n <= l ->
  compressed <> [] ->
  zlib_decompress compressed = inr (write_file P) ->
  NBTFile (write_file P) = inr P ->
  let s' := snd (write_chunk x z P now s) in
  fst (write_chunk x z P now s) = Ok tt /\
  flen (file s') = flen f /\
  header s' !! (x, z) = Some (o, n, now, STATUS_CHUNK_OK) /\
  fst (get_chunk x z s') = Ok (Some P).
Proof.
  intros Hlen Hinit Hnow Hh Ho compressed n Hnl Hne Hzlib Hnbt s'.
  destruct (init_opened f s Hlen Hinit) as [p ->]. unfold flen in *.
  pose proof (bytes_to_sector_spec (Z.of_nat (length compressed) + 5)) as Hbts. fold n in Hbts.
  assert (Hn1 : 1 <= n) by (apply bytes_to_sector_pos; lia).
  cbn [opened_at header] in Hh. unfold header_of in Hh.
  apply lookup_table_of_Some in Hh as [Hc He]. apply elem_of_coords in Hc as [Hx Hz].
  symmetry in He.
  destruct (parsed_entry_fields (data f) (x + 32 * z) o l t _ ltac:(lia) Hlen He)
    as (Ro & Rl & Est).
  assert (Hin : (o + l) * 4096 <= Z.of_nat (length (data f))).
  { destruct (header_status_cases o l (Z.of_nat (length (data f))) ltac:(lia) ltac:(lia))
      as [(E & H)|[(E & H)|[(E & H)|[(E & H)|(E & H)]]]];
      rewrite E in Est; try discriminate Est. lia. }
  assert (Hn255 : n <= 255) by lia.
  assert (Hloc : locate x z n (opened_at (data f) p) = (Ok (o, false), opened_at (data f) p)).
  { rewrite (locate_opened (data f) p x z n o l t _ Hx Hz He).
    change (STATUS_CHUNK_OK =? STATUS_CHUNK_NOT_CREATED) with false.
    change (STATUS_CHUNK_OK =? STATUS_CHUNK_OK) with true. cbn [orb].
    destruct (n <=? l) eqn:En; [reflexivity|lia]. }
  destruct (write_chunk_ok (data f) p p x z P now o false Hlen Hx Hz Hloc
              ltac:(lia) Hn255 Hnow) as [p' Hw].
  fold compressed in Hw. fold n in Hw. subst s'. rewrite Hw. cbn [fst snd].
  assert (Hfit : (o + n) * 4096 <= Z.of_nat (length (data f))) by nia.
  destruct (written_slot_reads_back (data f) p' x z P now o false Hlen Hx Hz
              ltac:(lia) Hn255 Hnow (fun _ => Hfit) ltac:(discriminate) Hne)
    as [Hentry Hget].
  fold compressed in Hentry, Hget. fold n in Hentry, Hget.
  split; [reflexivity|]. split; [|split].
  - cbn [opened_at file data]. unfold written_data.
    pose proof (length_record_data (data f) o n compressed false ltac:(lia) ltac:(lia))
      as Hl. cbv beta iota in Hl.
    assert (Hl0 : 8192 <= Z.of_nat (length (record_data (data f) o n compressed false)))
      by lia.
    destruct (slot_after_write (record_data (data f) o n compressed false)
                (slot_bytes o n) (encode_I now) x z Hx Hz Hl0 eq_refl eq_refl)
      as (_ & _ & _ & Hlen' & _).
    rewrite Hlen'. nia.
  - cbn [opened_at header]. rewrite lookup_header_of by assumption. rewrite Hentry.
    reflexivity.
  - rewrite Hget. rewrite decode_chunk_parse.
    change (2 =? 1) with false. change (2 =? 2) with true. cbv beta iota.
    rewrite Hzlib. unfold parse_decompressed. rewrite Hnbt. reflexivity.
Qed.

(** X20: the tables are not protected from a slot that says offset 0.  Such
    a slot with a nonzero sector count passes as Ok when its sectors lie
    inside the file; a record that fits it is then written at byte 0, so
    for any coordinate but (0,0) the first entry of the offset table ends up
    holding the length field of the record. *)
Theorem offset_zero_slot_overwrites_table
    (f : File) (s : RegionFile) (x z : Z) (P : NBT) (now l t : Z) :
  8192 <= flen f -> RegionFile_init f = Ok s ->
  0 <= now < 4294967296 ->
  header s !! (x, z) = Some (0, l, t, STATUS_CHUNK_OK) -> (x, z) <> (0, 0) ->
  let compressed := zlib_compress (write_file P) in
  let n := _bytes_to_sector (Z.of_nat (length compressed) + 5) 4096 in
  n <= l ->
  let s' := snd (write_chunk x z P now s) in
  fst (write_chunk x z P now s) = Ok tt /\
  slice (data (file s')) 0 4 = encode_I (Z.of_nat (length compressed) + 1).
Proof.
  intros Hlen Hinit Hnow Hh Hxz compressed n Hnl s'.
  destruct (init_opened f s Hlen Hinit) as [p ->]. unfold flen in *.
  pose proof (bytes_to_sector_spec (Z.of_nat (length compressed) + 5)) as Hbts. fold n in Hbts.
  assert (Hn1 : 1 <= n) by (apply bytes_to_sector_pos; lia).
  cbn [opened_at header] in Hh. unfold header_of in Hh.
  apply lookup_table_of_Some in Hh as [Hc He]. apply elem_of_coords in Hc as [Hx Hz].
  symmetry in He.
  destruct (parsed_entry_fields (data f) (x + 32 * z) 0 l t _ ltac:(lia) Hlen He)
    as (_ & Rl & _).
  assert (Hi : 1 <= x + z * 32).
  { destruct (Z.eq_dec x 0) as [->|]; [|lia]. destruct (Z.eq_dec z 0) as [->|]; [|lia].
    congruence. }
  assert (Hn255 : n <= 255) by lia.
  assert (Hloc : locate x z n (opened_at (data f) p) = (Ok (0, false), opened_at (data f) p)).
  { rewrite (locate_opened (data f) p x z n 0 l t _ Hx Hz He).
    change (STATUS_CHUNK_OK =? STATUS_CHUNK_NOT_CREATED) with false.
    change (STATUS_CHUNK_OK =? STATUS_CHUNK_OK) with true. cbn [orb].
    destruct (n <=? l) eqn:En; [reflexivity|lia]. }
  destruct (write_chunk_ok (data f) p p x z P now 0 false Hlen Hx Hz Hloc
              ltac:(lia) Hn255 Hnow) as [p' Hw].
  fold compressed in Hw. fold n in Hw. subst s'. rewrite Hw.
  cbn [fst snd opened_at file data].
  split; [reflexivity|]. unfold written_data, record_data. cbv zeta.
  pose proof (length_write_at_ge (0 * 4096) (stored_record compressed) (data f)) as L0.
  pose proof (length_write_at_ge (4 * (x + z * 32)) (slot_bytes 0 n)
                (write_at (0 * 4096) (stored_record compressed) (data f))) as L1.
  rewrite slice_write_at_outside by (try left; lia).
  rewrite slice_write_at_outside by (try left; lia).
  pose proof (length_stored_record compressed) as Hr.
  rewrite slice_write_at_inside by lia.
  unfold stored_record. apply slice_app_l. reflexivity.
Qed.

End InPlace.

Lemma overwrite_in_place_witness :
  fst (@get_chunk marker_codec 0 0
         (snd (@write_chunk marker_codec 0 0 [x01; x02] 1000 (region_of one_chunk_file)))) =
    Ok (Some [x01; x02]) /\
  flen (file (snd (@write_chunk marker_codec 0 0 [x01; x02] 1000
                     (region_of one_chunk_file)))) = flen one_chunk_file.
Proof.
  assert (H1 : 8192 <= flen one_chunk_file) by (rewrite one_chunk_file_size; lia).
  assert (Hh : header (region_of one_chunk_file) !! (0, 0) = Some (2, 1, 7, STATUS_CHUNK_OK)).
  { rewrite region_of_header by lia. vm_compute. reflexivity. }
  destruct (@overwrite_in_place marker_codec one_chunk_file (region_of one_chunk_file)
              0 0 [x01; x02] 1000 2 1 7 H1 (region_of_opens _ H1) ltac:(lia) Hh ltac:(lia))
    as (_ & Hl & _ & Hg).
  - vm_compute. discriminate.
  - discriminate.
  - reflexivity.
  - reflexivity.
  - split; [exact Hg|exact Hl].
Defined.

(** A container of two sectors whose slot (1,0) says offset 0, one sector. *)
Definition zero_offset_data : list byte :=
  [x00; x00; x00; x00; x00; x00; x00; x01] ++ replicate (Z.to_nat 8184) x00.

Definition zero_offset_file : File := mkFile zero_offset_data 0.

Lemma zero_offset_file_size : flen zero_offset_file = 8192.
Proof. vm_compute. reflexivity. Qed.

Lemma offset_zero_slot_overwrites_table_witness :
  slice (data (file (snd (@write_chunk marker_codec 1 0 [x01] 1000
                            (region_of zero_offset_file))))) 0 4 =
    [x00; x00; x00; x03].
Proof.
  assert (H1 : 8192 <= flen zero_offset_file) by (rewrite zero_offset_file_size; lia).
  assert (Hh : header (region_of zero_offset_file) !! (1, 0) =
               Some (0, 1, 0, STATUS_CHUNK_OK)).
  { rewrite region_of_header by lia. vm_compute. reflexivity. }
  destruct (@offset_zero_slot_overwrites_table marker_codec zero_offset_file
              (region_of zero_offset_file) 1 0 [x01] 1000 1 0
              H1 (region_of_opens _ H1) ltac:(lia) Hh ltac:(discriminate)) as (_ & H).
  - vm_compute. discriminate.
  - rewrite H. reflexivity.
Defined.

(** ** Records that do not overlap *)

(** Each entry of the list ends where the next one begins, or before. *)
Fixpoint chained (l : list (Z * Z * Z * Z)) : bool :=
  match l with
  | a :: ((b :: _) as t) => (entry_offset a + entry_length a <=? entry_offset b) && chained t
  | _ => true
  end.

(** The sectors of two entries are disjoint. *)
Definition apart (a b : Z * Z * Z * Z) : Prop :=
  entry_offset a + entry_length a <= entry_offset b \/
  entry_offset b + entry_length b <= entry_offset a.

Fixpoint all_apart (l : list (Z * Z * Z * Z)) : Prop :=
  match l with
  | [] => True
  | a :: t => Forall (apart a) t /\ all_apart t
  end.

Lemma apart_sym (a b : Z * Z * Z * Z) : apart a b -> apart b a.
Proof. unfold apart. tauto. Qed.

Lemma chained_tail (a : Z * Z * Z * Z) (t : list (Z * Z * Z * Z)) :
  chained (a :: t) = true -> chained t = true.
Proof.
  destruct t as [|b t]; [reflexivity|]. cbn [chained]. intros H.
  apply andb_true_iff in H as [_ H]. exact H.
Qed.

(** In a chained list of entries of nonnegative length, an entry ends before
    every later one begins. *)
Lemma chained_later (a : Z * Z * Z * Z) (t : list (Z * Z * Z * Z)) :
  chained (a :: t) = true -> Forall (fun e => 0 <= entry_length e) t ->
  Forall (fun e => entry_offset a + entry_length a <= entry_offset e) t.
Proof.
  revert a. induction t as [|b t IH]; intros a Hc Hpos; [constructor|].
  cbn [chained] in Hc. apply andb_true_iff in Hc as [H1 H2]. apply Z.leb_le in H1.
  inversion Hpos as [|? ? Hb Ht]; subst. constructor; [exact H1|].
  specialize (IH b H2 Ht). eapply Forall_impl; [exact IH|].
  intros e He. cbv beta in *. lia.
Qed.

Lemma chained_all_apart (l : list (Z * Z * Z * Z)) :
  chained l = true -> Forall (fun e => 0 <= entry_length e) l -> all_apart l.
Proof.
  induction l as [|a t IH]; intros Hc Hpos; [exact I|].
  inversion Hpos as [|? ? Ha Ht]; subst. cbn [all_apart]. split.
  - eapply Forall_impl; [exact (chained_later a t Hc Ht)|].
    intros e He. left. exact He.
  - apply IH; [exact (chained_tail a t Hc)|exact Ht].
Qed.

Lemma all_apart_Permutation (l l' : list (Z * Z * Z * Z)) :
  l ≡ₚ l' -> all_apart l -> all_apart l'.
Proof.
  induction 1 as [|a l l' Hp IH|a b l|l l' l'' H1 IH1 H2 IH2]; cbn [all_apart].
  - tauto.
  - intros [H1 H2]. split; [rewrite <- Hp; exact H1|apply IH; exact H2].
  - intros (H1 & H2 & H3). inversion H1 as [|? ? Hba Hb]; subst.
    split; [constructor; [apply apart_sym; exact Hba|exact H2]|].
    split; [exact Hb|exact H3].
  - intros H. apply IH2, IH1, H.
Qed.

Lemma insert_sorted_Permutation (e : Z * Z * Z * Z) (l : list (Z * Z * Z * Z)) :
  insert_sorted e l ≡ₚ e :: l.
Proof.
  induction l as [|h t IH]; cbn [insert_sorted]; [reflexivity|].
  destruct (entry_leb e h); [reflexivity|]. rewrite IH. apply Permutation_swap.
Qed.

Lemma sorted_Permutation (l : list (Z * Z * Z * Z)) : sorted l ≡ₚ l.
Proof.
  induction l as [|h t IH]; [reflexivity|].
  cbn [sorted fold_right]. fold (sorted t). rewrite insert_sorted_Permutation, IH.
  reflexivity.
Qed.

(** The allocated entries of two different slots both sit in the list of
    occupied entries. *)
Lemma occupied_two (s : RegionFile) (k k' : Z * Z) (e e' : Z * Z * Z * Z) :
  k <> k' -> header s !! k = Some e -> header s !! k' = Some e' ->
  entry_offset e <> 0 -> entry_offset e' <> 0 ->
  exists rest, occupied s ≡ₚ e :: e' :: rest.
Proof.
  intros Hk He He' Ho Ho'.
  pose proof (map_to_list_delete (header s) k e He) as P1.
  assert (He2 : delete k (header s) !! k' = Some e') by (rewrite lookup_delete_ne; auto).
  pose proof (map_to_list_delete (delete k (header s)) k' e' He2) as P2.
  set (R := map_to_list (delete k' (delete k (header s)))) in *.
  assert (P : map_to_list (header s) ≡ₚ (k, e) :: (k', e') :: R).
  { rewrite <- P1, <- P2. reflexivity. }
  exists (filter (fun i => negb (entry_offset i =? 0)) (snd <$> R)).
  unfold occupied, header_values. rewrite sorted_Permutation.
  change (map snd (map_to_list (header s))) with (snd <$> map_to_list (header s)).
  rewrite P. cbn [fmap list_fmap snd].
  rewrite filter_cons_True by (destruct (entry_offset e =? 0) eqn:E; [lia|exact I]).
  rewrite filter_cons_True by (destruct (entry_offset e' =? 0) eqn:E; [lia|exact I]).
  reflexivity.
Qed.

(** A gap found by the search is disjoint from every entry of the list. *)
Lemma search_gap_apart (l : list (Z * Z * Z * Z)) (n sector : Z) :
  chained l = true -> Forall (fun e => 0 <= entry_length e) l ->
  search_gap l n = Some sector ->
  (exists cur, cur ∈ l /\ sector = entry_offset cur + entry_length cur) /\
  Forall (fun e => entry_offset e + entry_length e <= sector \/ sector + n <= entry_offset e) l.
Proof.
  induction l as [|cur l IH]; [discriminate|].
  destruct l as [|nxt rest]; [discriminate|].
  intros Hc Hpos Hg.
  pose proof (chained_later cur (nxt :: rest) Hc (Forall_inv_tail Hpos)) as Hlater.
  pose proof (Forall_inv Hpos) as Hcur. cbv beta in Hcur.
  assert (Hrec : search_gap (nxt :: rest) n = Some sector ->
    (exists c, c ∈ cur :: nxt :: rest /\ sector = entry_offset c + entry_length c) /\
    Forall (fun e => entry_offset e + entry_length e <= sector \/ sector + n <= entry_offset e)
      (cur :: nxt :: rest)).
  { intros H. destruct (IH (chained_tail _ _ Hc) (Forall_inv_tail Hpos) H)
      as ((c & Hin & Hs) & Hall).
    split; [exists c; split; [right; exact Hin|exact Hs]|].
    constructor; [|exact Hall]. left.
    rewrite Forall_forall in Hlater. specialize (Hlater c Hin).
    rewrite Forall_forall in Hpos. specialize (Hpos c ltac:(right; exact Hin)).
    cbv beta in *. lia. }
  cbn [search_gap] in Hg. cbv zeta in Hg.
  destruct (entry_offset nxt - (entry_offset cur + entry_length cur) >=? n) eqn:E1;
    [|exact (Hrec Hg)].
  destruct (entry_offset cur + entry_length cur <=? 1) eqn:E2; [exact (Hrec Hg)|].
  injection Hg as <-.
  split; [exists cur; split; [left|reflexivity]|].
  constructor; [left; lia|].
  pose proof (chained_later nxt rest (chained_tail _ _ Hc)
                (Forall_inv_tail (Forall_inv_tail Hpos))) as Hl2.
  pose proof (Forall_inv (Forall_inv_tail Hpos)) as Hnxt. cbv beta in Hnxt.
  constructor; [right; lia|].
  eapply Forall_impl; [exact Hl2|]. intros e He. cbv beta in *. right. lia.
Qed.


Lemma search_list_cases (l : list (Z * Z * Z * Z)) :
  l <> [] -> search_list l = l \/ search_list l = (2, 0, 0, 0) :: l.
Proof.
  destruct l as [|first rest]; [congruence|]. intros _. unfold search_list.
  destruct (negb (entry_offset first =? 2)); [right|left]; reflexivity.
Qed.

Lemma chained_sentinel (l : list (Z * Z * Z * Z)) :
  chained l = true -> Forall (fun e => 2 <= entry_offset e) l ->
  chained ((2, 0, 0, 0) :: l) = true.
Proof.
  destruct l as [|first rest]; [reflexivity|]. intros Hc Hf.
  apply Forall_inv in Hf. cbv beta in Hf.
  change (chained ((2, 0, 0, 0) :: first :: rest))
    with ((2 + 0 <=? entry_offset first) && chained (first :: rest)).
  rewrite Hc. apply andb_true_iff. split; [apply Z.leb_le; lia|reflexivity].
Qed.

Section OtherRecords.
Context {C : Codec}.

(** What [get_chunk] returns for a slot whose status is not Ok depends on
    the entry alone. *)
Lemma get_chunk_by_status (s s' : RegionFile) (x z o l t st : Z) :
  header s !! (x, z) = Some (o, l, t, st) -> header s' !! (x, z) = Some (o, l, t, st) ->
  st <> STATUS_CHUNK_OK ->
  fst (get_chunk x z s') = fst (get_chunk x z s).
Proof.
  intros H H' Hst. apply Z.eqb_neq in Hst.
  unfold get_chunk, bind, get_header. rewrite H, H'. cbv beta iota. rewrite Hst.
  destruct (st =? STATUS_CHUNK_NOT_CREATED); [reflexivity|].
  destruct (st =? STATUS_CHUNK_IN_HEADER); [reflexivity|].
  destruct (st =? STATUS_CHUNK_MISMATCHED_LENGTHS); [reflexivity|].
  destruct (st =? STATUS_CHUNK_OUT_OF_FILE); reflexivity.
Qed.

(** What [get_chunk] returns for an Ok slot, from the two tables and the
    bytes of the record. *)
Lemma get_chunk_by_record (s s' : RegionFile) (x z o l t : Z) (L c : option Z) (cst : Z) :
  header s !! (x, z) = Some (o, l, t, STATUS_CHUNK_OK) ->
  header s' !! (x, z) = Some (o, l, t, STATUS_CHUNK_OK) ->
  chunk_headers s !! (x, z) = Some (L, c, cst) ->
  chunk_headers s' !! (x, z) = Some (L, c, cst) ->
  0 <= o ->
  (forall len, L = Some len -> 1 < len ->
     slice (data (file s')) (o * 4096 + 5) (len - 1) =
     slice (data (file s)) (o * 4096 + 5) (len - 1)) ->
  fst (get_chunk x z s') = fst (get_chunk x z s).
Proof.
  intros H H' Hc Hc' Ho Hdata.
  unfold get_chunk. unfold bind at 1 6. unfold get_header. rewrite H, H'. cbv beta iota.
  change (STATUS_CHUNK_OK =? STATUS_CHUNK_NOT_CREATED) with false.
  change (STATUS_CHUNK_OK =? STATUS_CHUNK_IN_HEADER) with false.
  change (STATUS_CHUNK_OK =? STATUS_CHUNK_MISMATCHED_LENGTHS) with false.
  change (STATUS_CHUNK_OK =? STATUS_CHUNK_OUT_OF_FILE) with false.
  change (STATUS_CHUNK_OK =? STATUS_CHUNK_OK) with true.
  cbv beta iota.
  unfold bind at 1 5. unfold get_chunk_header. rewrite Hc, Hc'. cbv beta iota.
  destruct (cst =? STATUS_CHUNK_ZERO_LENGTH); [reflexivity|].
  unfold bind at 1 4. unfold ret at 1 2. cbv beta iota.
  destruct L as [len|]; [|reflexivity].
  destruct (len <=? 1) eqn:E1; [reflexivity|].
  unfold bind at 1 3. rewrite !file_seek_ok by lia. cbv beta iota.
  unfold bind at 1 2. rewrite !file_read_ok by lia. cbv beta iota.
  cbn [with_pos file data pos].
  rewrite (Hdata len eq_refl ltac:(lia)).
  destruct c as [c|]; [|reflexivity].
  destruct (c >? 2); [reflexivity|].
  rewrite !decode_chunk_parse. apply parse_decompressed_state.
Qed.

Lemma occupied_lengths (d : list byte) (p : Z) :
  8192 <= Z.of_nat (length d) ->
  Forall (fun e => 0 <= entry_length e) (occupied (opened_at d p)).
Proof.
  intros Hlen. apply Forall_forall. intros e Hin.
  apply elem_of_occupied in Hin as (_ & [kx kz] & Hk).
  cbn [opened_at header] in Hk. unfold header_of in Hk.
  apply lookup_table_of_Some in Hk as [Hc Hk]. apply elem_of_coords in Hc as [Hkx Hkz].
  destruct e as [[[o l] t] st]. symmetry in Hk.
  destruct (parsed_entry_fields d (kx + 32 * kz) o l t st ltac:(lia) Hlen Hk) as (_ & Rl & _).
  cbn [entry_length fst snd]. lia.
Qed.

(** The ways [locate] can succeed, with the outcome of the search. *)
Lemma locate_fst (d : list byte) (p x z n o l t st sector : Z) (pad : bool) :
  0 <= x < 32 -> 0 <= z < 32 ->
  parsed_entry d (x + 32 * z) = (o, l, t, st) ->
  fst (locate x z n (opened_at d p)) = Ok (sector, pad) ->
  ((st =? STATUS_CHUNK_NOT_CREATED) || (st =? STATUS_CHUNK_OK) = true /\
   n <= l /\ sector = o /\ pad = false) \/
  ((st =? STATUS_CHUNK_NOT_CREATED) || (st =? STATUS_CHUNK_OK) = true /\
   occupied (opened_at d p) <> [] /\
   search_gap (search_list (occupied (opened_at d p))) n = Some sector /\ pad = false) \/
  (sector = append_at (Z.of_nat (length d)) /\ pad = true).
Proof.
  intros Hx Hz He Hloc. rewrite (locate_opened d p x z n o l t st Hx Hz He) in Hloc.
  destruct ((st =? STATUS_CHUNK_NOT_CREATED) || (st =? STATUS_CHUNK_OK)).
  - destruct (n <=? l) eqn:En.
    + injection Hloc as <- <-. left.
      split; [reflexivity|]. split; [lia|]. split; reflexivity.
    + destruct (occupied (opened_at d p)) as [|first rest] eqn:Eocc; [discriminate Hloc|].
      destruct (search_gap (search_list (first :: rest)) n) as [sec|] eqn:Eg.
      * injection Hloc as <- <-. right. left.
        split; [reflexivity|]. split; [discriminate|]. split; reflexivity.
      * injection Hloc as <- <-. right. right. split; reflexivity.
  - injection Hloc as <- <-. right. right. split; reflexivity.
Qed.

(** In a container without corrupt slots whose records do not overlap, the
    place found for a record is beyond the tables and disjoint from the
    sectors of every other slot. *)
Lemma locate_apart (d : list byte) (p x z n sector : Z) (pad : bool) :
  8192 <= Z.of_nat (length d) <= 68719468544 -> 0 <= x < 32 -> 0 <= z < 32 -> 1 <= n ->
  well_formed (opened_at d p) = true -> chained (occupied (opened_at d p)) = true ->
  fst (locate x z n (opened_at d p)) = Ok (sector, pad) ->
  2 <= sector < 16777216 /\
  (exists q, locate x z n (opened_at d p) = (Ok (sector, pad), opened_at d q)) /\
  forall k' e', k' <> (x, z) -> header_of d !! k' = Some e' -> entry_offset e' <> 0 ->
    entry_offset e' + entry_length e' <= sector \/ sector + n <= entry_offset e'.
Proof.
  intros Hlen Hx Hz Hn Hwf Hch Hloc.
  destruct (parsed_entry d (x + 32 * z)) as [[[o l] t] st] eqn:He.
  assert (Hh : header_of d !! (x, z) = Some (o, l, t, st))
    by (rewrite lookup_header_of by assumption; congruence).
  pose proof (well_formed_lookup _ (x, z) _ Hwf Hh) as Hs.
  unfold entry_sound in Hs. cbn [entry_status entry_offset fst snd] in Hs.
  destruct (parsed_entry_fields d (x + 32 * z) o l t st ltac:(lia) ltac:(lia) He)
    as (Ro & Rl & Est).
  pose proof (occupied_lengths d p ltac:(lia)) as Hpos.
  assert (Hocc : forall k' e', header_of d !! k' = Some e' -> entry_offset e' <> 0 ->
                   e' ∈ occupied (opened_at d p)).
  { intros k' e' Hk' Ho'. apply elem_of_occupied. split; [exact Ho'|]. exists k'. exact Hk'. }
  destruct (locate_sector d p x z n sector pad ltac:(lia) Hx Hz ltac:(lia) Hloc)
    as (_ & _ & Hq).
  assert (Hst : (st =? STATUS_CHUNK_NOT_CREATED) || (st =? STATUS_CHUNK_OK) = true).
  { destruct (st =? STATUS_CHUNK_NOT_CREATED); [reflexivity|].
    destruct (st =? STATUS_CHUNK_OK); [reflexivity|discriminate Hs]. }
  destruct (locate_fst d p x z n o l t st sector pad Hx Hz He Hloc)
    as [(_ & Hnl & -> & ->)|[(_ & Hne & Eg & ->)|(-> & ->)]].
  - (* the place of the old record *)
    assert (Hok : st = STATUS_CHUNK_OK /\ 2 <= o /\ (o + l) * 4096 <= Z.of_nat (length d)).
    { destruct (header_status_cases o l (Z.of_nat (length d)) ltac:(lia) ltac:(lia))
        as [(E & H)|[(E & H)|[(E & H)|[(E & H)|(E & H)]]]];
        rewrite E in Est; subst st; cbn in Hs; try discriminate Hs; lia. }
    destruct Hok as (-> & Ho2 & Hin).
    split; [lia|]. split; [exact Hq|].
    intros k' e' Hk' He' Ho'.
    destruct (occupied_two (opened_at d p) (x, z) k' (o, l, t, STATUS_CHUNK_OK) e'
                ltac:(congruence) Hh He' ltac:(cbn; lia) Ho') as [rest Hperm].
    pose proof (all_apart_Permutation _ _ Hperm (chained_all_apart _ Hch Hpos)) as Ha.
    cbn [all_apart] in Ha. destruct Ha as [Ha _]. apply Forall_inv in Ha.
    unfold apart in Ha. cbn [entry_offset entry_length fst snd] in Ha.
    destruct Ha as [Ha|Ha]; [right|left]; lia.
  - (* a gap between two records *)
    set (sl := search_list (occupied (opened_at d p))) in *.
    assert (Hsl : forall e, e ∈ occupied (opened_at d p) -> e ∈ sl).
    { intros e Hin. subst sl. destruct (search_list_cases _ Hne) as [-> | ->];
        [|right]; exact Hin. }
    assert (Hchs : chained sl = true /\ Forall (fun e => 0 <= entry_length e) sl).
    { subst sl. destruct (search_list_cases _ Hne) as [-> | ->]; [split; assumption|].
      split; [|constructor; [cbn; lia|exact Hpos]].
      apply chained_sentinel; [exact Hch|]. apply Forall_forall. intros e Hin.
      apply (sound_occupied_entry d p e ltac:(lia) Hwf Hin). }
    destruct Hchs as [Hchs Hposs].
    destruct (search_gap_apart sl n sector Hchs Hposs Eg) as ((cur & Hcur & Hsec) & Hall).
    destruct (search_gap_Some sl n sector Eg) as (H1 & next & Hnext & Hle).
    assert (Hnext' : next ∈ occupied (opened_at d p)).
    { subst sl. apply tail_search_list. exact Hnext. }
    destruct (sound_occupied_entry d p next ltac:(lia) Hwf Hnext') as [Hno _].
    split; [lia|]. split; [exact Hq|].
    intros k' e' Hk' He' Ho'. rewrite Forall_forall in Hall.
    apply (Hall e'). apply Hsl. exact (Hocc k' e' He' Ho').
  - (* the end of the file *)
    pose proof (append_at_bounds (Z.of_nat (length d))) as Hb.
    split; [lia|]. split; [exact Hq|].
    intros k' e' Hk' He' Ho'.
    destruct (sound_occupied_entry d p e' ltac:(lia) Hwf (Hocc k' e' He' Ho')) as [_ Hin'].
    left. pose proof (Hocc k' e' He' Ho') as Hin.
    apply elem_of_occupied in Hin as (_ & [kx kz] & Hk).
    cbn [opened_at header] in Hk.
    pose proof (well_formed_lookup _ (kx, kz) _ Hwf Hk) as Hs'.
    unfold header_of in Hk.
    apply lookup_table_of_Some in Hk as [Hc Hk]. apply elem_of_coords in Hc as [Hkx Hkz].
    destruct e' as [[[o' l'] t'] st']. symmetry in Hk.
    destruct (parsed_entry_fields d (kx + 32 * kz) o' l' t' st' ltac:(lia) ltac:(lia) Hk)
      as (Ro' & Rl' & Est').
    unfold entry_sound in Hs'. cbn [entry_status entry_offset entry_length fst snd] in *.
    destruct (header_status_cases o' l' (Z.of_nat (length d)) ltac:(lia) ltac:(lia))
      as [(E & H)|[(E & H)|[(E & H)|[(E & H)|(E & H)]]]];
      rewrite E in Est'; subst st'; cbn in Hs'; try discriminate Hs'; nia.
Qed.

End OtherRecords.


Section KeepsOthers.
Context {C : Codec}.

(** X21: a write does not disturb the other records.  In a container
    without corrupt slots whose allocated records, sorted by offset, do not
    overlap, after a write at (x,z) that succeeds every other coordinate
    (x',z') of the grid has the same entry in both tables as before, the
    sectors of its record hold the same bytes, and, unless the length field
    of that record overruns its sectors, reading it gives the same result
    as before the write. *)
Theorem write_keeps_other_records
    (f : File) (s : RegionFile) (x z x' z' : Z) (P : NBT) (now : Z) :
  8192 <= flen f <= 68719468544 -> RegionFile_init f = Ok s ->
  well_formed s = true -> chained (occupied s) = true ->
  0 <= x < 32 -> 0 <= z < 32 -> 0 <= now < 4294967296 ->
  _bytes_to_sector (Z.of_nat (length (zlib_compress (write_file P))) + 5) 4096 <= 255 ->
  fst (write_chunk x z P now s) = Ok tt ->
  0 <= x' < 32 -> 0 <= z' < 32 -> (x', z') <> (x, z) ->
  let s' := snd (write_chunk x z P now s) in
  header s' !! (x', z') = header s !! (x', z') /\
  chunk_headers s' !! (x', z') = chunk_headers s !! (x', z') /\
  (forall o l t st, header s !! (x', z') = Some (o, l, t, st) ->
     slice (data (file s')) (o * 4096) (l * 4096) = slice (data f) (o * 4096) (l * 4096)) /\
  (forall L c st, chunk_headers s !! (x', z') = Some (L, c, st) ->
     st <> STATUS_CHUNK_MISMATCHED_LENGTHS ->
     fst (get_chunk x' z' s') = fst (get_chunk x' z' s)).
Proof.
  intros Hlen Hinit Hwf Hch Hx Hz Hnow Hn Hsucc Hx' Hz' Hne s'.
  destruct (init_opened f s (proj1 Hlen) Hinit) as [p ->]. unfold flen in *.
  set (compressed := zlib_compress (write_file P)) in *.
  set (n := _bytes_to_sector (Z.of_nat (length compressed) + 5) 4096) in *.
  set (d := data f) in *.
  pose proof (bytes_to_sector_spec (Z.of_nat (length compressed) + 5)) as Hbts. fold n in Hbts.
  assert (Hn1 : 1 <= n) by (apply bytes_to_sector_pos; lia).
  (* the place of the record *)
  assert (Hloc : exists sector pad, fst (locate x z n (opened_at d p)) = Ok (sector, pad)).
  { destruct (locate x z n (opened_at d p)) as [[[sector pad]|e] s1] eqn:E.
    - exists sector, pad. reflexivity.
    - exfalso. unfold write_chunk in Hsucc. cbv zeta in Hsucc.
      fold compressed in Hsucc. fold n in Hsucc.
      rewrite (bind_raise _ _ _ _ _ E) in Hsucc. discriminate Hsucc. }
  destruct Hloc as (sector & pad & Hloc).
  destruct (locate_apart d p x z n sector pad Hlen Hx Hz Hn1 Hwf Hch Hloc)
    as (Hsec & (q & Hfull) & Hapart).
  destruct (write_chunk_ok d p q x z P now sector pad ltac:(lia) Hx Hz Hfull
              ltac:(lia) Hn Hnow) as [p' Hw].
  fold compressed in Hw. fold n in Hw. subst s'. rewrite Hw. clear Hsucc.
  cbn [fst snd opened_at file data header chunk_headers].
  set (d' := written_data d x z sector n compressed pad now).
  pose proof (length_written_data_ge d x z sector n compressed pad now) as Lge. fold d' in Lge.
  (* the slot of the other coordinate *)
  assert (Hi' : x' + 32 * z' <> x + z * 32).
  { intros E. apply Hne. f_equal; lia. }
  destruct (parsed_entry d (x' + 32 * z')) as [[[o l] t] st] eqn:He.
  assert (Hh : header_of d !! (x', z') = Some (o, l, t, st))
    by (rewrite lookup_header_of by assumption; congruence).
  pose proof (well_formed_lookup _ (x', z') _ Hwf Hh) as Hsound.
  assert (He' : parsed_entry d' (x' + 32 * z') = (o, l, t, st)).
  { subst d'. rewrite parsed_entry_other; try assumption; try lia.
    rewrite He. exact Hsound. }
  destruct (parsed_entry_fields d (x' + 32 * z') o l t st ltac:(lia) ltac:(lia) He)
    as (Ro & Rl & Est).
  unfold entry_sound in Hsound. cbn [entry_status entry_offset fst snd] in Hsound.
  (* the sectors of the other record *)
  assert (Hown : forall a m, o * 4096 <= a -> a + m <= (o + l) * 4096 ->
                   slice d' a m = slice d a m).
  { intros a m Ha Hm.
    destruct (header_status_cases o l (Z.of_nat (length d)) ltac:(lia) ltac:(lia))
      as [(E & H)|[(E & H)|[(E & H)|[(E & H)|(E & H)]]]];
      rewrite E in Est; subst st; cbn in Hsound; try discriminate Hsound.
    - destruct H as [-> ->]. unfold slice.
      destruct (Z_le_gt_dec m 0) as [Hm0|Hm0].
      + replace (Z.to_nat m) with 0%nat by lia. reflexivity.
      + lia.
    - assert (Ho2 : 2 <= o) by lia.
      specialize (Hapart (x', z') (o, l, t, STATUS_CHUNK_OK) Hne Hh ltac:(cbn; lia)).
      cbn [entry_offset entry_length fst snd] in Hapart.
      apply slice_eq_lookup; [lia|]. intros j Hj. subst d'.
      apply written_data_lookup; try assumption; lia. }
  assert (Hchd : chunk_header_of d' (o, l, t, st) = chunk_header_of d (o, l, t, st)).
  { destruct (header_status_cases o l (Z.of_nat (length d)) ltac:(lia) ltac:(lia))
      as [(E & H)|[(E & H)|[(E & H)|[(E & H)|(E & H)]]]];
      rewrite E in Est; subst st; cbn in Hsound; try discriminate Hsound.
    - reflexivity.
    - unfold chunk_header_of, chunk_length_at, chunk_compression_at.
      rewrite !Hown by lia. reflexivity. }
  assert (Hh' : header_of d' !! (x', z') = Some (o, l, t, st))
    by (rewrite lookup_header_of by assumption; congruence).
  assert (Hc : chunk_headers_of d !! (x', z') = Some (chunk_header_of d (o, l, t, st)))
    by (rewrite lookup_chunk_headers_of by assumption; congruence).
  assert (Hc' : chunk_headers_of d' !! (x', z') = Some (chunk_header_of d (o, l, t, st)))
    by (rewrite lookup_chunk_headers_of by assumption; congruence).
  split; [congruence|]. split; [congruence|]. split.
  - intros o0 l0 t0 st0 E. rewrite Hh in E. injection E as <- <- <- <-.
    apply Hown; lia.
  - intros L c cst Hcst0 Hmis.
    assert (Hcst : chunk_header_of d (o, l, t, st) = (L, c, cst)) by congruence.
    clear Hcst0. rewrite Hcst in Hc, Hc'.
    destruct (Z.eq_dec st STATUS_CHUNK_OK) as [->|Hnok].
    + apply (get_chunk_by_record (opened_at d p) (opened_at d' p') x' z' o l t L c cst
               Hh Hh' Hc Hc' (proj1 Ro)).
      cbn [opened_at file data].
      intros len -> Hlen1.
      unfold chunk_header_of in Hcst.
      change (STATUS_CHUNK_OK =? STATUS_CHUNK_NOT_CREATED) with false in Hcst.
      change (STATUS_CHUNK_OK =? STATUS_CHUNK_OK) with true in Hcst.
      cbv beta iota zeta in Hcst. injection Hcst as HL Hc0 Hst0.
      rewrite HL in Hst0.
      destruct (len =? 0) eqn:E0; [lia|].
      destruct (len + 4 >? l * 4096) eqn:E4; [congruence|].
      apply Hown; lia.
    + exact (get_chunk_by_status (opened_at d p) (opened_at d' p') x' z' o l t st
               Hh Hh' Hnok).
Qed.

End KeepsOthers.

Lemma chained_one_chunk : chained (occupied (region_of one_chunk_file)) = true.
Proof. rewrite occupied_one_chunk. reflexivity. Qed.

Lemma write_keeps_other_records_witness :
  fst (@get_chunk marker_codec 0 0
         (snd (@write_chunk marker_codec 5 5 [x01; x02] 1000 (region_of one_chunk_file)))) =
    fst (@get_chunk marker_codec 0 0 (region_of one_chunk_file)).
Proof.
  assert (H1 : 8192 <= flen one_chunk_file <= 68719468544)
    by (rewrite one_chunk_file_size; lia).
  destruct (@write_keeps_other_records marker_codec one_chunk_file
              (region_of one_chunk_file) 5 5 0 0 [x01; x02] 1000
              H1 (region_of_opens _ (proj1 H1))) as (_ & _ & _ & H).
  - vm_compute. reflexivity.
  - exact chained_one_chunk.
  - lia.
  - lia.
  - lia.
  - vm_compute. discriminate.
  - vm_compute. reflexivity.
  - lia.
  - lia.
  - discriminate.
  - apply (H (Some 3) (Some 2) STATUS_CHUNK_OK); [|discriminate].
    destruct (region_of_opened one_chunk_file (proj1 H1)) as [p ->].
    cbn [opened_at chunk_headers]. rewrite lookup_chunk_headers_of by lia.
    vm_compute. reflexivity.
Defined.

(** ** Iterating over the records *)

Section Yielding.
Context {C : Codec}.

(** The cursor does not matter to what [get_chunk] returns. *)
Lemma get_chunk_cursor (d : list byte) (p p' x z : Z) :
  8192 <= Z.of_nat (length d) -> 0 <= x < 32 -> 0 <= z < 32 ->
  fst (get_chunk x z (opened_at d p')) = fst (get_chunk x z (opened_at d p)).
Proof.
  intros Hlen Hx Hz.
  destruct (parsed_entry d (x + 32 * z)) as [[[o l] t] st] eqn:He.
  assert (Hh : forall q, header (opened_at d q) !! (x, z) = Some (o, l, t, st)).
  { intros q. cbn [opened_at header]. rewrite lookup_header_of by assumption. congruence. }
  destruct (parsed_entry_fields d (x + 32 * z) o l t st ltac:(lia) Hlen He) as (Ro & _ & _).
  destruct (Z.eq_dec st STATUS_CHUNK_OK) as [->|Hne].
  - destruct (chunk_header_of d (o, l, t, STATUS_CHUNK_OK)) as [[L c] cst] eqn:Ec.
    assert (Hc : forall q, chunk_headers (opened_at d q) !! (x, z) = Some (L, c, cst)).
    { intros q. cbn [opened_at chunk_headers].
      rewrite lookup_chunk_headers_of by assumption. congruence. }
    apply (get_chunk_by_record (opened_at d p) (opened_at d p') x z o l t L c cst
             (Hh p) (Hh p') (Hc p) (Hc p') (proj1 Ro)).
    intros len _ _. reflexivity.
  - exact (get_chunk_by_status (opened_at d p) (opened_at d p') x z o l t st
             (Hh p) (Hh p') Hne).
Qed.

(** What the iteration does with one dictionary of the listing: the value
    that [get_chunk] returns is yielded, an exception means no value. *)
Definition yielded (s : RegionFile) (cc : ChunkCoord) : option (option NBT) :=
  match fst (get_chunk (cc_x cc) (cc_z cc) s) with
  | Ok r => Some r
  | Raise _ => None
  end.

Lemma iter_chunks_yields (d : list byte) (p0 : Z) (l : list ChunkCoord) :
  8192 <= Z.of_nat (length d) ->
  (forall cc, cc ∈ l ->
     0 <= cc_x cc < 32 /\ 0 <= cc_z cc < 32 /\
     exists o ln t st, header_of d !! (cc_x cc, cc_z cc) = Some (o, ln, t, st) /\ 0 < o) ->
  forall (acc : list (option NBT)) (p : Z),
  exists q,
    fold_ l (fun acc cc =>
               catch_format (r <- get_chunk (cc_x cc) (cc_z cc) ;; ret (acc ++ [r])) (ret acc))
      acc (opened_at d p) = (Ok (acc ++ omap (yielded (opened_at d p0)) l), opened_at d q).
Proof.
  intros Hlen. induction l as [|cc l IH]; intros Hl acc p.
  - exists p. cbn [fold_ omap list_omap]. rewrite app_nil_r. reflexivity.
  - destruct (Hl cc ltac:(left)) as (Hx & Hz & o & ln & t & st & He & Ho).
    destruct (get_chunk_outcome_opened d p (cc_x cc) (cc_z cc) Hlen Hx Hz) as [[q Hq] Hout].
    assert (IH' := fun acc p => IH (fun c Hc => Hl c ltac:(right; exact Hc)) acc p).
    pose proof (get_chunk_cursor d p p0 (cc_x cc) (cc_z cc) Hlen Hx Hz) as Hcur.
    cbn [fold_ omap list_omap]. unfold yielded at 1. rewrite Hcur.
    unfold bind at 1. unfold catch_format at 1. unfold bind at 1.
    destruct (get_chunk (cc_x cc) (cc_z cc) (opened_at d p)) as [[r|e] s1] eqn:E;
      cbn [fst snd] in Hq, Hout |- *; subst s1.
    + unfold ret at 1. cbv beta iota.
      destruct (IH' (acc ++ [r]) q) as (q' & Hf).
      exists q'. rewrite Hf. rewrite <- (assoc_L (++)). reflexivity.
    + destruct Hout as [Hfmt|[_ [t' Hnc]]].
      * rewrite Hfmt. unfold ret at 1. cbv beta iota.
        destruct (IH' acc q) as (q' & Hf). exists q'. exact Hf.
      * cbn [opened_at header] in Hnc. rewrite He in Hnc. injection Hnc as -> _ _ _. lia.
Qed.

(** X11: iterating over an opened container never raises, whatever the
    bytes of the file are, and yields exactly this: for each dictionary of
    the listing of [get_chunk_coords], in the order of the listing, the
    value that [get_chunk] returns for its coordinate, and nothing for a
    coordinate where [get_chunk] raises; an exception of [get_chunk] on a
    listed coordinate is always a format error.  So the values yielded are
    at most as many as [chunk_count] says. *)
Theorem iteration_never_raises (f : File) (s : RegionFile) :
  8192 <= flen f -> RegionFile_init f = Ok s ->
  exists chunks,
    fst (get_chunk_coords s) = Ok chunks /\
    fst (iter_chunks s) = Ok (omap (yielded s) chunks) /\
    (forall cc e, cc ∈ chunks ->
       fst (get_chunk (cc_x cc) (cc_z cc) s) = Raise e ->
       is_RegionFileFormatError e = true) /\
    fst (chunk_count s) = Ok (Z.of_nat (length chunks)) /\
    (length (omap (yielded s) chunks) <= length chunks)%nat.
Proof.
  intros Hlen Hinit. destruct (init_opened f s Hlen Hinit) as [p ->].
  unfold flen in Hlen.
  set (chunks := omap (listed (opened_at (data f) p)) coords).
  assert (Hgrid : forall cc, cc ∈ chunks ->
     0 <= cc_x cc < 32 /\ 0 <= cc_z cc < 32 /\
     exists o ln t st,
       header_of (data f) !! (cc_x cc, cc_z cc) = Some (o, ln, t, st) /\ 0 < o).
  { intros [x z c] Hin. apply list_elem_of_omap in Hin as ([x' z'] & Hk & Hli).
    apply elem_of_coords in Hk as [Hx Hz]. unfold listed in Hli.
    destruct (chunk_headers (opened_at (data f) p) !! (x', z')) as [c'|]; [|discriminate].
    destruct (header (opened_at (data f) p) !! (x', z')) as [[[[o l] t] st]|] eqn:He;
      [|discriminate].
    cbn [entry_offset fst snd] in Hli. destruct (o >? 0) eqn:Eo; [|discriminate].
    injection Hli as E1 E2 E3. subst x z c. cbn [cc_x cc_z].
    split; [lia|]. split; [lia|]. exists o, l, t, st. split; [exact He|lia]. }
  exists chunks.
  split; [unfold chunks; rewrite get_chunk_coords_opened; reflexivity|].
  split; [|split; [|split]].
  - unfold iter_chunks.
    rewrite (bind_ok get_chunk_coords _ _ _ _ (get_chunk_coords_opened (data f) p)).
    fold chunks.
    destruct (iter_chunks_yields (data f) p chunks Hlen Hgrid [] p) as (q & Hf).
    rewrite Hf. reflexivity.
  - intros cc e Hin He.
    destruct (Hgrid cc Hin) as (Hx & Hz & o & ln & t & st & Hh & Ho).
    destruct (get_chunk_outcome_opened (data f) p (cc_x cc) (cc_z cc) Hlen Hx Hz)
      as [_ Hout].
    rewrite He in Hout. destruct Hout as [Hfmt|[_ [t' Hnc]]]; [exact Hfmt|].
    cbn [opened_at header] in Hnc. rewrite Hh in Hnc. injection Hnc as -> _ _ _. lia.
  - unfold chunk_count.
    rewrite (bind_ok get_chunk_coords _ _ _ _ (get_chunk_coords_opened (data f) p)).
    reflexivity.
  - apply length_omap_le.
Qed.

End Yielding.

Lemma iteration_never_raises_witness :
  fst (@iter_chunks marker_codec (region_of one_chunk_file)) = Ok [Some [x41]].
Proof.
  assert (H1 : 8192 <= flen one_chunk_file) by (rewrite one_chunk_file_size; lia).
  destruct (@iteration_never_raises marker_codec one_chunk_file (region_of one_chunk_file)
              H1 (region_of_opens _ H1)) as (chunks & Hc & Hi & _).
  rewrite listing_one_chunk in Hc. injection Hc as <-.
  rewrite Hi. vm_compute. reflexivity.
Defined.
